(** * Data validation pipeline (Sprints/Sprint1/mini_project.py)

    A shallow embedding of the six validation stages and of the
    orchestrator [main], followed by the properties of the pipeline.

    Modelling conventions.
    - A pandas [DataFrame] as [read_csv] builds it: an ordered list of named,
      typed columns over a [RangeIndex]; its length is the length of the
      columns.  Two dtypes occur: [float64] (numbers or NaN) and [object]
      (text or NaN).
    - A [float64] value is modelled by the rational number it denotes
      (infinities and integer-typed columns are left out); arithmetic on
      scores is exact rational arithmetic, rounding of binary floating point
      is not modelled.  The literal [6.67] is [667/100].
    - The logger is an append-only list of records (level, message).  A
      message built by an f-string is a constructor holding the values that
      the f-string interpolates; number and table rendering is not modelled.
    - Python exceptions are an error monad layered over the log. *)

From Stdlib Require Import String Ascii List Bool Arith PeanoNat Lia.
From Stdlib Require Import ZArith QArith Qminmax Lqa Permutation Sorted.
Import ListNotations.

Local Open Scope string_scope.
Local Open Scope nat_scope.
Local Open Scope list_scope.

(* ------------------------------------------------------------------ *)
(** * Tables *)

(** A value as a row sees it: NaN (null), a number or a text. *)
Inductive cell : Type :=
| NaN
| Num (x : Q)
| Str (s : string).

(** A column with its dtype. *)
Inductive Series : Type :=
| Float64 (values : list (option Q))
| Object (values : list (option string)).

Definition dtype (s : Series) : string :=
  match s with
  | Float64 _ => "float64"
  | Object _ => "object"
  end.

Definition num_cell (o : option Q) : cell :=
  match o with Some x => Num x | None => NaN end.

Definition str_cell (o : option string) : cell :=
  match o with Some s => Str s | None => NaN end.

Definition cells (s : Series) : list cell :=
  match s with
  | Float64 v => map num_cell v
  | Object v => map str_cell v
  end.

Record DataFrame : Type := mkDataFrame {
  data : list (string * Series)     (* columns, left to right *)
}.

(** [len(df)]: the length of the index, which is the length of a column. *)
Definition len (df : DataFrame) : nat :=
  match data df with
  | [] => 0
  | c :: _ => length (cells (snd c))
  end.

(** [df.columns] *)
Definition columns (df : DataFrame) : list string := map fst (data df).

(** [col in df.columns] *)
Definition has_column (col : string) (df : DataFrame) : bool :=
  existsb (String.eqb col) (columns df).

Fixpoint lookup (col : string) (d : list (string * Series)) : option Series :=
  match d with
  | [] => None
  | (c, s) :: d' => if String.eqb col c then Some s else lookup col d'
  end.

(** [df[col]] for a label that may be absent. *)
Definition getitem (df : DataFrame) (col : string) : option Series :=
  lookup col (data df).

(** Every column has one value per index entry. *)
Definition well_formed (df : DataFrame) : Prop :=
  Forall (fun c => length (cells (snd c)) = len df) (data df).

(** The row at position [i]: one cell per column. *)
Definition row_at (df : DataFrame) (i : nat) : list cell :=
  map (fun c => nth i (cells (snd c)) NaN) (data df).

(** [df.iterrows()]: index label and row. *)
Definition iterrows (df : DataFrame) : list (nat * list cell) :=
  map (fun i => (i, row_at df i)) (seq 0 (len df)).

(* ------------------------------------------------------------------ *)
(** * Boolean masks *)

Definition mask := list bool.

(** [mask.sum()] *)
Definition mask_sum (m : mask) : nat := length (filter (fun b => b) m).

(** [m1 | m2] *)
Fixpoint mask_or (m1 m2 : mask) : mask :=
  match m1, m2 with
  | b1 :: r1, b2 :: r2 => (b1 || b2) :: mask_or r1 r2
  | _, _ => []
  end.

(** [~m] *)
Definition mask_not (m : mask) : mask := map negb m.

(** Keep the elements of [l] whose mask bit is set. *)
Fixpoint select {A : Type} (l : list A) (m : mask) : list A :=
  match l, m with
  | x :: l', b :: m' => if b then x :: select l' m' else select l' m'
  | _, _ => []
  end.

(** [df[mask]]: the selected rows, each with its index label. *)
Definition df_select (df : DataFrame) (m : mask) : list (nat * list cell) :=
  select (iterrows df) m.

(** [row[col]] on a row of [df]; an absent label raises KeyError. *)
Fixpoint row_get (cols : list string) (row : list cell) (col : string)
  : option cell :=
  match cols, row with
  | c :: cols', v :: row' =>
      if String.eqb col c then Some v else row_get cols' row' col
  | _, _ => None
  end.

(* ------------------------------------------------------------------ *)
(** * Column operations *)

Definition is_none {A : Type} (o : option A) : bool :=
  match o with None => true | Some _ => false end.

(** [s.isnull()] *)
Definition isnull (s : Series) : mask :=
  match s with
  | Float64 v => map is_none v
  | Object v => map is_none v
  end.

Inductive exn : Type :=
| FileNotFoundError
| EmptyDataError
| KeyError (key : string)
| TypeError
| ZeroDivisionError
| OtherError (what : string)     (* any other subclass of Exception *)
| SystemExit (code : nat).       (* raised by sys.exit, not an Exception *)

Definition Qltb (x y : Q) : bool := negb (Qle_bool y x).

(** Elementwise comparison of a column with a number.  NaN compares false.
    On an object column each non-null element is a Python [str], and
    comparing a [str] with a [float] raises TypeError. *)
Definition compare_scalar (op : Q -> bool) (s : Series)
  : exn + mask :=
  match s with
  | Float64 v =>
      inr (map (fun o => match o with Some y => op y | None => false end) v)
  | Object v =>
      if forallb is_none v then inr (map (fun _ => false) v) else inl TypeError
  end.

(** [s < x] *)
Definition series_lt (s : Series) (x : Q) : exn + mask :=
  compare_scalar (fun y => Qltb y x) s.

(** [s > x] *)
Definition series_gt (s : Series) (x : Q) : exn + mask :=
  compare_scalar (fun y => Qltb x y) s.

(** [s.isin(values)] for a list of texts: NaN and numbers are not members. *)
Definition isin (s : Series) (values : list string) : mask :=
  match s with
  | Float64 v => map (fun _ => false) v
  | Object v =>
      map (fun o => match o with
                    | Some t => existsb (String.eqb t) values
                    | None => false
                    end) v
  end.

(* ------------------------------------------------------------------ *)
(** * Row equality, duplicates and sorting *)

(** Equality as [duplicated] sees it: NaN equals NaN. *)
Definition cell_eqb (a b : cell) : bool :=
  match a, b with
  | NaN, NaN => true
  | Num x, Num y => Qeq_bool x y
  | Str s, Str t => String.eqb s t
  | _, _ => false
  end.

Fixpoint row_eqb (r1 r2 : list cell) : bool :=
  match r1, r2 with
  | [], [] => true
  | a :: r1', b :: r2' => cell_eqb a b && row_eqb r1' r2'
  | _, _ => false
  end.

Section Duplicated.
Context {A : Type} (eqb : A -> A -> bool).

Definition occurs (x : A) (l : list A) : bool := existsb (eqb x) l.

Definition occurrences (x : A) (l : list A) : nat :=
  length (filter (eqb x) l).

(** [duplicated()] (keep='first'): a row is marked when an earlier row
    equals it. *)
Fixpoint duplicated_from (seen rows : list A) : mask :=
  match rows with
  | [] => []
  | r :: rows' => occurs r seen :: duplicated_from (r :: seen) rows'
  end.

Definition duplicated_first (rows : list A) : mask :=
  duplicated_from [] rows.

(** [duplicated(keep=False)]: every row of a group of equal rows with
    more than one member is marked. *)
Definition duplicated_all (rows : list A) : mask :=
  map (fun r => 2 <=? occurrences r rows) rows.

End Duplicated.

(** The rows of the table, top to bottom. *)
Definition rows (df : DataFrame) : list (list cell) :=
  map (row_at df) (seq 0 (len df)).

(** [df.duplicated()] and [df.duplicated(keep=False)] *)
Definition df_duplicated (df : DataFrame) : mask :=
  duplicated_first row_eqb (rows df).

Definition df_duplicated_all (df : DataFrame) : mask :=
  duplicated_all row_eqb (rows df).

(** [df.duplicated(subset=[col], keep=False)] for the column [s = df[col]] *)
Definition key_duplicated_all (s : Series) : mask :=
  duplicated_all cell_eqb (cells s).

(** Order used by [sort_values]: ascending, NaN last.  Cells of one column
    have one type; across types numbers are put before texts to keep the
    order total. *)
Definition cell_leb (a b : cell) : bool :=
  match a, b with
  | _, NaN => true
  | NaN, _ => false
  | Num x, Num y => Qle_bool x y
  | Str s, Str t => String.leb s t
  | Num _, Str _ => true
  | Str _, Num _ => false
  end.

(** Rows compared column by column, left to right. *)
Fixpoint row_leb (r1 r2 : list cell) : bool :=
  match r1, r2 with
  | [], _ => true
  | _ :: _, [] => false
  | a :: r1', b :: r2' =>
      if cell_leb a b then (if cell_leb b a then row_leb r1' r2' else true)
      else false
  end.

Section Sort.
Context {A : Type} (leb : A -> A -> bool).

Fixpoint insert_sorted (x : A) (l : list A) : list A :=
  match l with
  | [] => [x]
  | y :: l' => if leb x y then x :: l else y :: insert_sorted x l'
  end.

(** A stable sort. *)
Definition sort (l : list A) : list A :=
  fold_right insert_sorted [] l.

End Sort.

Definition labelled_leb (x y : nat * list cell) : bool :=
  row_leb (snd x) (snd y).

(** [d.sort_values(by=list(df.columns))] on selected rows. *)
Definition sort_values (d : list (nat * list cell)) : list (nat * list cell) :=
  sort labelled_leb d.

(** [s.value_counts()]: the distinct non-null values with their number of
    occurrences, most frequent first. *)
Fixpoint distinct (l : list cell) : list cell :=
  match l with
  | [] => []
  | x :: l' => x :: filter (fun y => negb (cell_eqb x y)) (distinct l')
  end.

Definition notnull (c : cell) : bool :=
  match c with NaN => false | _ => true end.

Definition value_counts (l : list cell) : list (cell * nat) :=
  let present := filter notnull l in
  sort (fun a b => snd b <=? snd a)
       (map (fun v => (v, occurrences cell_eqb v present)) (distinct present)).

(* ------------------------------------------------------------------ *)
(** * Logging *)

Inductive level : Type := DEBUG | INFO | WARNING | ERROR | CRITICAL.

Definition level_no (l : level) : nat :=
  match l with
  | DEBUG => 10 | INFO => 20 | WARNING => 30 | ERROR => 40 | CRITICAL => 50
  end.

Inductive rating : Type := EXCELLENT | GOOD | FAIR | POOR.

(** One constructor per f-string of the program; [Line] is a literal. *)
Inductive message : Type :=
| Line (text : string)
| MissingColumns (missing_cols : list string)
| TypeOk (col actual_type : string)
| TypeFail (col expected_type actual_type : string)
| SchemaFailed (issues : nat)
| NullColumnsFound (n : nat)
| NullColumn (col : string) (count : nat) (pct : Q)
| NullRowIndices (null_row_indices : list nat)
| FullDupesFound (n_full_dupes : nat)
| DuplicateRows (dupe_df : list (nat * list cell))
| KeyDupesFound (n_key_dupes : nat)
| KeyCount (story_id : cell) (count : nat)
| KeyDupeRows (dupe_df : list (nat * list cell))
| InvalidHoursFound (n : nat)
| InvalidHoursRow (idx : nat) (story_id est_hours : cell)
| InvalidPhaseFound (n : nat)
| InvalidPhaseRow (idx : nat) (story_id phase : cell)
| InvalidTypeFound (n : nat)
| InvalidTypeRow (idx : nat) (story_id type : cell)
| QualityScore (score : Q)
| Rating (r : rating)
| Deduction (category : string) (deduction : Q)
| LoadingCsv (filename : string)
| Shape (n_rows n_cols : nat)
| FileNotFound (filename : string)
| FileEmpty (filename : string)
| UnexpectedError (e : exn).

Definition record : Type := level * message.
Definition Log : Type := list record.

(** A computation appends records to the log and then returns a value or
    raises; records written before a raise stay in the log. *)
Definition M (A : Type) : Type := Log * (exn + A).

Definition ret {A : Type} (a : A) : M A := ([], inr a).

Definition raise {A : Type} (e : exn) : M A := ([], inl e).

Definition bind {A B : Type} (c : M A) (k : A -> M B) : M B :=
  match c with
  | (l1, inl e) => (l1, inl e)
  | (l1, inr a) => let (l2, r) := k a in (l1 ++ l2, r)
  end.

Notation "x <- c ;; k" := (bind c (fun x => k))
  (at level 61, c at next level, right associativity).
Notation "c ;; k" := (bind c (fun _ => k))
  (at level 61, right associativity).

Definition lift {A : Type} (r : exn + A) : M A := ([], r).

(** [logging.basicConfig(level=logging.INFO)]: DEBUG records are dropped. *)
Definition basic_level : level := INFO.

Definition emit (lvl : level) (msg : message) : M unit :=
  if level_no basic_level <=? level_no lvl then ([(lvl, msg)], inr tt)
  else ([], inr tt).

Definition logger_debug := emit DEBUG.
Definition logger_info := emit INFO.
Definition logger_warning := emit WARNING.
Definition logger_error := emit ERROR.
Definition logger_critical := emit CRITICAL.

Fixpoint for_each {A : Type} (l : list A) (body : A -> M unit) : M unit :=
  match l with
  | [] => ret tt
  | x :: l' => body x ;; for_each l' body
  end.

(** A loop that updates one local variable. *)
Fixpoint for_fold {A S : Type} (l : list A) (s : S) (body : S -> A -> M S)
  : M S :=
  match l with
  | [] => ret s
  | x :: l' => s' <- body s x ;; for_fold l' s' body
  end.

Definition output {A : Type} (c : M A) : Log := fst c.
Definition outcome {A : Type} (c : M A) : exn + A := snd c.

(** [s * n] on a text. *)
Fixpoint times (s : string) (n : nat) : string :=
  match n with
  | O => EmptyString
  | S n' => String.append s (times s n')
  end.

Definition nl : string := String (ascii_of_nat 10) EmptyString.

Definition rule : string := times "=" 70.

Definition header (title : string) : M unit :=
  logger_info (Line rule) ;;
  logger_info (Line title) ;;
  logger_info (Line rule).

(** The line [Result: verdict] that ends a step. *)
Definition result (verdict : string) : message :=
  Line (String.append "Result: " (String.append verdict nl)).

(** [not l] on a list or a frame: it is empty. *)
Definition is_nil {A : Type} (l : list A) : bool :=
  match l with [] => true | _ => false end.

(** [int -> float] *)
Definition Qn (n : nat) : Q := inject_Z (Z.of_nat n).

(** [df[col]] and [row[col]] as statements: an absent label raises. *)
Definition df_getitem (df : DataFrame) (col : string) : M Series :=
  match getitem df col with
  | Some s => ret s
  | None => raise (KeyError col)
  end.

Definition row_getitem (df : DataFrame) (row : list cell) (col : string)
  : M cell :=
  match row_get (columns df) row col with
  | Some v => ret v
  | None => raise (KeyError col)
  end.

(* ------------------------------------------------------------------ *)
(** * Configuration *)

Definition EXPECTED_SCHEMA : list (string * string) :=
  [ ("Sprint", "object"); ("Sprint_Name", "object"); ("Phase", "object");
    ("Story_ID", "object"); ("Story_Name", "object"); ("Type", "object");
    ("Description", "object"); ("Tasks", "object"); ("Est_Hours", "float64");
    ("Resources", "object"); ("Acceptance_Criteria", "object") ].

Definition VALID_VALUES : list (string * list string) :=
  [ ("Phase",
     [ "Foundation"; "Core Tools"; "Capstone"; "Revision";
       "Advanced Concepts"; "Software Engineering"; "Cloud & Infrastructure";
       "Interview Prep" ]);
    ("Type",
     [ "Setup"; "Study"; "Practice"; "Design"; "Implementation";
       "Documentation"; "Interview Prep"; "Job Search"; "Project";
       "Study & Practice"; "Revision" ]) ].

(** [VALID_VALUES[key]] for the two keys that the program uses. *)
Definition valid_values (key : string) : list string :=
  match find (fun entry => String.eqb key (fst entry)) VALID_VALUES with
  | Some entry => snd entry
  | None => []
  end.

Definition VALID_PHASE : list string := valid_values "Phase".
Definition VALID_TYPE : list string := valid_values "Type".

Definition MIN_EST_HOURS : Q := 1 # 2.
Definition MAX_EST_HOURS : Q := 100.

(* ------------------------------------------------------------------ *)
(** * Function 1: schema validation *)

(** [sub in s] on texts. *)
Definition contains (sub s : string) : bool :=
  match String.index 0 sub s with Some _ => true | None => false end.

Definition validate_schema (df : DataFrame) : M unit :=
  header "STEP 1: SCHEMA VALIDATION" ;;
  let issues := 0 in
  let missing_cols :=
    filter (fun c => negb (has_column c df)) (map fst EXPECTED_SCHEMA) in
  issues <-
    (if negb (is_nil missing_cols) then
       logger_error (MissingColumns missing_cols) ;;
       ret (issues + length missing_cols)
     else
       logger_info (Line "  [OK] All expected columns are present") ;;
       ret issues) ;;
  issues <-
    for_fold EXPECTED_SCHEMA issues (fun issues entry =>
      let (col, expected_type) := entry in
      if negb (has_column col df) then ret issues
      else
        s <- df_getitem df col ;;
        let actual_type := dtype s in
        if contains expected_type actual_type then
          logger_info (TypeOk col actual_type) ;;
          ret issues
        else
          logger_warning (TypeFail col expected_type actual_type) ;;
          ret (issues + 1)) ;;
  if issues =? 0 then logger_info (result "PASSED")
  else logger_warning (SchemaFailed issues).

(* ------------------------------------------------------------------ *)
(** * Function 2: null values check *)

(** [df.isnull().sum()]: the number of nulls of each column. *)
Definition null_counts (df : DataFrame) : list (string * nat) :=
  map (fun c => (fst c, mask_sum (isnull (snd c)))) (data df).

(** The percentage [(count / len(df)) * 100].  The loop that computes it
    runs only for a column with a null, hence on a table with a row. *)
Definition null_pct (count n : nat) : Q := ((Qn count / Qn n) * 100)%Q.

Definition check_nulls (df : DataFrame) : M unit :=
  header "STEP 2: NULL VALUE CHECK" ;;
  let null_counts := null_counts df in
  let cols_with_nulls := filter (fun p => 0 <? snd p) null_counts in
  if negb (is_nil cols_with_nulls) then
    logger_warning (NullColumnsFound (length cols_with_nulls)) ;;
    for_each cols_with_nulls (fun item =>
      let (col, count) := item in
      let pct := null_pct count (len df) in
      logger_warning (NullColumn col count pct) ;;
      s <- df_getitem df col ;;
      let null_row_indices := map fst (df_select df (isnull s)) in
      logger_debug (NullRowIndices null_row_indices)) ;;
    logger_warning (result "FAILED (NULLs found)")
  else
    logger_info (Line "  [OK] No NULL values found") ;;
    logger_info (result "PASSED").

(* ------------------------------------------------------------------ *)
(** * Function 3: full row duplicate check *)

Definition check_full_duplicates (df : DataFrame) : M unit :=
  header "STEP 3: FULL ROW DUPLICATE CHECK" ;;
  let full_dupes_mask := df_duplicated_all df in
  let n_full_dupes := mask_sum full_dupes_mask in
  if 0 <? n_full_dupes then
    logger_warning (FullDupesFound n_full_dupes) ;;
    let dupe_df := sort_values (df_select df full_dupes_mask) in
    logger_warning (DuplicateRows dupe_df) ;;
    logger_warning (result "FAILED (duplicates found)")
  else
    logger_info (Line "  [OK] No full row duplicates found") ;;
    logger_info (result "PASSED").

(* ------------------------------------------------------------------ *)
(** * Function 4: primary key duplicate check *)

Definition check_key_duplicates (df : DataFrame) : M unit :=
  header "STEP 4: PRIMARY KEY DUPLICATE CHECK" ;;
  if negb (has_column "Story_ID" df) then
    logger_warning
      (Line "  Column 'Story_ID' not found. Skipping this check.") ;;
    logger_info (result "SKIPPED")
  else
    story_ids <- df_getitem df "Story_ID" ;;
    let key_dupes_mask := key_duplicated_all story_ids in
    let n_key_dupes := mask_sum key_dupes_mask in
    if 0 <? n_key_dupes then
      logger_error (KeyDupesFound n_key_dupes) ;;
      let dupe_ids := value_counts (select (cells story_ids) key_dupes_mask) in
      logger_error (Line "Duplicate Story_IDs and their counts:") ;;
      for_each dupe_ids (fun item =>
        let (story_id, count) := item in
        logger_error (KeyCount story_id count)) ;;
      logger_error (KeyDupeRows (df_select df key_dupes_mask)) ;;
      logger_error (result "FAILED (primary key violation)")
    else
      logger_info (Line "  [OK] All Story_IDs are unique") ;;
      logger_info (result "PASSED").

(* ------------------------------------------------------------------ *)
(** * Function 5: business logic validation *)

(** [(s < MIN_EST_HOURS) | (s > MAX_EST_HOURS)] *)
Definition est_hours_mask (s : Series) : exn + mask :=
  match series_lt s MIN_EST_HOURS with
  | inl e => inl e
  | inr below =>
      match series_gt s MAX_EST_HOURS with
      | inl e => inl e
      | inr above => inr (mask_or below above)
      end
  end.

(** [~s.isin(values)] *)
Definition not_in_mask (s : Series) (values : list string) : mask :=
  mask_not (isin s values).

(** CHECK 1: Estimate Hours in valid range.  The three checks are the three
    blocks of [validate_business_logic]; each one takes and returns the
    local variable [issues_found]. *)
Definition check_est_hours_range (df : DataFrame) (issues_found : bool)
  : M bool :=
  logger_info (Line "Checking Est_Hours range...") ;;
  if has_column "Est_Hours" df then
    est_hours <- df_getitem df "Est_Hours" ;;
    m <- lift (est_hours_mask est_hours) ;;
    let invalid_hours := df_select df m in
    if negb (is_nil invalid_hours) then
      logger_warning (InvalidHoursFound (length invalid_hours)) ;;
      for_each invalid_hours (fun item =>
        let (idx, row) := item in
        story_id <- row_getitem df row "Story_ID" ;;
        value <- row_getitem df row "Est_Hours" ;;
        logger_warning (InvalidHoursRow idx story_id value)) ;;
      ret true
    else
      logger_info (Line "  [OK] All Est_Hours values are in valid range") ;;
      ret issues_found
  else ret issues_found.

(** CHECK 2: Phase enum validation *)
Definition check_phase_enum (df : DataFrame) (issues_found : bool) : M bool :=
  logger_info (Line "Checking Phase enum values...") ;;
  if has_column "Phase" df then
    phase <- df_getitem df "Phase" ;;
    let invalid_phases := df_select df (not_in_mask phase VALID_PHASE) in
    if negb (is_nil invalid_phases) then
      logger_warning (InvalidPhaseFound (length invalid_phases)) ;;
      for_each invalid_phases (fun item =>
        let (idx, row) := item in
        story_id <- row_getitem df row "Story_ID" ;;
        value <- row_getitem df row "Phase" ;;
        logger_warning (InvalidPhaseRow idx story_id value)) ;;
      ret true
    else
      logger_info (Line "  [OK] All Phase values are valid") ;;
      ret issues_found
  else ret issues_found.

(** CHECK 3: Type enum validation *)
Definition check_type_enum (df : DataFrame) (issues_found : bool) : M bool :=
  logger_info (Line "Checking Type enum values...") ;;
  if has_column "Type" df then
    type <- df_getitem df "Type" ;;
    let invalid_types := df_select df (not_in_mask type VALID_TYPE) in
    if negb (is_nil invalid_types) then
      logger_warning (InvalidTypeFound (length invalid_types)) ;;
      for_each invalid_types (fun item =>
        let (idx, row) := item in
        story_id <- row_getitem df row "Story_ID" ;;
        value <- row_getitem df row "Type" ;;
        logger_warning (InvalidTypeRow idx story_id value)) ;;
      ret true
    else
      logger_info (Line "  [OK] All Type values are valid") ;;
      ret issues_found
  else ret issues_found.

Definition validate_business_logic (df : DataFrame) : M unit :=
  header "STEP 5: BUSINESS LOGIC VALIDATION" ;;
  let issues_found := false in
  issues_found <- check_est_hours_range df issues_found ;;
  issues_found <- check_phase_enum df issues_found ;;
  issues_found <- check_type_enum df issues_found ;;
  if negb issues_found then logger_info (result "PASSED")
  else logger_warning (result "FAILED (business logic violations found)").

(* ------------------------------------------------------------------ *)
(** * Function 6: data quality score *)

(** [a / b] on two Python ints. *)
Definition py_div (a b : nat) : exn + Q :=
  if b =? 0 then inl ZeroDivisionError else inr (Qn a / Qn b)%Q.

(** [df.isnull().sum().sum()] *)
Definition null_cells (df : DataFrame) : nat :=
  list_sum (map snd (null_counts df)).

Definition null_deduction (df : DataFrame) : Q :=
  let total_cells := len df * length (columns df) in
  let null_ratio :=
    if 0 <? total_cells
    then ((Qn (null_cells df) / Qn total_cells) * 100)%Q else 0%Q in
  Qmin 20 (null_ratio / 5).

Definition dupe_deduction (df : DataFrame) : Q :=
  let dupe_ratio :=
    if 0 <? len df
    then ((Qn (mask_sum (df_duplicated df)) / Qn (len df)) * 100)%Q
    else 0%Q in
  Qmin 15 (dupe_ratio / (667 # 100)).

Definition rate (score : Q) : rating :=
  if Qle_bool 90 score then EXCELLENT
  else if Qle_bool 70 score then GOOD
  else if Qle_bool 50 score then FAIR
  else POOR.

(** The end of [calculate_data_quality_score], from [score = max(0, score)]
    on.  The function returns nothing in Python; the model returns its
    locals [score], [rating] and [deductions] as they are when it ends. *)
Definition report_score (score : Q) (deductions : list (string * Q))
  : M (Q * rating * list (string * Q)) :=
  let score := Qmax 0 score in
  logger_info (QualityScore score) ;;
  let rating := rate score in
  logger_info (Rating rating) ;;
  logger_info (Line (String.append nl "Deduction Breakdown:")) ;;
  for_each deductions (fun item =>
    let (category, deduction) := item in
    if Qltb 0 deduction then logger_info (Deduction category deduction)
    else ret tt) ;;
  logger_info (result "DATA QUALITY SCORE CALCULATED") ;;
  ret (score, rating, deductions).

Definition calculate_data_quality_score (df : DataFrame)
  : M (Q * rating * list (string * Q)) :=
  header "STEP 6: DATA QUALITY SCORE (Advanced)" ;;
  let score := 100%Q in
  let deductions := [] in
  (* Deduction 1: NULL percentage *)
  let score := (score - null_deduction df)%Q in
  let deductions := deductions ++ [("NULLs", null_deduction df)] in
  (* Deduction 2: Full duplicate rows *)
  let score := (score - dupe_deduction df)%Q in
  let deductions := deductions ++ [("Duplicates", dupe_deduction df)] in
  (* Deduction 3: Invalid Phase values *)
  st <-
    (if has_column "Phase" df then
       phase <- df_getitem df "Phase" ;;
       ratio <- lift (py_div (length (df_select df (not_in_mask phase VALID_PHASE)))
                             (len df)) ;;
       let invalid_phase_ratio := (ratio * 100)%Q in
       let phase_deduction := Qmin 15 (invalid_phase_ratio / (667 # 100)) in
       ret ((score - phase_deduction)%Q,
            deductions ++ [("Invalid Phase", phase_deduction)])
     else ret (score, deductions)) ;;
  let (score, deductions) := st in
  (* Deduction 4: Invalid hours *)
  st <-
    (if has_column "Est_Hours" df then
       est_hours <- df_getitem df "Est_Hours" ;;
       m <- lift (est_hours_mask est_hours) ;;
       let invalid_hours_count := length (df_select df m) in
       ratio <- lift (py_div invalid_hours_count (len df)) ;;
       let invalid_hours_ratio := (ratio * 100)%Q in
       let hours_deduction := Qmin 10 (invalid_hours_ratio / 10) in
       ret ((score - hours_deduction)%Q,
            deductions ++ [("Invalid Hours", hours_deduction)])
     else ret (score, deductions)) ;;
  let (score, deductions) := st in
  report_score score deductions.

(* ------------------------------------------------------------------ *)
(** * Main execution *)

(** [try: body except ...: handler] *)
Definition try_except {A : Type} (body : M A) (handler : exn -> M A) : M A :=
  match body with
  | (l, inl e) => let (l', r) := handler e in (l ++ l', r)
  | (l, inr a) => (l, inr a)
  end.

(** [sys.exit(code)] *)
Definition sys_exit {A : Type} (code : nat) : M A := raise (SystemExit code).

(** The six validation steps, in the order [main] calls them. *)
Definition run_steps (df : DataFrame) : M unit :=
  validate_schema df ;;
  check_nulls df ;;
  check_full_duplicates df ;;
  check_key_duplicates df ;;
  validate_business_logic df ;;
  calculate_data_quality_score df ;;
  ret tt.

(** [main], given the directory of the script and the loader
    [pd.read_csv(filename, sep=',')], which yields a table or raises. *)
Definition main (script_dir : string) (read_csv : string -> exn + DataFrame)
  : M unit :=
  logger_info (Line (String.append nl (times "=" 114))) ;;
  logger_info (Line "DATA VALIDATION PIPELINE STARTED") ;;
  logger_info (Line (String.append rule nl)) ;;
  let filename := String.append script_dir "/test_data.csv" in
  try_except
    (logger_info (LoadingCsv filename) ;;
     df <- lift (read_csv filename) ;;
     logger_info (Line "File loaded successfully") ;;
     logger_info (Shape (len df) (length (columns df))) ;;
     run_steps df ;;
     logger_info (Line rule) ;;
     logger_info (Line "VALIDATION PIPELINE COMPLETED") ;;
     logger_info (Line rule) ;;
     logger_info
       (Line (String.append "Full report saved to: validation_report.log" nl)))
    (fun e =>
       match e with
       | FileNotFoundError =>
           logger_critical (FileNotFound filename) ;;
           logger_critical
             (Line "Make sure test_data.csv is in the current directory.") ;;
           sys_exit 1
       | EmptyDataError =>
           logger_critical (FileEmpty filename) ;;
           sys_exit 1
       | SystemExit code => raise (SystemExit code)
       | _ =>
           logger_critical (UnexpectedError e) ;;
           sys_exit 1
       end).

(** The exit status of the process that ran a computation. *)
Definition exit_status {A : Type} (c : M A) : nat :=
  match outcome c with
  | inr _ => 0
  | inl (SystemExit code) => code
  | inl _ => 1
  end.

(** The records of a log at a given level, and the step titles in it. *)
Definition at_level (lvl : level) (l : Log) : list message :=
  map snd (filter (fun r => level_no (fst r) =? level_no lvl) l).

Definition step_titles : list string :=
  [ "STEP 1: SCHEMA VALIDATION"; "STEP 2: NULL VALUE CHECK";
    "STEP 3: FULL ROW DUPLICATE CHECK"; "STEP 4: PRIMARY KEY DUPLICATE CHECK";
    "STEP 5: BUSINESS LOGIC VALIDATION";
    "STEP 6: DATA QUALITY SCORE (Advanced)" ].

Definition is_line (text : string) (r : record) : bool :=
  match snd r with
  | Line t => String.eqb t text
  | _ => false
  end.

(** The steps that started, read off the log. *)
Definition steps_started (l : Log) : list string :=
  filter (fun t => existsb (is_line t) l) step_titles.

(* ------------------------------------------------------------------ *)
(** * Vocabulary of the statements *)

Definition is_null (c : cell) : bool := negb (notnull c).

(** The number of nulls of a column, counted on its cells. *)
Definition null_count (s : Series) : nat := length (filter is_null (cells s)).

(** The cell of column [s] at row [i]. *)
Definition cell_at (s : Series) (i : nat) : cell := nth i (cells s) NaN.

(** Row [i] has another row of the table identical in every column. *)
Definition other_identical (df : DataFrame) (i : nat) : bool :=
  existsb (fun j => negb (j =? i) && row_eqb (row_at df i) (row_at df j))
          (seq 0 (len df)).

(** Row [i] has an earlier row identical in every column. *)
Definition earlier_identical (df : DataFrame) (i : nat) : bool :=
  existsb (fun j => row_eqb (row_at df i) (row_at df j)) (seq 0 i).

(** The symmetric count of duplicate rows and the count that leaves the
    first occurrence out. *)
Definition symmetric_count (df : DataFrame) : nat :=
  length (filter (other_identical df) (seq 0 (len df))).

Definition first_exclusive_count (df : DataFrame) : nat :=
  length (filter (earlier_identical df) (seq 0 (len df))).

(** Some key value is held by two rows of the key column. *)
Definition key_shared (s : Series) : Prop :=
  exists i j, i < j /\ j < length (cells s) /\
              cell_eqb (cell_at s i) (cell_at s j) = true.

(** A value strictly below the minimum or strictly above the maximum. *)
Definition out_of_range (c : cell) : Prop :=
  exists q, c = Num q /\ (q < MIN_EST_HOURS \/ MAX_EST_HOURS < q)%Q.

Definition out_of_rangeb (c : cell) : bool :=
  match c with
  | Num q => Qltb q MIN_EST_HOURS || Qltb MAX_EST_HOURS q
  | _ => false
  end.

(** Row [i] is selected by a mask computation that did not raise. *)
Definition flagged (df : DataFrame) (m : exn + mask) (i : nat) : Prop :=
  exists bits, m = inr bits /\ In (i, row_at df i) (df_select df bits).



Definition allowed (values : list string) (c : cell) : Prop :=
  exists t, c = Str t /\ In t values.




(** The deduction formulas of the Phase and Est_Hours checks, for [count]
    offending rows out of [n]. *)
Definition phase_deduction_of (count n : nat) : Q :=
  Qmin 15 (((Qn count / Qn n) * 100) / (667 # 100)).

Definition hours_deduction_of (count n : nat) : Q :=
  Qmin 10 (((Qn count / Qn n) * 100) / 10).

(** The score after subtracting the entries of [deductions] one by one. *)
Definition subtract_all (deductions : list (string * Q)) (score : Q) : Q :=
  fold_left (fun acc d => (acc - snd d)%Q) deductions score.


(** The log of [header]. *)
Definition header_log (title : string) : Log :=
  [(INFO, Line rule); (INFO, Line title); (INFO, Line rule)].

(* ------------------------------------------------------------------ *)
(** * Sample tables *)

(** A CSV file with a header line and no data line. *)
Definition df_header_only : DataFrame :=
  mkDataFrame [ ("Story_ID", Object []); ("Phase", Object []);
                ("Est_Hours", Object []) ].

Definition df_hours_header_only : DataFrame :=
  mkDataFrame [ ("Story_ID", Object []); ("Est_Hours", Object []) ].

(** One row above the maximum, in a table without the key column. *)
Definition df_no_story_id : DataFrame :=
  mkDataFrame [ ("Phase", Object [Some "Foundation"]);
                ("Est_Hours", Float64 [Some 150%Q]) ].

(** Rows 0 and 2 are identical; they share the key S1. *)
Definition df_twins : DataFrame :=
  mkDataFrame [ ("Story_ID", Object [Some "S1"; Some "S0"; Some "S1"]);
                ("Phase", Object [Some "Capstone"; Some "Capstone";
                                  Some "Capstone"]);
                ("Est_Hours", Float64 [Some 8%Q; Some 4%Q; Some 8%Q]) ].

(** A table without defects, with both bounds of Est_Hours attained. *)
Definition df_clean : DataFrame :=
  mkDataFrame [ ("Story_ID", Object [Some "S1"; Some "S2"; Some "S3"]);
                ("Phase", Object [Some "Foundation"; Some "Core Tools";
                                  Some "Capstone"]);
                ("Type", Object [Some "Setup"; Some "Study"; Some "Project"]);
                ("Est_Hours", Float64 [Some (1 # 2); Some 100%Q; Some 8%Q]) ].

(** Nulls in the key and in the hours, one row below the minimum. *)
Definition df_gaps : DataFrame :=
  mkDataFrame [ ("Story_ID", Object [Some "S1"; None; None; Some "S4"]);
                ("Est_Hours", Float64 [Some (1 # 4); None; Some 8%Q; None]) ].

(** An Est_Hours column that [read_csv] could not read as numbers. *)
Definition df_text_hours : DataFrame :=
  mkDataFrame [ ("Story_ID", Object [Some "S1"; Some "S2"]);
                ("Est_Hours", Object [Some "8"; Some "n/a"]) ].

(** The loader as a parameter of [main]: it returns a table or raises. *)
Definition loaded (df : DataFrame) (filename : string) : exn + DataFrame :=
  inr df.

Definition failing (e : exn) (filename : string) : exn + DataFrame :=
  inl e.


(** The verdict lines. *)
Definition PASSED : record := (INFO, result "PASSED").
Definition SKIPPED : record := (INFO, result "SKIPPED").
Definition FAILED (lvl : level) (reason : string) : record :=
  (lvl, result (String.append "FAILED (" (String.append reason ")"))).

(** The columns reported by [check_nulls] and the records it writes for
    them. *)
Definition cols_with_nulls (df : DataFrame) : list (string * nat) :=
  filter (fun p => 0 <? snd p) (null_counts df).

Definition null_findings (df : DataFrame) : Log :=
  map (fun p =>
         (WARNING, NullColumn (fst p) (snd p) (null_pct (snd p) (len df))))
      (cols_with_nulls df).

(** The per-key records of [check_key_duplicates]. *)
Definition key_findings (s : Series) : Log :=
  map (fun p => (ERROR, KeyCount (fst p) (snd p)))
      (value_counts (select (cells s) (key_duplicated_all s))).

(** The scenario of the specification: ten rows that match the expected
    schema, without nulls and without duplicate rows; row 0 has
    Est_Hours = 150 and row 9 repeats the key of row 0. *)
Definition df_scenario : DataFrame :=
  let same (text : string) := Object (repeat (Some text) 10) in
  mkDataFrame
    [ ("Sprint", same "1");
      ("Sprint_Name", same "Foundations");
      ("Phase", same "Foundation");
      ("Story_ID", Object [ Some "S1"; Some "S2"; Some "S3"; Some "S4";
                            Some "S5"; Some "S6"; Some "S7"; Some "S8";
                            Some "S9"; Some "S1" ]);
      ("Story_Name", Object [ Some "N0"; Some "N1"; Some "N2"; Some "N3";
                              Some "N4"; Some "N5"; Some "N6"; Some "N7";
                              Some "N8"; Some "N9" ]);
      ("Type", same "Study");
      ("Description", same "d");
      ("Tasks", same "t");
      ("Est_Hours", Float64 [ Some 150%Q; Some 8%Q; Some 8%Q; Some 8%Q;
                              Some 8%Q; Some 8%Q; Some 8%Q; Some 8%Q;
                              Some 8%Q; Some 8%Q ]);
      ("Resources", same "r");
      ("Acceptance_Criteria", same "a") ].

(* ------------------------------------------------------------------ *)
(** * Vocabulary of the further properties *)

(** The rows that the three checks of [validate_business_logic] select. *)
Definition invalid_hours (df : DataFrame) : list (nat * list cell) :=
  match getitem df "Est_Hours" with
  | Some s =>
      match est_hours_mask s with
      | inr m => df_select df m
      | inl _ => []
      end
  | None => []
  end.

Definition invalid_phases (df : DataFrame) : list (nat * list cell) :=
  match getitem df "Phase" with
  | Some s => df_select df (not_in_mask s VALID_PHASE)
  | None => []
  end.

Definition invalid_types (df : DataFrame) : list (nat * list cell) :=
  match getitem df "Type" with
  | Some s => df_select df (not_in_mask s VALID_TYPE)
  | None => []
  end.

(** The Est_Hours column, if present, can be compared with a number. *)
Definition hours_comparable (df : DataFrame) : Prop :=
  forall s e, getitem df "Est_Hours" = Some s -> est_hours_mask s <> inl e.

(** The deduction lines of a log, in the order they were written. *)
Definition breakdown (l : Log) : list (string * Q) :=
  flat_map (fun r => match snd r with
                     | Deduction category deduction => [(category, deduction)]
                     | _ => []
                     end) l.

(** The nulls that a log of [check_nulls] reports, summed over its
    per-column lines. *)
Definition reported_nulls (l : Log) : nat :=
  list_sum (map (fun r => match snd r with
                          | NullColumn _ count _ => count
                          | _ => 0
                          end) l).

(** The expected columns that the table lacks, and the expected columns
    whose dtype is not the expected one. *)
Definition missing_columns (df : DataFrame) : list string :=
  filter (fun c => negb (has_column c df)) (map fst EXPECTED_SCHEMA).

(** [str(df[col].dtype)] of a column that is present. *)
Definition dtype_of (df : DataFrame) (col : string) : string :=
  match getitem df col with
  | Some s => dtype s
  | None => EmptyString
  end.

Definition type_mismatch (df : DataFrame) (entry : string * string) : bool :=
  has_column (fst entry) df &&
  negb (contains (snd entry) (dtype_of df (fst entry))).

Definition mismatched_columns (df : DataFrame) : list (string * string) :=
  filter (type_mismatch df) EXPECTED_SCHEMA.

Definition schema_issues (df : DataFrame) : nat :=
  length (missing_columns df) + length (mismatched_columns df).

(** The dtype lines of [validate_schema], one per expected column that is
    present. *)
Definition dtype_lines (df : DataFrame) (entry : string * string) : Log :=
  if has_column (fst entry) df then
    if contains (snd entry) (dtype_of df (fst entry))
    then [ (INFO, TypeOk (fst entry) (dtype_of df (fst entry))) ]
    else [ (WARNING,
            TypeFail (fst entry) (snd entry) (dtype_of df (fst entry))) ]
  else [].

(** All the rows that [validate_business_logic] selects. *)
Definition violations (df : DataFrame) : list (nat * list cell) :=
  invalid_hours df ++ invalid_phases df ++ invalid_types df.

(** The per-row lines of a check on column [col], for the selected rows
    [rows]; [line] is the message of the check. *)
Definition row_lines (df : DataFrame) (col : string)
           (line : nat -> cell -> cell -> message)
           (rows : list (nat * list cell)) : Log :=
  match getitem df "Story_ID", getitem df col with
  | Some k, Some s =>
      map (fun x => (WARNING, line (fst x) (cell_at k (fst x))
                                   (cell_at s (fst x)))) rows
  | _, _ => []
  end.

(** What a check returns for the selected rows [rows]: it raises on the
    first of them when the key column is absent. *)
Definition check_outcome (df : DataFrame) (issues_found : bool)
           (rows : list (nat * list cell)) : exn + bool :=
  if is_nil rows then inr issues_found
  else if has_column "Story_ID" df then inr true
  else inl (KeyError "Story_ID").

(** The records of one check of [validate_business_logic] on column [col],
    for the selected rows [rows]: the opening line, then nothing when the
    column is absent, the [OK] line when no row is selected, and otherwise
    the count followed by the per-row lines (which need the key column). *)
Definition check_report (df : DataFrame) (title ok col : string)
           (found : nat -> message) (line : nat -> cell -> cell -> message)
           (rows : list (nat * list cell)) : Log :=
  (INFO, Line title)
    :: (if has_column col df then
          if is_nil rows then [ (INFO, Line ok) ]
          else (WARNING, found (length rows))
                 :: (if has_column "Story_ID" df
                     then row_lines df col line rows else [])
        else []).

Definition hours_report (df : DataFrame) : Log :=
  check_report df "Checking Est_Hours range..."
               "  [OK] All Est_Hours values are in valid range" "Est_Hours"
               InvalidHoursFound InvalidHoursRow (invalid_hours df).

Definition phase_report (df : DataFrame) : Log :=
  check_report df "Checking Phase enum values..."
               "  [OK] All Phase values are valid" "Phase"
               InvalidPhaseFound InvalidPhaseRow (invalid_phases df).

Definition type_report (df : DataFrame) : Log :=
  check_report df "Checking Type enum values..."
               "  [OK] All Type values are valid" "Type"
               InvalidTypeFound InvalidTypeRow (invalid_types df).

(** The cell is one of the allowed texts. *)
Definition allowedb (values : list string) (c : cell) : bool :=
  match c with
  | Str t => existsb (String.eqb t) values
  | _ => false
  end.

(** The records that [main] writes before the first step. *)
Definition main_prefix (script_dir : string) (df : DataFrame) : Log :=
  [ (INFO, Line (String.append nl (times "=" 114)));
    (INFO, Line "DATA VALIDATION PIPELINE STARTED");
    (INFO, Line (String.append rule nl));
    (INFO, LoadingCsv (String.append script_dir "/test_data.csv"));
    (INFO, Line "File loaded successfully");
    (INFO, Shape (len df) (length (columns df))) ].

(** The counts of the per-key lines of a log, in the order they were
    written. *)
Definition key_counts (l : Log) : list nat :=
  flat_map (fun r => match snd r with
                     | KeyCount _ count => [count]
                     | _ => []
                     end) l.

(** The per-key lines of a log whose key equals [k]. *)
Definition lines_of_key (k : cell) (l : Log) : Log :=
  filter (fun r => match snd r with
                   | KeyCount k' _ => cell_eqb k k'
                   | _ => false
                   end) l.

(* ------------------------------------------------------------------ *)
(** * Generators.py *)

(** The frame of a generator made by [fib()]: not yet started, or suspended
    at its [yield] with the locals [a] and [b].  The body loops for ever, so
    the frame never finishes. *)
Inductive frame : Type :=
| Created
| Suspended (a b : Z).

(** [next(g)]: the value yielded and the frame left behind.  The first call
    runs [a, b = 0, 1] and yields [a]; a later call resumes after the
    [yield], runs [a, b = b, a + b] and yields the new [a]. *)
Definition next (g : frame) : Z * frame :=
  match g with
  | Created => (0%Z, Suspended 0 1)
  | Suspended a b => (b, Suspended b (a + b))
  end.

(** [fib()] *)
Definition fib : frame := Created.

(** The frame after [n] calls of [next], and the value of the call that
    follows them. *)
Fixpoint advance (n : nat) (g : frame) : frame :=
  match n with
  | O => g
  | S n' => advance n' (snd (next g))
  end.

Definition nth_yield (n : nat) : Z := fst (next (advance n fib)).

(** What the script prints. *)
Inductive printed : Type :=
| Text (s : string)
| Number (n : Z).

(** [for n in g: print(n); counter += 1; if counter == limit: break], with
    the lines printed so far; [fuel] bounds the number of iterations. *)
Fixpoint for_loop (fuel : nat) (limit : Z) (g : frame) (counter : Z)
         (out : list printed) : option (list printed) :=
  match fuel with
  | O => None
  | S fuel' =>
      let (n, g') := next g in
      let out' := out ++ [Number n] in
      let counter' := (counter + 1)%Z in
      if (counter' =? limit)%Z then Some out'
      else for_loop fuel' limit g' counter' out'
  end.

(** The testing code of the script: [fib()] is a generator, so the message
    is printed and the loop runs with the limit 10. *)
Definition testing_code (fuel : nat) : option (list printed) :=
  for_loop fuel 10 fib 0 [ Text "Good, The fib function is a generator." ].

(** The Fibonacci numbers, by their recurrence. *)
Fixpoint fibonacci (n : nat) : Z :=
  match n with
  | O => 0%Z
  | S m =>
      match m with
      | O => 1%Z
      | S k => (fibonacci k + fibonacci m)%Z
      end
  end.

(* ------------------------------------------------------------------ *)
(** * map_zip.py *)

(** [zip(xs, ys)]: it stops with the shorter of the two. *)
Fixpoint zip {A B : Type} (xs : list A) (ys : list B) : list (A * B) :=
  match xs, ys with
  | x :: xs', y :: ys' => (x, y) :: zip xs' ys'
  | _, _ => []
  end.

(** [map(f, xs, ys)] on two iterables: it stops with the shorter one. *)
Fixpoint map2 {A B C : Type} (f : A -> B -> C) (xs : list A) (ys : list B)
  : list C :=
  match xs, ys with
  | x :: xs', y :: ys' => f x y :: map2 f xs' ys'
  | _, _ => []
  end.

(** [[(x, y) for x, y in zip(xs, ys)]] *)
Definition results_comprehension {A B : Type} (xs : list A) (ys : list B)
  : list (A * B) :=
  map (fun item : A * B => let (x, y) := item in (x, y)) (zip xs ys).

(** [list(map(lambda x, y: (x, y), xs, ys))] *)
Definition results_map {A B : Type} (xs : list A) (ys : list B)
  : list (A * B) :=
  map2 (fun x y => (x, y)) xs ys.

(** [list(zip(xs, ys))] *)
Definition results_zip {A B : Type} (xs : list A) (ys : list B)
  : list (A * B) :=
  zip xs ys.

Definition my_strings : list string := ["a"; "b"; "c"; "d"; "e"].
Definition my_numbers : list Z := [1; 2; 3; 4; 5]%Z.

(** Rows with an unknown, a missing and a misspelt Phase or Type; the hours
    of row 1 are below the minimum and those of row 3 above the maximum. *)
Definition df_mixed : DataFrame :=
  mkDataFrame
    [ ("Story_ID", Object [Some "S1"; Some "S2"; Some "S3"; Some "S4"]);
      ("Phase", Object [Some "Foundation"; None; Some "capstone";
                        Some "Capstone"]);
      ("Type", Object [Some "Study"; Some "Homework"; None; Some "Project"]);
      ("Est_Hours", Float64 [Some 8%Q; Some (1 # 4); None; Some 120%Q]) ].

(* ================================================================== *)
(** * Properties *)

(** ** The log monad *)

Lemma output_bind {A B : Type} (c : M A) (k : A -> M B) :
  output (bind c k) =
  output c ++ match outcome c with
              | inr a => output (k a)
              | inl _ => []
              end.
Proof.
  destruct c as [l [e | a]]; simpl.
  - now rewrite app_nil_r.
  - now destruct (k a).
Qed.

Lemma outcome_bind {A B : Type} (c : M A) (k : A -> M B) :
  outcome (bind c k) =
  match outcome c with
  | inr a => outcome (k a)
  | inl e => inl e
  end.
Proof.
  destruct c as [l [e | a]]; simpl; trivial.
  now destruct (k a).
Qed.

Lemma bind_ok {A B : Type} (l : Log) (a : A) (k : A -> M B) :
  bind (l, inr a) k = (l ++ output (k a), outcome (k a)).
Proof. simpl. now destruct (k a). Qed.

Lemma bind_unit {A B : Type} (a : A) (k : A -> M B) : bind (ret a) k = k a.
Proof. unfold ret. rewrite bind_ok. now destruct (k a). Qed.

Lemma M_eta {A : Type} (c : M A) : c = (output c, outcome c).
Proof. now destruct c. Qed.

Lemma for_each_ok {A : Type} (l : list A) (body : A -> M unit)
      (g : A -> Log) :
  (forall x, In x l -> body x = (g x, inr tt)) ->
  for_each l body = (flat_map g l, inr tt).
Proof.
  induction l as [| x l IH]; intros Hbody; simpl; trivial.
  rewrite (Hbody x) by now left.
  rewrite bind_ok, IH by (intros; apply Hbody; now right).
  reflexivity.
Qed.

Lemma for_each_output {A : Type} (l : list A) (body : A -> M unit) r :
  In r (output (for_each l body)) ->
  exists x, In x l /\ In r (output (body x)).
Proof.
  induction l as [| x l IH]; simpl; [tauto |].
  rewrite output_bind, in_app_iff. intros [H | H].
  - exists x. auto.
  - destruct (outcome (body x)); [destruct H |].
    destruct (IH H) as [y [Hy Hr]]. exists y. auto.
Qed.

Lemma has_column_getitem df col :
  has_column col df = true -> exists s, getitem df col = Some s.
Proof.
  unfold has_column, getitem, columns. induction (data df) as [| [c s] d IH].
  - discriminate.
  - simpl. destruct (String.eqb col c); [eauto | exact IH].
Qed.

Lemma getitem_has_column df col s :
  getitem df col = Some s -> has_column col df = true.
Proof.
  unfold has_column, getitem, columns. induction (data df) as [| [c s'] d IH].
  - discriminate.
  - simpl. destruct (String.eqb col c); [trivial | exact IH].
Qed.

Lemma getitem_In df col s : getitem df col = Some s -> In (col, s) (data df).
Proof.
  unfold getitem. induction (data df) as [| [c s'] d IH]; simpl.
  - discriminate.
  - destruct (String.eqb_spec col c) as [-> | _].
    + intros [= ->]. now left.
    + intro H. right. auto.
Qed.

(** ** The scorer on a table without rows *)

Lemma scorer_faults_without_rows df :
  len df = 0 -> has_column "Phase" df = true ->
  outcome (calculate_data_quality_score df) = inl ZeroDivisionError.
Proof.
  intros Hlen Hcol. unfold calculate_data_quality_score.
  rewrite outcome_bind. simpl outcome at 1. cbv iota.
  rewrite Hcol. destruct (has_column_getitem _ _ Hcol) as [s Hs].
  unfold df_getitem. rewrite Hs, Hlen. unfold py_div. simpl Nat.eqb.
  cbv iota. unfold lift. rewrite bind_unit. reflexivity.
Qed.

(** C1 (the code departs from the specification): on the table read from a file
    that holds a header line and no data line, the scorer raises
    ZeroDivisionError at the Invalid-Phase deduction, and at the
    Invalid-hours deduction when only Est_Hours is present; no score is
    reported.  The two earlier deductions of the same function guard their
    division. *)
Theorem C1_scorer_faults_on_header_only_table :
  calculate_data_quality_score df_header_only
    = (header_log "STEP 6: DATA QUALITY SCORE (Advanced)",
       inl ZeroDivisionError) /\
  calculate_data_quality_score df_hours_header_only
    = (header_log "STEP 6: DATA QUALITY SCORE (Advanced)",
       inl ZeroDivisionError) /\
  (null_deduction df_header_only == 0)%Q /\
  (dupe_deduction df_header_only == 0)%Q.
Proof. repeat split. Qed.

(** ** The orchestrator *)

(** C2 (the code departs from the specification): a loaded table that lacks
    Story_ID and has one Est_Hours value out of range stops the run in
    step 5 with KeyError; the handler of [main] logs it as an unexpected
    error at critical level and exits with status 1; step 6 never
    starts. *)
Theorem C2_stage_error_aborts_the_run (script_dir : string) :
  let run := main script_dir (loaded df_no_story_id) in
  well_formed df_no_story_id /\
  outcome (validate_business_logic df_no_story_id)
    = inl (KeyError "Story_ID") /\
  exit_status run = 1 /\
  steps_started (output run) = firstn 5 step_titles /\
  at_level CRITICAL (output run) = [UnexpectedError (KeyError "Story_ID")].
Proof.
  repeat split; try (vm_compute; reflexivity).
  repeat constructor.
Qed.



(** ** Null values *)

Lemma mask_sum_isnull s : mask_sum (isnull s) = null_count s.
Proof.
  unfold mask_sum, null_count.
  destruct s as [v | v]; simpl; induction v as [| [x |] v IH]; simpl;
    trivial; now rewrite IH.
Qed.

Lemma lookup_In col s d : In (col, s) d -> exists s', lookup col d = Some s'.
Proof.
  induction d as [| [c s0] d IH]; simpl; [tauto |].
  intros [[= -> ->] | H].
  - rewrite String.eqb_refl. eauto.
  - destruct (String.eqb col c); eauto.
Qed.

Lemma flat_map_single {A B : Type} (f : A -> B) (l : list A) :
  flat_map (fun x => [f x]) l = map f l.
Proof. induction l; simpl; congruence. Qed.

Lemma header_eq title : header title = (header_log title, inr tt).
Proof. reflexivity. Qed.

Lemma check_nulls_eq df :
  check_nulls df =
  (header_log "STEP 2: NULL VALUE CHECK" ++
   (if is_nil (cols_with_nulls df)
    then [ (INFO, Line "  [OK] No NULL values found"); PASSED ]
    else (WARNING, NullColumnsFound (length (cols_with_nulls df)))
           :: null_findings df ++ [ FAILED WARNING "NULLs found" ]),
   inr tt).
Proof.
  unfold check_nulls. rewrite header_eq, bind_ok. fold (cols_with_nulls df).
  destruct (is_nil (cols_with_nulls df)) eqn:E; simpl negb; cbv iota.
  - reflexivity.
  - rewrite (for_each_ok _ _
      (fun p => [(WARNING,
                  NullColumn (fst p) (snd p) (null_pct (snd p) (len df)))])).
    + rewrite flat_map_single. reflexivity.
    + intros [col count] Hin. unfold cols_with_nulls in Hin.
      apply filter_In in Hin. destruct Hin as [Hin _].
      unfold null_counts in Hin. apply in_map_iff in Hin.
      destruct Hin as [[c s] [[= <- <-] Hin]].
      destruct (lookup_In _ _ _ Hin) as [s' Hs'].
      unfold df_getitem, getitem. simpl fst. rewrite Hs'. reflexivity.
Qed.

Lemma cols_with_nulls_In df col count :
  In (col, count) (cols_with_nulls df) <->
  exists s, In (col, s) (data df) /\ count = null_count s /\ 0 < count.
Proof.
  unfold cols_with_nulls, null_counts. rewrite filter_In, in_map_iff.
  simpl snd. rewrite Nat.ltb_lt. split.
  - intros [[[c s] [[= <- <-] Hin]] Hpos]. exists s.
    rewrite <- mask_sum_isnull. auto.
  - intros [s [Hin [-> Hpos]]]. split; trivial.
    exists (col, s). simpl. now rewrite mask_sum_isnull.
Qed.

Lemma cols_with_nulls_nil df :
  is_nil (cols_with_nulls df) = true <->
  (forall col s, In (col, s) (data df) -> null_count s = 0).
Proof.
  split.
  - intros Hnil col s Hin.
    destruct (null_count s) as [| n] eqn:E; trivial.
    assert (H : In (col, S n) (cols_with_nulls df)).
    { apply cols_with_nulls_In. exists s. rewrite E. auto with arith. }
    destruct (cols_with_nulls df); [destruct H | discriminate].
  - intros Hall. destruct (cols_with_nulls df) as [| [col count] l] eqn:E;
      trivial.
    assert (H : In (col, count) (cols_with_nulls df)) by (rewrite E; now left).
    apply cols_with_nulls_In in H. destruct H as [s [Hin [-> Hpos]]].
    rewrite (Hall _ _ Hin) in Hpos. inversion Hpos.
Qed.


Lemma len_zero_no_cells df col s :
  well_formed df -> len df = 0 -> In (col, s) (data df) -> cells s = [].
Proof.
  intros Hwf Hlen Hin. unfold well_formed in Hwf.
  rewrite Forall_forall in Hwf. specialize (Hwf _ Hin). simpl in Hwf.
  rewrite Hlen in Hwf. now apply length_zero_iff_nil.
Qed.


Lemma df_gaps_well_formed : well_formed df_gaps.
Proof. repeat constructor. Qed.


(** ** Masks and selections *)

Lemma select_labelled {B : Type} (f : nat -> B) (n a : nat) (m : mask)
      (i : nat) (r : B) :
  In (i, r) (select (map (fun k => (k, f k)) (seq a n)) m) <->
  a <= i /\ i < a + n /\ r = f i /\ nth (i - a) m false = true.
Proof.
  revert a m. induction n as [| n IH]; intros a m; simpl.
  - split; [intros [] | lia].
  - destruct m as [| b m].
    + split; [intros [] |]. intros [_ [_ [_ H]]]. now destruct (i - a).
    + assert (Hrest :
        In (i, r) (select (map (fun k => (k, f k)) (seq (S a) n)) m) <->
        S a <= i /\ i < a + S n /\ r = f i /\ nth (i - a) (b :: m) false = true).
      { rewrite IH. split.
        - intros [H1 [H2 [H3 H4]]]. repeat split; try lia; trivial.
          replace (i - a) with (S (i - S a)) by lia. exact H4.
        - intros [H1 [H2 [H3 H4]]]. repeat split; try lia; trivial.
          replace (i - a) with (S (i - S a)) in H4 by lia. exact H4. }
      destruct b; simpl.
      * rewrite Hrest. split.
        -- intros [[= <- <-] | [H1 [H2 [H3 H4]]]].
           ++ rewrite Nat.sub_diag. repeat split; trivial; lia.
           ++ repeat split; trivial; lia.
        -- intros [H1 [H2 [H3 H4]]].
           destruct (Nat.eq_dec a i) as [<- | Hne].
           ++ left. now subst r.
           ++ right. repeat split; trivial; lia.
      * rewrite Hrest. split.
        -- intros [H1 [H2 [H3 H4]]]. repeat split; trivial; lia.
        -- intros [H1 [H2 [H3 H4]]].
           destruct (Nat.eq_dec a i) as [<- | Hne].
           ++ rewrite Nat.sub_diag in H4. discriminate.
           ++ repeat split; trivial; lia.
Qed.

Lemma df_select_In df (m : mask) i r :
  In (i, r) (df_select df m) <->
  i < len df /\ r = row_at df i /\ nth i m false = true.
Proof.
  unfold df_select, iterrows. rewrite select_labelled.
  rewrite Nat.sub_0_r. simpl. intuition lia.
Qed.

Lemma select_length {A : Type} (l : list A) (m : mask) :
  length l = length m -> length (select l m) = mask_sum m.
Proof.
  revert m. induction l as [| x l IH]; intros [| b m]; simpl; try discriminate;
    trivial.
  intros [= H]. unfold mask_sum in *. destruct b; simpl; rewrite IH; trivial.
Qed.

Lemma iterrows_length df : length (iterrows df) = len df.
Proof. unfold iterrows. now rewrite length_map, length_seq. Qed.

Lemma column_length df col s :
  well_formed df -> getitem df col = Some s -> length (cells s) = len df.
Proof.
  intros Hwf Hs. apply getitem_In in Hs. unfold well_formed in Hwf.
  rewrite Forall_forall in Hwf. exact (Hwf _ Hs).
Qed.

(** ** The range mask *)

Lemma mask_or_map {A : Type} (f g : A -> bool) (l : list A) :
  mask_or (map f l) (map g l) = map (fun x => f x || g x) l.
Proof. induction l; simpl; congruence. Qed.

Lemma est_hours_mask_float v :
  est_hours_mask (Float64 v) = inr (map out_of_rangeb (cells (Float64 v))).
Proof.
  unfold est_hours_mask, series_lt, series_gt, compare_scalar.
  rewrite mask_or_map. simpl. rewrite map_map. f_equal.
  apply map_ext. now intros [x |].
Qed.

Lemma est_hours_mask_spec s m :
  est_hours_mask s = inr m -> m = map out_of_rangeb (cells s).
Proof.
  destruct s as [v | v].
  - rewrite est_hours_mask_float. now intros [= <-].
  - unfold est_hours_mask, series_lt, series_gt, compare_scalar.
    destruct (forallb is_none v) eqn:E; [| discriminate].
    intros [= <-]. rewrite mask_or_map. simpl. rewrite map_map.
    apply map_ext. now intros [t |].
Qed.

Lemma out_of_rangeb_spec c : out_of_rangeb c = true <-> out_of_range c.
Proof.
  unfold out_of_range. destruct c as [| q | t]; simpl.
  - split; [discriminate | intros [q [H _]]; discriminate].
  - unfold Qltb. rewrite orb_true_iff, !negb_true_iff.
    rewrite <- !not_true_iff_false, !Qle_bool_iff. split.
    + intros H. exists q. split; trivial.
      destruct H as [H | H]; [left | right]; now apply Qnot_le_lt.
    + intros [q' [[= <-] H]].
      destruct H as [H | H]; [left | right]; now apply Qlt_not_le.
  - split; [discriminate | intros [q [H _]]; discriminate].
Qed.

Lemma object_not_out_of_range v i : ~ out_of_range (cell_at (Object v) i).
Proof.
  unfold cell_at. simpl. intros [q [H _]].
  destruct (nth_in_or_default i (map str_cell v) NaN) as [Hin | Hd].
  - rewrite H in Hin. apply in_map_iff in Hin.
    destruct Hin as [[t |] [Ht _]]; discriminate.
  - rewrite H in Hd. discriminate.
Qed.

Lemma flagged_iff df s i :
  well_formed df -> getitem df "Est_Hours" = Some s -> i < len df ->
  (flagged df (est_hours_mask s) i <-> out_of_range (cell_at s i)).
Proof.
  intros Hwf Hs Hi. unfold flagged. split.
  - intros [m [Hm Hin]]. apply df_select_In in Hin.
    destruct Hin as [_ [_ Hbit]]. apply est_hours_mask_spec in Hm. subst m.
    apply out_of_rangeb_spec. unfold cell_at.
    rewrite <- Hbit. change false with (out_of_rangeb NaN). now rewrite map_nth.
  - intros Hout. destruct s as [v | v].
    + eexists. split; [apply est_hours_mask_float |].
      apply df_select_In. repeat split; trivial.
      change false with (out_of_rangeb NaN). rewrite map_nth.
      now apply out_of_rangeb_spec.
    + now destruct (object_not_out_of_range v i).
Qed.

(** ** Reading the log of a computation *)

Lemma in_bind {A B : Type} (c : M A) (k : A -> M B) r :
  In r (output (bind c k)) ->
  In r (output c) \/ exists a, outcome c = inr a /\ In r (output (k a)).
Proof.
  rewrite output_bind, in_app_iff. intros [H | H]; [now left | right].
  destruct (outcome c) as [e | a]; [destruct H | eauto].
Qed.

Lemma in_bind_l {A B : Type} (c : M A) (k : A -> M B) r :
  In r (output c) -> In r (output (bind c k)).
Proof. intros H. rewrite output_bind. apply in_or_app. now left. Qed.

Lemma in_bind_r {A B : Type} (c : M A) (k : A -> M B) a r :
  outcome c = inr a -> In r (output (k a)) -> In r (output (bind c k)).
Proof.
  intros Hc H. rewrite output_bind, Hc. apply in_or_app. now right.
Qed.

Lemma bind_lift {A B : Type} (a : A) (k : A -> M B) :
  bind (lift (inr a)) k = k a.
Proof. exact (bind_unit a k). Qed.

(** Takes a membership in the log of a computation apart, along binds,
    branches and loops, and closes the cases whose record has another
    shape. *)
Ltac log_inv H :=
  repeat match type of H with
  | In _ (output (bind _ _)) =>
      let E := fresh "E" in
      apply in_bind in H; destruct H as [H | [? [E H]]];
      [| try (simpl in E; discriminate E); clear E]
  | In _ (output (for_each _ _)) =>
      apply for_each_output in H; destruct H as [[? ?] [_ H]]
  | In _ (output (if ?b then _ else _)) => destruct b
  | In _ (output (let (_, _) := ?x in _)) => destruct x
  | In _ (output (df_getitem _ _)) =>
      unfold df_getitem in H; destruct (getitem _ _)
  | In _ (output (row_getitem _ _ _)) =>
      unfold row_getitem in H; destruct (row_get _ _ _)
  | In _ (output (lift _)) => destruct H
  | In _ (output (ret _)) => destruct H
  | In _ (output (raise _)) => destruct H
  | In _ (output (emit _ _)) => simpl in H
  | In _ (output (logger_info _)) => simpl in H
  | In _ (output (logger_warning _)) => simpl in H
  | In _ (output (logger_error _)) => simpl in H
  | In _ (output (logger_debug _)) => simpl in H
  | In _ (output (header _)) => simpl in H
  | _ \/ _ => destruct H as [H | H]
  | False => destruct H
  | (_, _) = (_, _) => discriminate H
  end.

Ltac log_absurd H := solve [log_inv H].

(** ** The range check and its log *)

Lemma row_get_row_at df col s i :
  getitem df col = Some s ->
  row_get (columns df) (row_at df i) col = Some (cell_at s i).
Proof.
  unfold getitem, columns, row_at. induction (data df) as [| [c s'] d IH];
    simpl; [discriminate |].
  destruct (String.eqb col c); [| exact IH].
  now intros [= ->].
Qed.

Lemma hours_row_logged df b lvl i sid v :
  In (lvl, InvalidHoursRow i sid v) (output (check_est_hours_range df b)) ->
  exists s, getitem df "Est_Hours" = Some s /\
            flagged df (est_hours_mask s) i.
Proof.
  unfold check_est_hours_range. intros H.
  apply in_bind in H. destruct H as [H | [_ [_ H]]]; [log_absurd H |].
  destruct (has_column "Est_Hours" df); [| log_absurd H].
  unfold df_getitem in H. destruct (getitem df "Est_Hours") as [s |] eqn:Hs;
    [| log_absurd H].
  rewrite bind_unit in H. exists s. split; trivial.
  destruct (est_hours_mask s) as [e | m] eqn:Hm; [destruct H |].
  rewrite bind_lift in H.
  destruct (negb (is_nil (df_select df m))); [| log_absurd H].
  apply in_bind in H. destruct H as [H | [_ [_ H]]]; [log_absurd H |].
  apply in_bind in H. destruct H as [H | [_ [_ H]]]; [| log_absurd H].
  apply for_each_output in H. destruct H as [[idx row] [Hsel H]].
  assert (idx = i) as ->.
  { log_inv H. now injection H. }
  exists m. split; trivial.
  pose proof Hsel as Hsel'. apply df_select_In in Hsel'.
  destruct Hsel' as [_ [<- _]]. exact Hsel.
Qed.

Lemma phase_check_log df b lvl i sid v :
  ~ In (lvl, InvalidHoursRow i sid v) (output (check_phase_enum df b)).
Proof. unfold check_phase_enum. intros H. log_absurd H. Qed.

Lemma type_check_log df b lvl i sid v :
  ~ In (lvl, InvalidHoursRow i sid v) (output (check_type_enum df b)).
Proof. unfold check_type_enum. intros H. log_absurd H. Qed.

Lemma hours_row_reported df lvl i sid v :
  In (lvl, InvalidHoursRow i sid v) (output (validate_business_logic df)) ->
  exists s, getitem df "Est_Hours" = Some s /\
            flagged df (est_hours_mask s) i.
Proof.
  unfold validate_business_logic. intros H.
  apply in_bind in H. destruct H as [H | [_ [_ H]]]; [log_absurd H |].
  apply in_bind in H. destruct H as [H | [b1 [_ H]]].
  { eapply hours_row_logged; eauto. }
  apply in_bind in H. destruct H as [H | [b2 [_ H]]].
  { now apply phase_check_log in H. }
  apply in_bind in H. destruct H as [H | [b3 [_ H]]].
  { now apply type_check_log in H. }
  log_absurd H.
Qed.

Lemma logger_info_eq msg : logger_info msg = ([(INFO, msg)], inr tt).
Proof. reflexivity. Qed.

Lemma logger_warning_eq msg : logger_warning msg = ([(WARNING, msg)], inr tt).
Proof. reflexivity. Qed.

Lemma logger_error_eq msg : logger_error msg = ([(ERROR, msg)], inr tt).
Proof. reflexivity. Qed.

(** Runs the straight-line part of a computation. *)
Ltac run_log :=
  repeat (rewrite ?logger_info_eq, ?logger_warning_eq, ?logger_error_eq;
          first [rewrite bind_ok | rewrite bind_unit]);
  rewrite ?logger_info_eq, ?logger_warning_eq, ?logger_error_eq;
  unfold ret, output, outcome; cbn [fst snd app];
  rewrite <- ?app_assoc, ?app_nil_r; cbn [fst snd app].

Lemma hours_check_eq df b k s m :
  getitem df "Story_ID" = Some k ->
  getitem df "Est_Hours" = Some s ->
  est_hours_mask s = inr m ->
  check_est_hours_range df b =
  ((INFO, Line "Checking Est_Hours range...")
     :: (if is_nil (df_select df m)
         then [ (INFO, Line "  [OK] All Est_Hours values are in valid range") ]
         else (WARNING, InvalidHoursFound (length (df_select df m)))
                :: map (fun x => (WARNING,
                                  InvalidHoursRow (fst x) (cell_at k (fst x))
                                                  (cell_at s (fst x))))
                       (df_select df m)),
   inr (if is_nil (df_select df m) then b else true)).
Proof.
  intros Hk Hs Hm. unfold check_est_hours_range.
  rewrite (getitem_has_column _ _ _ Hs). unfold df_getitem. rewrite Hs.
  rewrite bind_unit, Hm, bind_lift, logger_info_eq, bind_ok.
  destruct (is_nil (df_select df m)) eqn:E; simpl negb; cbv iota.
  - reflexivity.
  - rewrite (for_each_ok _ _
      (fun x => [(WARNING, InvalidHoursRow (fst x) (cell_at k (fst x))
                                           (cell_at s (fst x)))])).
    + rewrite flat_map_single. run_log. reflexivity.
    + intros [idx row] Hin. apply df_select_In in Hin.
      destruct Hin as [_ [-> _]]. unfold row_getitem.
      rewrite (row_get_row_at _ _ _ _ Hk), (row_get_row_at _ _ _ _ Hs).
      reflexivity.
Qed.

(** C5: on a table with the Est_Hours column, the range check selects a
    row iff its value is a number strictly below 0.5 or strictly above 100;
    a value equal to 0.5 or to 100 is not selected.  A row is cited in a
    per-row warning of the step only if it is selected, and, when the key
    column is present, every selected row is cited with its key and
    value. *)
Theorem C5_range_check (df : DataFrame) (s : Series) (i : nat) :
  well_formed df ->
  getitem df "Est_Hours" = Some s ->
  i < len df ->
  (flagged df (est_hours_mask s) i <-> out_of_range (cell_at s i)) /\
  (forall q, cell_at s i = Num q ->
             (q == MIN_EST_HOURS \/ q == MAX_EST_HOURS)%Q ->
             ~ flagged df (est_hours_mask s) i) /\
  (forall sid v,
     In (WARNING, InvalidHoursRow i sid v)
        (output (validate_business_logic df)) ->
     out_of_range (cell_at s i)) /\
  (forall k, getitem df "Story_ID" = Some k ->
     out_of_range (cell_at s i) ->
     In (WARNING, InvalidHoursRow i (cell_at k i) (cell_at s i))
        (output (validate_business_logic df))).
Proof.
  intros Hwf Hs Hi. pose proof (flagged_iff df s i Hwf Hs Hi) as Hiff.
  split; [exact Hiff | split; [| split]].
  - intros q Hq Hbound Hflag. apply Hiff in Hflag.
    destruct Hflag as [q' [Hq' Hout]]. rewrite Hq in Hq'.
    injection Hq' as <-. unfold MIN_EST_HOURS, MAX_EST_HOURS in *.
    destruct Hbound as [E | E]; rewrite E in Hout;
      destruct Hout as [H | H]; revert H; compute; discriminate.
  - intros sid v Hin. apply hours_row_reported in Hin.
    destruct Hin as [s' [Hs' Hflag]]. rewrite Hs in Hs'.
    injection Hs' as <-. now apply Hiff.
  - intros k Hk Hout. apply Hiff in Hout. destruct Hout as [m [Hm Hin]].
    unfold validate_business_logic. eapply in_bind_r; [reflexivity |].
    apply in_bind_l. rewrite (hours_check_eq df false k s m Hk Hs Hm).
    unfold output. cbn [fst]. right.
    destruct (df_select df m) as [| x l] eqn:E; [destruct Hin |].
    cbn [is_nil]. right. rewrite <- E in *.
    apply in_map_iff. exists (i, row_at df i). split; trivial.
Qed.

Lemma df_clean_well_formed : well_formed df_clean.
Proof. repeat constructor. Qed.

Lemma df_no_story_id_well_formed : well_formed df_no_story_id.
Proof. repeat constructor. Qed.

Lemma C5_range_check_witness :
  ~ flagged df_clean
      (est_hours_mask (Float64 [Some (1 # 2); Some 100%Q; Some 8%Q])) 0 /\
  ~ flagged df_clean
      (est_hours_mask (Float64 [Some (1 # 2); Some 100%Q; Some 8%Q])) 1 /\
  flagged df_no_story_id (est_hours_mask (Float64 [Some 150%Q])) 0.
Proof.
  split; [| split].
  - apply (C5_range_check df_clean _ 0 df_clean_well_formed eq_refl
             (ltac:(unfold len; simpl; lia)))
      with (q := (1 # 2)%Q); [reflexivity | left; reflexivity].
  - apply (C5_range_check df_clean _ 1 df_clean_well_formed eq_refl
             (ltac:(unfold len; simpl; lia)))
      with (q := 100%Q); [reflexivity | right; reflexivity].
  - apply (C5_range_check df_no_story_id _ 0 df_no_story_id_well_formed
             eq_refl (ltac:(unfold len; simpl; lia))).
    exists 150%Q. split; [reflexivity | right; reflexivity].
Defined.

(** ** The scorer *)

Lemma report_score_ok score deductions :
  outcome (report_score score deductions) =
  inr (Qmax 0 score, rate (Qmax 0 score), deductions).
Proof.
  unfold report_score.
  rewrite (for_each_ok _ _
    (fun d => if Qltb 0 (snd d)
              then [(INFO, Deduction (fst d) (snd d))] else [])).
  - run_log. reflexivity.
  - intros [category deduction] _. simpl. now destruct (Qltb 0 deduction).
Qed.


Lemma bind_raise {A B : Type} (e : exn) (k : A -> M B) :
  bind (lift (inl e)) k = raise e.
Proof. reflexivity. Qed.

(** The scorer divides by zero on a table without rows that has one of the
    two checked columns, or the range mask raises, or it reaches its report
    with the deductions of the columns that are present. *)
Lemma scorer_run df :
  (len df = 0 /\
   (has_column "Phase" df = true \/ has_column "Est_Hours" df = true) /\
   outcome (calculate_data_quality_score df) = inl ZeroDivisionError) \/
  (exists s e, getitem df "Est_Hours" = Some s /\
               est_hours_mask s = inl e /\
               outcome (calculate_data_quality_score df) = inl e) \/
  exists pd hd,
    let deductions := [ ("NULLs", null_deduction df);
                        ("Duplicates", dupe_deduction df) ] ++ pd ++ hd in
    calculate_data_quality_score df =
      (header_log "STEP 6: DATA QUALITY SCORE (Advanced)" ++
       output (report_score (subtract_all deductions 100%Q) deductions),
       outcome (report_score (subtract_all deductions 100%Q) deductions)) /\
    ((has_column "Phase" df = false /\ pd = []) \/
     (exists s, getitem df "Phase" = Some s /\ len df <> 0 /\
        pd = [ ("Invalid Phase",
                phase_deduction_of
                  (length (df_select df (not_in_mask s VALID_PHASE)))
                  (len df)) ])) /\
    ((has_column "Est_Hours" df = false /\ hd = []) \/
     (exists s m, getitem df "Est_Hours" = Some s /\
        est_hours_mask s = inr m /\ len df <> 0 /\
        hd = [ ("Invalid Hours",
                hours_deduction_of (length (df_select df m)) (len df)) ])).
Proof.
  unfold calculate_data_quality_score. rewrite header_eq, bind_ok.
  match goal with |- context [output ?body] => set (X := body) end.
  assert (HX :
    (len df = 0 /\
     (has_column "Phase" df = true \/ has_column "Est_Hours" df = true) /\
     outcome X = inl ZeroDivisionError) \/
    (exists s e, getitem df "Est_Hours" = Some s /\
                 est_hours_mask s = inl e /\ outcome X = inl e) \/
    exists pd hd,
      let deductions := [ ("NULLs", null_deduction df);
                          ("Duplicates", dupe_deduction df) ] ++ pd ++ hd in
      X = report_score (subtract_all deductions 100%Q) deductions /\
      ((has_column "Phase" df = false /\ pd = []) \/
       (exists s, getitem df "Phase" = Some s /\ len df <> 0 /\
          pd = [ ("Invalid Phase",
                  phase_deduction_of
                    (length (df_select df (not_in_mask s VALID_PHASE)))
                    (len df)) ])) /\
      ((has_column "Est_Hours" df = false /\ hd = []) \/
       (exists s m, getitem df "Est_Hours" = Some s /\
          est_hours_mask s = inr m /\ len df <> 0 /\
          hd = [ ("Invalid Hours",
                  hours_deduction_of (length (df_select df m)) (len df)) ]))).
  { remember X as Y eqn:HY. subst X.
    destruct (has_column "Phase" df) eqn:HP.
    - destruct (has_column_getitem _ _ HP) as [p Hp].
      unfold df_getitem at 1 in HY. rewrite Hp, bind_unit in HY.
      unfold py_div at 1 in HY.
      destruct (len df =? 0) eqn:Hlen.
      { left. apply Nat.eqb_eq in Hlen. repeat split; auto.
        now rewrite HY, bind_raise. }
      apply Nat.eqb_neq in Hlen.
      rewrite bind_lift, bind_unit in HY.
      destruct (has_column "Est_Hours" df) eqn:HH.
      + destruct (has_column_getitem _ _ HH) as [h Hh].
        unfold df_getitem in HY. rewrite Hh, bind_unit in HY.
        destruct (est_hours_mask h) as [e | m] eqn:Hm.
        { right. left. exists h, e. repeat split; trivial.
          now rewrite HY, bind_raise. }
        rewrite bind_lift in HY. unfold py_div in HY.
        destruct (len df =? 0) eqn:Hlen'.
        { apply Nat.eqb_eq in Hlen'. contradiction. }
        rewrite bind_lift, bind_unit in HY.
        right. right. exists [("Invalid Phase",
          phase_deduction_of
            (length (df_select df (not_in_mask p VALID_PHASE))) (len df))],
          [("Invalid Hours",
            hours_deduction_of (length (df_select df m)) (len df))].
        split; [exact HY |]. split; right; eauto 10.
      + rewrite bind_unit in HY.
        right. right. exists [("Invalid Phase",
          phase_deduction_of
            (length (df_select df (not_in_mask p VALID_PHASE))) (len df))],
          [].
        split; [exact HY |]. split; [right | left]; eauto 10.
    - rewrite bind_unit in HY.
      destruct (has_column "Est_Hours" df) eqn:HH.
      + destruct (has_column_getitem _ _ HH) as [h Hh].
        unfold df_getitem in HY. rewrite Hh, bind_unit in HY.
        destruct (est_hours_mask h) as [e | m] eqn:Hm.
        { right. left. exists h, e. repeat split; trivial.
          now rewrite HY, bind_raise. }
        rewrite bind_lift in HY. unfold py_div in HY.
        destruct (len df =? 0) eqn:Hlen.
        { left. apply Nat.eqb_eq in Hlen. repeat split; auto.
          now rewrite HY, bind_raise. }
        apply Nat.eqb_neq in Hlen.
        rewrite bind_lift, bind_unit in HY.
        right. right. exists [], [("Invalid Hours",
          hours_deduction_of (length (df_select df m)) (len df))].
        split; [exact HY |]. split; [left | right]; eauto 10.
      + rewrite bind_unit in HY. right. right. exists [], [].
        split; [exact HY |]. split; left; auto. }
  destruct HX as [[H0 [Hc He]] | [[s [e [Hs [Hm He]]]] | [pd [hd [HX Hcols]]]]].
  - left. auto.
  - right. left. exists s, e. auto.
  - right. right. exists pd, hd. split; [| exact Hcols]. now rewrite HX.
Qed.

(** The scorer returns on every table with a row whose Est_Hours column, if
    present, can be compared with a number. *)
Lemma scorer_returns df :
  len df <> 0 ->
  (forall s e, getitem df "Est_Hours" = Some s -> est_hours_mask s <> inl e) ->
  exists score rating deductions,
    outcome (calculate_data_quality_score df)
      = inr (score, rating, deductions).
Proof.
  intros Hlen Hmask.
  destruct (scorer_run df)
    as [[H0 _] | [[s [e [Hs [Hm _]]]] | [pd [hd [Heq _]]]]].
  - contradiction.
  - destruct (Hmask _ _ Hs Hm).
  - rewrite Heq. unfold outcome at 1. cbn [snd]. rewrite report_score_ok.
    eauto.
Qed.

(** What a run of the scorer that returns has computed. *)
Lemma scorer_outcome df score rating deductions :
  outcome (calculate_data_quality_score df) = inr (score, rating, deductions) ->
  exists pd hd,
    deductions = [ ("NULLs", null_deduction df);
                   ("Duplicates", dupe_deduction df) ] ++ pd ++ hd /\
    score = Qmax 0 (subtract_all deductions 100%Q) /\
    rating = rate score /\
    ((has_column "Phase" df = false /\ pd = []) \/
     (exists s, getitem df "Phase" = Some s /\ len df <> 0 /\
        pd = [ ("Invalid Phase",
                phase_deduction_of
                  (length (df_select df (not_in_mask s VALID_PHASE)))
                  (len df)) ])) /\
    ((has_column "Est_Hours" df = false /\ hd = []) \/
     (exists s m, getitem df "Est_Hours" = Some s /\
        est_hours_mask s = inr m /\ len df <> 0 /\
        hd = [ ("Invalid Hours",
                hours_deduction_of (length (df_select df m)) (len df)) ])).
Proof.
  intros Hrun.
  destruct (scorer_run df)
    as [[_ [_ He]] | [[s [e [_ [_ He]]]] | [pd [hd [Heq Hcols]]]]].
  - congruence.
  - congruence.
  - exists pd, hd. rewrite Heq in Hrun. unfold outcome at 1 in Hrun.
    cbn [snd] in Hrun. rewrite report_score_ok in Hrun.
    injection Hrun as <- <- <-. auto.
Qed.


(** ** Null hours *)

Lemma compare_scalar_null op s m i :
  compare_scalar op s = inr m -> cell_at s i = NaN -> nth i m false = false.
Proof.
  unfold cell_at. destruct s as [v | v]; simpl.
  - intros [= <-] Hnull.
    rewrite (map_nth num_cell v None i : nth i (map num_cell v) NaN = _)
      in Hnull.
    rewrite (map_nth (fun o : option Q =>
                        match o with Some y => op y | None => false end)
                     v None i : nth i (map _ v) false = _).
    destruct (nth i v None); [discriminate | reflexivity].
  - destruct (forallb is_none v); [| discriminate]. intros [= <-] _.
    exact (map_nth (fun _ : option string => false) v None i).
Qed.

Lemma filter_map_length {A B : Type} (g : B -> bool) (h : A -> B) (l : list A) :
  length (filter g (map h l)) = length (filter (fun x => g (h x)) l).
Proof.
  induction l as [| x l IH]; simpl; trivial.
  destruct (g (h x)); simpl; now rewrite IH.
Qed.

Lemma count_by_index {A : Type} (f : A -> bool) (d : A) (l : list A) :
  length (filter f l) =
  length (filter (fun j => f (nth j l d)) (seq 0 (length l))).
Proof.
  induction l as [| x l IH]; simpl; trivial.
  rewrite <- seq_shift.
  destruct (f x); simpl; now rewrite filter_map_length, IH.
Qed.

Lemma mask_sum_map {A : Type} (f : A -> bool) (l : list A) :
  mask_sum (map f l) = length (filter f l).
Proof. exact (filter_map_length (fun b : bool => b) f l). Qed.

Lemma hours_count df s m :
  well_formed df -> getitem df "Est_Hours" = Some s ->
  est_hours_mask s = inr m ->
  length (df_select df m) =
  length (filter (fun j => out_of_rangeb (cell_at s j)) (seq 0 (len df))).
Proof.
  intros Hwf Hs Hm. apply est_hours_mask_spec in Hm. subst m.
  pose proof (column_length _ _ _ Hwf Hs) as Hlen.
  unfold df_select. rewrite select_length.
  - rewrite mask_sum_map, (count_by_index _ NaN), Hlen. reflexivity.
  - now rewrite iterrows_length, length_map.
Qed.

(** C10: a row whose Est_Hours value is null satisfies neither comparison
    of the range mask; the range check does not select it and no per-row
    warning of step 5 cites it; the invalid-hours count behind the scorer's
    deduction is the number of other rows that are out of range. *)
Theorem C10_null_hours_never_flagged (df : DataFrame) (s : Series) (i : nat) :
  well_formed df ->
  getitem df "Est_Hours" = Some s ->
  i < len df ->
  cell_at s i = NaN ->
  (forall m, series_lt s MIN_EST_HOURS = inr m -> nth i m false = false) /\
  (forall m, series_gt s MAX_EST_HOURS = inr m -> nth i m false = false) /\
  ~ flagged df (est_hours_mask s) i /\
  (forall sid v,
     ~ In (WARNING, InvalidHoursRow i sid v)
          (output (validate_business_logic df))) /\
  (forall score rating deductions,
     outcome (calculate_data_quality_score df)
       = inr (score, rating, deductions) ->
     In ("Invalid Hours",
         hours_deduction_of
           (length (filter (fun j => negb (j =? i) &&
                                     out_of_rangeb (cell_at s j))
                           (seq 0 (len df))))
           (len df))
        deductions).
Proof.
  intros Hwf Hs Hi Hnull.
  assert (Hnot : ~ flagged df (est_hours_mask s) i).
  { intros Hflag. apply (flagged_iff df s i Hwf Hs Hi) in Hflag.
    destruct Hflag as [q [Hq _]]. congruence. }
  split; [| split; [| split; [| split]]]; trivial.
  - intros m Hm. exact (compare_scalar_null _ _ _ _ Hm Hnull).
  - intros m Hm. exact (compare_scalar_null _ _ _ _ Hm Hnull).
  - intros sid v Hin. apply hours_row_reported in Hin.
    destruct Hin as [s' [Hs' Hflag]]. congruence.
  - intros score rating deductions Hrun.
    apply scorer_outcome in Hrun.
    destruct Hrun as [pd [hd [-> [_ [_ [_ Hhours]]]]]].
    destruct Hhours as [[Hno _] | [s' [m [Hs' [Hm [_ ->]]]]]].
    { rewrite (getitem_has_column _ _ _ Hs) in Hno. discriminate. }
    assert (s' = s) as -> by congruence.
    rewrite (hours_count df s m Hwf Hs Hm).
    replace (filter (fun j => out_of_rangeb (cell_at s j)) (seq 0 (len df)))
      with (filter (fun j => negb (j =? i) && out_of_rangeb (cell_at s j))
                   (seq 0 (len df))).
    + apply in_or_app. right. apply in_or_app. right. now left.
    + apply filter_ext. intros j. destruct (Nat.eqb_spec j i) as [-> | _];
        simpl; trivial. now rewrite Hnull.
Qed.

Lemma C10_null_hours_never_flagged_witness :
  ~ flagged df_gaps
      (est_hours_mask (Float64 [Some (1 # 4); None; Some 8%Q; None])) 1 /\
  In ("Invalid Hours", hours_deduction_of 1 4)
     [ ("NULLs", null_deduction df_gaps);
       ("Duplicates", dupe_deduction df_gaps);
       ("Invalid Hours", hours_deduction_of 1 4) ].
Proof.
  destruct (C10_null_hours_never_flagged df_gaps
              (Float64 [Some (1 # 4); None; Some 8%Q; None]) 1
              df_gaps_well_formed eq_refl
              (ltac:(unfold len; simpl; lia)) eq_refl)
    as [_ [_ [Hflag [_ Hscore]]]].
  split; [exact Hflag |].
  exact (Hscore _ _ _ eq_refl).
Defined.

(** ** Duplicates *)

Lemma cell_eqb_refl c : cell_eqb c c = true.
Proof.
  destruct c; simpl; trivial; [apply Qeq_bool_refl | apply String.eqb_refl].
Qed.

Lemma cell_eqb_sym a b : cell_eqb a b = cell_eqb b a.
Proof.
  destruct a, b; simpl; trivial; [apply Qeq_bool_comm | apply String.eqb_sym].
Qed.

Lemma cell_eqb_trans a b c :
  cell_eqb a b = true -> cell_eqb b c = true -> cell_eqb a c = true.
Proof.
  destruct a, b, c; simpl; trivial; try discriminate.
  - apply Qeq_bool_trans.
  - rewrite !String.eqb_eq. congruence.
Qed.

Lemma row_eqb_refl r : row_eqb r r = true.
Proof. induction r; simpl; trivial. now rewrite cell_eqb_refl. Qed.

Lemma row_eqb_sym r1 r2 : row_eqb r1 r2 = row_eqb r2 r1.
Proof.
  revert r2. induction r1 as [| a r1 IH]; intros [| b r2]; simpl; trivial.
  now rewrite cell_eqb_sym, IH.
Qed.

Section DuplicatedFacts.
Context {A : Type} (eqb : A -> A -> bool) (f : nat -> A).

Lemma duplicated_from_indexed (n k : nat) (seen : list A) :
  (forall x, occurs eqb x seen = existsb (fun j => eqb x (f j)) (seq 0 k)) ->
  duplicated_from eqb seen (map f (seq k n)) =
  map (fun i => existsb (fun j => eqb (f i) (f j)) (seq 0 i)) (seq k n).
Proof.
  revert k seen. induction n as [| n IH]; intros k seen Hseen; simpl; trivial.
  rewrite Hseen. f_equal. apply IH. intros x.
  change (occurs eqb x (f k :: seen)) with (eqb x (f k) || occurs eqb x seen).
  rewrite Hseen, seq_S, existsb_app. cbn [existsb Nat.add].
  rewrite orb_false_r. apply orb_comm.
Qed.

Lemma duplicated_first_indexed (n : nat) :
  duplicated_first eqb (map f (seq 0 n)) =
  map (fun i => existsb (fun j => eqb (f i) (f j)) (seq 0 i)) (seq 0 n).
Proof. apply duplicated_from_indexed. reflexivity. Qed.

Lemma two_members (l : list nat) (i : nat) :
  NoDup l -> In i l ->
  (2 <= length l <-> exists j, In j l /\ j <> i).
Proof.
  intros Hnd Hi. split.
  - destruct l as [| a [| b l]]; simpl; try lia. intros _.
    destruct (Nat.eq_dec a i) as [-> | Ha].
    + exists b. split; [auto |]. inversion Hnd as [| ? ? Hnot _]. subst.
      intros ->. apply Hnot. now left.
    + exists a. auto.
  - intros [j [Hj Hne]]. destruct l as [| a [| b l]]; simpl in *; lia.
Qed.

Hypothesis eqb_refl : forall x, eqb x x = true.

Lemma duplicated_all_indexed (n : nat) :
  duplicated_all eqb (map f (seq 0 n)) =
  map (fun i => existsb (fun j => negb (j =? i) && eqb (f i) (f j)) (seq 0 n))
      (seq 0 n).
Proof.
  unfold duplicated_all. rewrite map_map. apply map_ext_in. intros i Hi.
  unfold occurrences. rewrite filter_map_length.
  apply eq_true_iff_eq. rewrite Nat.leb_le, existsb_exists.
  rewrite (two_members _ i).
  - split.
    + intros [j [Hj Hne]]. apply filter_In in Hj. destruct Hj as [Hj Heq].
      exists j. split; trivial. rewrite Heq, andb_true_r.
      now apply negb_true_iff, Nat.eqb_neq.
    + intros [j [Hj Hb]]. apply andb_true_iff in Hb. destruct Hb as [Hne Heq].
      exists j. split.
      * apply filter_In. auto.
      * now apply Nat.eqb_neq, negb_true_iff.
  - apply NoDup_filter, seq_NoDup.
  - apply filter_In. auto.
Qed.

End DuplicatedFacts.

Lemma df_duplicated_eq df :
  df_duplicated df = map (earlier_identical df) (seq 0 (len df)).
Proof. apply (duplicated_first_indexed row_eqb (row_at df)). Qed.

Lemma df_duplicated_all_eq df :
  df_duplicated_all df = map (other_identical df) (seq 0 (len df)).
Proof.
  apply (duplicated_all_indexed row_eqb (row_at df) row_eqb_refl).
Qed.

Lemma first_exclusive_count_eq df :
  mask_sum (df_duplicated df) = first_exclusive_count df.
Proof. rewrite df_duplicated_eq. apply mask_sum_map. Qed.

Lemma symmetric_count_eq df :
  mask_sum (df_duplicated_all df) = symmetric_count df.
Proof. rewrite df_duplicated_all_eq. apply mask_sum_map. Qed.

Lemma nth_indexed (g : nat -> bool) n i :
  nth i (map g (seq 0 n)) false = true <-> i < n /\ g i = true.
Proof.
  destruct (Nat.lt_ge_cases i n) as [Hlt | Hge].
  - rewrite (nth_indep _ false (g 0)) by now rewrite length_map, length_seq.
    rewrite map_nth, seq_nth by trivial. simpl. tauto.
  - rewrite nth_overflow by now rewrite length_map, length_seq.
    split; [discriminate | lia].
Qed.

Lemma other_identical_spec df i :
  other_identical df i = true <->
  exists j, j < len df /\ j <> i /\
            row_eqb (row_at df i) (row_at df j) = true.
Proof.
  unfold other_identical. rewrite existsb_exists. split.
  - intros [j [Hj Hb]]. apply in_seq in Hj. apply andb_true_iff in Hb.
    destruct Hb as [Hne Heq]. apply negb_true_iff, Nat.eqb_neq in Hne.
    exists j. repeat split; trivial; lia.
  - intros [j [Hj [Hne Heq]]]. exists j. split; [apply in_seq; lia |].
    rewrite Heq, andb_true_r. now apply negb_true_iff, Nat.eqb_neq.
Qed.

Lemma duplicate_rows_In df i r :
  In (i, r) (df_select df (df_duplicated_all df)) <->
  i < len df /\ r = row_at df i /\ other_identical df i = true.
Proof.
  rewrite df_select_In, df_duplicated_all_eq, nth_indexed. tauto.
Qed.

Lemma duplicate_rows_length df :
  length (df_select df (df_duplicated_all df)) = symmetric_count df.
Proof.
  unfold df_select. rewrite select_length, symmetric_count_eq; trivial.
  now rewrite iterrows_length, df_duplicated_all_eq, length_map, length_seq.
Qed.

(** ** Sorting *)

Section SortFacts.
Context {A : Type} (leb : A -> A -> bool).
Hypothesis leb_total : forall x y, leb x y = true \/ leb y x = true.

Lemma insert_sorted_perm x l : Permutation (x :: l) (insert_sorted leb x l).
Proof.
  induction l as [| y l IH]; simpl; [reflexivity |].
  destruct (leb x y); [reflexivity |].
  rewrite perm_swap. now constructor.
Qed.

Lemma sort_perm l : Permutation l (sort leb l).
Proof.
  induction l as [| x l IH]; simpl; [constructor |].
  rewrite <- insert_sorted_perm. now constructor.
Qed.

Lemma insert_sorted_sorted x l :
  Sorted (fun a b => leb a b = true) l ->
  Sorted (fun a b => leb a b = true) (insert_sorted leb x l).
Proof.
  induction 1 as [| y l Hs IH Hhd]; simpl.
  - repeat constructor.
  - destruct (leb x y) eqn:E.
    + repeat constructor; trivial.
    + constructor; trivial.
      destruct (leb_total x y) as [Hxy | Hyx]; [congruence |].
      destruct Hhd as [| z l Hyz]; simpl.
      * repeat constructor. exact Hyx.
      * destruct (leb x z); constructor; trivial.
Qed.

Lemma sort_sorted l : Sorted (fun a b => leb a b = true) (sort leb l).
Proof.
  induction l as [| x l IH]; simpl; [constructor |].
  now apply insert_sorted_sorted.
Qed.

End SortFacts.

Lemma cell_leb_total a b : cell_leb a b = true \/ cell_leb b a = true.
Proof.
  destruct a as [| x | s], b as [| y | t]; simpl; auto.
  - rewrite !Qle_bool_iff. destruct (Qlt_le_dec x y) as [H | H]; auto.
    left. now apply Qlt_le_weak.
  - apply String.leb_total.
Qed.

Lemma row_leb_total r1 r2 : row_leb r1 r2 = true \/ row_leb r2 r1 = true.
Proof.
  revert r2. induction r1 as [| a r1 IH]; intros [| b r2]; simpl; auto.
  destruct (cell_leb_total a b) as [H | H]; rewrite H;
    destruct (cell_leb b a) eqn:E1; destruct (cell_leb a b) eqn:E2; auto;
    discriminate.
Qed.

Lemma sort_values_sorted d :
  Sorted (fun a b => row_leb (snd a) (snd b) = true) (sort_values d).
Proof.
  apply (sort_sorted labelled_leb). intros x y. apply row_leb_total.
Qed.

Lemma sort_values_In d x : In x (sort_values d) <-> In x d.
Proof.
  split; apply Permutation_in; [symmetry |]; apply sort_perm.
Qed.

(** ** The order of [sort_values] is transitive *)

Lemma ascii_compare_refl a : Ascii.compare a a = Eq.
Proof. apply N.compare_refl. Qed.

Lemma ascii_compare_lt_trans a b c :
  Ascii.compare a b = Lt -> Ascii.compare b c = Lt -> Ascii.compare a c = Lt.
Proof.
  unfold Ascii.compare. rewrite !N.compare_lt_iff. apply N.lt_trans.
Qed.

Lemma string_compare_refl s : String.compare s s = Eq.
Proof.
  induction s as [| a s IH]; simpl; trivial. now rewrite ascii_compare_refl.
Qed.

Lemma string_compare_lt_trans s1 s2 s3 :
  String.compare s1 s2 = Lt -> String.compare s2 s3 = Lt ->
  String.compare s1 s3 = Lt.
Proof.
  revert s2 s3. induction s1 as [| a s1 IH]; intros [| b s2] [| c s3]; simpl;
    trivial; try discriminate.
  destruct (Ascii.compare a b) eqn:Eab; try discriminate;
    destruct (Ascii.compare b c) eqn:Ebc; try discriminate; intros H1 H2.
  - apply Ascii.compare_eq_iff in Eab, Ebc. subst.
    rewrite ascii_compare_refl. eauto.
  - apply Ascii.compare_eq_iff in Eab. subst. now rewrite Ebc.
  - apply Ascii.compare_eq_iff in Ebc. subst. now rewrite Eab.
  - now rewrite (ascii_compare_lt_trans _ _ _ Eab Ebc).
Qed.

Lemma string_leb_trans s1 s2 s3 :
  String.leb s1 s2 = true -> String.leb s2 s3 = true ->
  String.leb s1 s3 = true.
Proof.
  unfold String.leb.
  destruct (String.compare s1 s2) eqn:E12; try discriminate;
    destruct (String.compare s2 s3) eqn:E23; try discriminate; intros _ _.
  - apply String.compare_eq_iff in E12, E23. subst.
    now rewrite string_compare_refl.
  - apply String.compare_eq_iff in E12. subst. now rewrite E23.
  - apply String.compare_eq_iff in E23. subst. now rewrite E12.
  - now rewrite (string_compare_lt_trans _ _ _ E12 E23).
Qed.

Lemma cell_leb_trans a b c :
  cell_leb a b = true -> cell_leb b c = true -> cell_leb a c = true.
Proof.
  destruct a as [| x | s], b as [| y | t], c as [| z | u]; simpl; trivial;
    try discriminate.
  - rewrite !Qle_bool_iff. apply Qle_trans.
  - apply string_leb_trans.
Qed.

Lemma row_leb_trans r1 r2 r3 :
  row_leb r1 r2 = true -> row_leb r2 r3 = true -> row_leb r1 r3 = true.
Proof.
  revert r2 r3. induction r1 as [| a r1 IH]; intros [| b r2] [| c r3]; simpl;
    trivial; try discriminate.
  destruct (cell_leb a b) eqn:Eab; [| discriminate].
  destruct (cell_leb b c) eqn:Ebc;
    [| destruct (cell_leb b a); discriminate].
  rewrite (cell_leb_trans _ _ _ Eab Ebc).
  destruct (cell_leb c a) eqn:Eca; trivial.
  rewrite (cell_leb_trans _ _ _ Ebc Eca), (cell_leb_trans _ _ _ Eca Eab).
  apply IH.
Qed.

Lemma sort_values_strongly_sorted d :
  StronglySorted (fun a b => row_leb (snd a) (snd b) = true) (sort_values d).
Proof.
  apply Sorted_StronglySorted; [| apply sort_values_sorted].
  intros x y z. apply row_leb_trans.
Qed.

(** ** The full duplicate check *)

Lemma check_full_duplicates_eq df :
  check_full_duplicates df =
  (header_log "STEP 3: FULL ROW DUPLICATE CHECK" ++
   (if 0 <? symmetric_count df
    then [ (WARNING, FullDupesFound (symmetric_count df));
           (WARNING, DuplicateRows
                       (sort_values (df_select df (df_duplicated_all df))));
           FAILED WARNING "duplicates found" ]
    else [ (INFO, Line "  [OK] No full row duplicates found"); PASSED ]),
   inr tt).
Proof.
  unfold check_full_duplicates. rewrite header_eq, bind_ok, symmetric_count_eq.
  destruct (0 <? symmetric_count df); run_log; reflexivity.
Qed.

Lemma at_level_app lvl l1 l2 :
  at_level lvl (l1 ++ l2) = at_level lvl l1 ++ at_level lvl l2.
Proof. unfold at_level. now rewrite filter_app, map_app. Qed.

(** C7 as stated does not hold: on a table with one pair of identical
    rows the step writes three warning records, the count, the rendering
    of the rows and the verdict, not one. *)
Lemma C7_three_warnings_not_one :
  at_level WARNING (output (check_full_duplicates df_twins)) =
    [ FullDupesFound 2;
      DuplicateRows [ (0, [Str "S1"; Str "Capstone"; Num 8]);
                      (2, [Str "S1"; Str "Capstone"; Num 8]) ];
      result "FAILED (duplicates found)" ] /\
  length (at_level WARNING (output (check_full_duplicates df_twins))) <> 1.
Proof. split; [reflexivity | discriminate]. Qed.

(** C7 (amended): the detection is symmetric: two distinct rows identical
    in every column are both counted and both rendered.  When the count of
    duplicate rows is positive the step writes three warning records: the
    count, the duplicate rows sorted by all columns left to right (each
    rendered row is below every later one), and the failed verdict; when
    the count is 0 it writes no warning.  The step passes iff the count is
    0. *)
Theorem C7_full_duplicate_checker (df : DataFrame) :
  let out := output (check_full_duplicates df) in
  let dupes := sort_values (df_select df (df_duplicated_all df)) in
  outcome (check_full_duplicates df) = inr tt /\
  mask_sum (df_duplicated_all df) = symmetric_count df /\
  length dupes = symmetric_count df /\
  StronglySorted (fun a b => row_leb (snd a) (snd b) = true) dupes /\
  (forall i r, In (i, r) dupes <->
     i < len df /\ r = row_at df i /\
     exists j, j < len df /\ j <> i /\
               row_eqb (row_at df i) (row_at df j) = true) /\
  (forall i j, i < len df -> j < len df -> i <> j ->
     row_eqb (row_at df i) (row_at df j) = true ->
     other_identical df i = true /\ other_identical df j = true /\
     In (i, row_at df i) dupes /\ In (j, row_at df j) dupes /\
     In (WARNING, FullDupesFound (symmetric_count df)) out /\
     In (WARNING, DuplicateRows dupes) out) /\
  at_level WARNING out =
    (if 0 <? symmetric_count df
     then [ FullDupesFound (symmetric_count df); DuplicateRows dupes;
            result "FAILED (duplicates found)" ]
     else []) /\
  (In PASSED out <-> symmetric_count df = 0).
Proof.
  intros out dupes. subst out. rewrite check_full_duplicates_eq.
  unfold output, outcome. cbn [fst snd].
  assert (Hin : forall i r, In (i, r) dupes <->
     i < len df /\ r = row_at df i /\
     exists j, j < len df /\ j <> i /\
               row_eqb (row_at df i) (row_at df j) = true).
  { intros i r. unfold dupes.
    rewrite sort_values_In, duplicate_rows_In, other_identical_spec.
    tauto. }
  split; [reflexivity |].
  split; [apply symmetric_count_eq |].
  split.
  { unfold dupes, sort_values.
    rewrite <- (Permutation_length (sort_perm labelled_leb _)).
    apply duplicate_rows_length. }
  split; [apply sort_values_strongly_sorted |].
  split; [exact Hin |].
  split; [| split].
  - intros i j Hi Hj Hne Heq.
    assert (Hi' : other_identical df i = true).
    { apply other_identical_spec. exists j. auto. }
    assert (Hj' : other_identical df j = true).
    { apply other_identical_spec. exists i. rewrite row_eqb_sym. auto. }
    assert (Hpos : (0 <? symmetric_count df) = true).
    { apply Nat.ltb_lt. unfold symmetric_count.
      assert (H : In i (filter (other_identical df) (seq 0 (len df)))).
      { apply filter_In. split; [apply in_seq; lia | exact Hi']. }
      destruct (filter (other_identical df) (seq 0 (len df)));
        [destruct H | simpl; lia]. }
    rewrite Hpos. repeat split; trivial.
    + apply Hin. repeat split; trivial. exists j. auto.
    + apply Hin. repeat split; trivial. exists i.
      rewrite row_eqb_sym. auto.
    + apply in_or_app. right. now left.
    + apply in_or_app. right. right. now left.
  - rewrite at_level_app. destruct (0 <? symmetric_count df); reflexivity.
  - destruct (symmetric_count df) as [| n]; simpl Nat.ltb; cbv iota.
    + split; trivial. intros _. apply in_or_app. right. right. now left.
    + split; [| discriminate]. intros H. apply in_app_or in H.
      simpl in H. intuition discriminate.
Qed.

Lemma C7_full_duplicate_checker_witness :
  other_identical df_twins 0 = true /\ other_identical df_twins 2 = true /\
  In (0, row_at df_twins 0)
     (sort_values (df_select df_twins (df_duplicated_all df_twins))) /\
  In (2, row_at df_twins 2)
     (sort_values (df_select df_twins (df_duplicated_all df_twins))).
Proof.
  destruct (C7_full_duplicate_checker df_twins)
    as [_ [_ [_ [_ [_ [Hsym _]]]]]].
  destruct (Hsym 0 2) as [H0 [H2 [Hin0 [Hin2 _]]]];
    [unfold len; simpl; lia | unfold len; simpl; lia | lia | reflexivity |].
  auto.
Defined.

(** ** The duplicate deduction of the scorer *)

(** C8: the scorer counts the rows that have an earlier identical row,
    and its duplicate deduction is
    [min(15, (count / row_count * 100) / 6.67)], 0 on a table without
    rows; the deduction is the entry "Duplicates" of every run that
    returns.  The count differs from the symmetric count of the full
    duplicate check: on a table with one pair of identical rows it is 1
    where the symmetric count is 2. *)
Theorem C8_scorer_duplicate_count :
  (forall df,
     mask_sum (df_duplicated df) = first_exclusive_count df /\
     mask_sum (df_duplicated_all df) = symmetric_count df /\
     (dupe_deduction df ==
        (if len df =? 0 then 0
         else Qmin 15 (((Qn (first_exclusive_count df) / Qn (len df)) * 100)
                       / (667 # 100))))%Q /\
     (forall score rating deductions,
        outcome (calculate_data_quality_score df)
          = inr (score, rating, deductions) ->
        In ("Duplicates", dupe_deduction df) deductions)) /\
  first_exclusive_count df_twins = 1 /\
  symmetric_count df_twins = 2 /\
  first_exclusive_count df_twins < symmetric_count df_twins.
Proof.
  split; [| repeat split; vm_compute; lia].
  intros df. split; [apply first_exclusive_count_eq |].
  split; [apply symmetric_count_eq |]. split.
  - unfold dupe_deduction. rewrite first_exclusive_count_eq.
    destruct (len df); reflexivity.
  - intros score rating deductions Hrun. apply scorer_outcome in Hrun.
    destruct Hrun as [pd [hd [-> _]]]. right. now left.
Qed.

Lemma C8_scorer_duplicate_count_witness :
  In ("Duplicates", dupe_deduction df_twins)
     [ ("NULLs", null_deduction df_twins);
       ("Duplicates", dupe_deduction df_twins);
       ("Invalid Phase", phase_deduction_of 0 3);
       ("Invalid Hours", hours_deduction_of 0 3) ].
Proof.
  destruct C8_scorer_duplicate_count as [Hall _].
  destruct (Hall df_twins) as [_ [_ [_ Hded]]].
  exact (Hded _ _ _ eq_refl).
Defined.

(** ** The key duplicate check *)

Lemma select_map {A : Type} (g : A -> bool) (l : list A) :
  select l (map g l) = filter g l.
Proof. induction l as [| x l IH]; simpl; trivial. now rewrite IH. Qed.

Lemma indexed {A : Type} (d : A) (l : list A) :
  l = map (fun i => nth i l d) (seq 0 (length l)).
Proof.
  induction l as [| x l IH]; simpl; trivial.
  f_equal. rewrite <- seq_shift, map_map. exact IH.
Qed.

Lemma key_mask_eq s :
  key_duplicated_all s =
  map (fun i => existsb (fun j => negb (j =? i) &&
                                  cell_eqb (cell_at s i) (cell_at s j))
                        (seq 0 (length (cells s))))
      (seq 0 (length (cells s))).
Proof.
  unfold key_duplicated_all. rewrite (indexed NaN (cells s)) at 1.
  apply (duplicated_all_indexed cell_eqb (cell_at s) cell_eqb_refl).
Qed.

Lemma key_bit s i :
  nth i (key_duplicated_all s) false = true <->
  i < length (cells s) /\
  exists j, j < length (cells s) /\ j <> i /\
            cell_eqb (cell_at s i) (cell_at s j) = true.
Proof.
  rewrite key_mask_eq, nth_indexed, existsb_exists. split.
  - intros [Hi [j [Hj Hb]]]. apply in_seq in Hj. apply andb_true_iff in Hb.
    destruct Hb as [Hne Heq]. apply negb_true_iff, Nat.eqb_neq in Hne.
    split; trivial. exists j. repeat split; trivial; lia.
  - intros [Hi [j [Hj [Hne Heq]]]]. split; trivial.
    exists j. split; [apply in_seq; lia |].
    rewrite Heq, andb_true_r. now apply negb_true_iff, Nat.eqb_neq.
Qed.

Lemma mask_sum_pos (m : mask) :
  0 < mask_sum m <-> exists i, nth i m false = true.
Proof.
  unfold mask_sum. induction m as [| b m IH]; simpl.
  - split; [lia | intros [[| i] H]; discriminate].
  - destruct b; simpl.
    + split; [exists 0; reflexivity | lia].
    + rewrite IH. split.
      * intros [i H]. now exists (S i).
      * intros [[| i] H]; [discriminate | now exists i].
Qed.

Lemma key_shared_iff s : 0 < mask_sum (key_duplicated_all s) <-> key_shared s.
Proof.
  rewrite mask_sum_pos. unfold key_shared. split.
  - intros [i Hi]. apply key_bit in Hi. destruct Hi as [Hi [j [Hj [Hne Heq]]]].
    destruct (Nat.lt_ge_cases i j) as [Hlt | Hge].
    + exists i, j. auto.
    + exists j, i. rewrite cell_eqb_sym. repeat split; trivial. lia.
  - intros [i [j [Hlt [Hj Heq]]]]. exists i. apply key_bit.
    split; [lia |]. exists j. repeat split; trivial. lia.
Qed.

Lemma occurrences_equiv k k' l :
  cell_eqb k k' = true ->
  occurrences cell_eqb k l = occurrences cell_eqb k' l.
Proof.
  intros Heq. unfold occurrences. f_equal. apply filter_ext. intros x.
  apply eq_true_iff_eq. split; intros H.
  - apply cell_eqb_trans with k; trivial. now rewrite cell_eqb_sym.
  - now apply cell_eqb_trans with k'.
Qed.

Lemma notnull_equiv k k' : cell_eqb k k' = true -> notnull k = notnull k'.
Proof. destruct k, k'; simpl; trivial; discriminate. Qed.

Lemma distinct_subset l x : In x (distinct l) -> In x l.
Proof.
  revert x. induction l as [| y l IH]; simpl; trivial.
  intros x [-> | H]; [now left |]. apply filter_In in H. right. now apply IH.
Qed.

Lemma distinct_representative l x :
  In x l -> exists y, In y (distinct l) /\ cell_eqb y x = true.
Proof.
  induction l as [| z l IH]; simpl; [intros [] |].
  intros [-> | H].
  - exists x. split; [now left | apply cell_eqb_refl].
  - destruct (IH H) as [y [Hy Heq]].
    destruct (cell_eqb z y) eqn:E.
    + exists z. split; [now left |]. now apply cell_eqb_trans with y.
    + exists y. split; trivial. right. apply filter_In. now rewrite E.
Qed.

Lemma filter_twice {A : Type} (f g : A -> bool) (l : list A) :
  filter f (filter g l) = filter (fun x => f x && g x) l.
Proof.
  induction l as [| x l IH]; simpl; trivial.
  destruct (g x); simpl.
  - rewrite andb_true_r. destruct (f x); now rewrite IH.
  - now rewrite andb_false_r.
Qed.

(** The values of the key column that [value_counts] sees. *)
Lemma duplicated_keys_eq s :
  filter notnull (select (cells s) (key_duplicated_all s)) =
  filter (fun c => notnull c && (2 <=? occurrences cell_eqb c (cells s)))
         (cells s).
Proof.
  unfold key_duplicated_all, duplicated_all.
  now rewrite select_map, filter_twice.
Qed.

Lemma occurrences_duplicated_keys s k :
  notnull k = true -> 2 <= occurrences cell_eqb k (cells s) ->
  occurrences cell_eqb k
    (filter notnull (select (cells s) (key_duplicated_all s))) =
  occurrences cell_eqb k (cells s).
Proof.
  intros Hk Hocc. rewrite duplicated_keys_eq. unfold occurrences at 1.
  rewrite filter_twice. unfold occurrences at 2. f_equal.
  apply filter_ext. intros c.
  destruct (cell_eqb k c) eqn:E; cbn [andb]; trivial.
  rewrite <- (notnull_equiv _ _ E), Hk, <- (occurrences_equiv _ _ _ E).
  cbn [andb]. now apply Nat.leb_le.
Qed.

Lemma value_counts_In l k c :
  In (k, c) (value_counts l) <->
  In k (distinct (filter notnull l)) /\
  c = occurrences cell_eqb k (filter notnull l).
Proof.
  unfold value_counts. split.
  - intros H. apply (Permutation_in _ (Permutation_sym (sort_perm _ _))) in H.
    apply in_map_iff in H. destruct H as [v [[= <- <-] Hv]]. auto.
  - intros [Hk ->]. apply (Permutation_in _ (sort_perm _ _)).
    apply in_map_iff. now exists k.
Qed.

Lemma check_key_absent df :
  has_column "Story_ID" df = false ->
  check_key_duplicates df =
  (header_log "STEP 4: PRIMARY KEY DUPLICATE CHECK" ++
   [ (WARNING, Line "  Column 'Story_ID' not found. Skipping this check.");
     SKIPPED ],
   inr tt).
Proof.
  intros H. unfold check_key_duplicates. rewrite header_eq, bind_ok, H.
  reflexivity.
Qed.

Lemma check_key_present df s :
  getitem df "Story_ID" = Some s ->
  check_key_duplicates df =
  (header_log "STEP 4: PRIMARY KEY DUPLICATE CHECK" ++
   (if 0 <? mask_sum (key_duplicated_all s)
    then (ERROR, KeyDupesFound (mask_sum (key_duplicated_all s)))
           :: (ERROR, Line "Duplicate Story_IDs and their counts:")
           :: key_findings s ++
              [ (ERROR, KeyDupeRows (df_select df (key_duplicated_all s)));
                FAILED ERROR "primary key violation" ]
    else [ (INFO, Line "  [OK] All Story_IDs are unique"); PASSED ]),
   inr tt).
Proof.
  intros Hs. unfold check_key_duplicates.
  rewrite header_eq, bind_ok, (getitem_has_column _ _ _ Hs).
  unfold df_getitem. rewrite Hs, bind_unit. cbn [negb].
  destruct (0 <? mask_sum (key_duplicated_all s)).
  - rewrite (for_each_ok _ _ (fun p => [(ERROR, KeyCount (fst p) (snd p))])).
    + rewrite flat_map_single. run_log. reflexivity.
    + now intros [story_id count] _.
  - reflexivity.
Qed.

Lemma key_findings_In s lvl k c :
  In (lvl, KeyCount k c) (key_findings s) <->
  lvl = ERROR /\ notnull k = true /\ In k (cells s) /\
  2 <= occurrences cell_eqb k (cells s) /\
  c = occurrences cell_eqb k (cells s) /\
  In k (distinct (filter notnull (select (cells s) (key_duplicated_all s)))).
Proof.
  unfold key_findings. rewrite in_map_iff. split.
  - intros [[k' c'] [[= <- <- <-] Hin]]. apply value_counts_In in Hin.
    destruct Hin as [Hk ->]. pose proof (distinct_subset _ _ Hk) as Hk'.
    rewrite duplicated_keys_eq in Hk'. apply filter_In in Hk'.
    destruct Hk' as [Hcell Hb]. apply andb_true_iff in Hb.
    destruct Hb as [Hnn Hocc]. apply Nat.leb_le in Hocc.
    repeat split; trivial. now apply occurrences_duplicated_keys.
  - intros [-> [Hnn [Hcell [Hocc [-> Hk]]]]]. exists (k, occurrences cell_eqb k (cells s)).
    split; trivial. apply value_counts_In. split; trivial.
    symmetry. now apply occurrences_duplicated_keys.
Qed.

Lemma key_finding_exists s k :
  notnull k = true -> In k (cells s) ->
  2 <= occurrences cell_eqb k (cells s) ->
  exists k', cell_eqb k k' = true /\
             In (ERROR, KeyCount k' (occurrences cell_eqb k (cells s)))
                (key_findings s).
Proof.
  intros Hnn Hcell Hocc.
  assert (Hin : In k (filter notnull
                        (select (cells s) (key_duplicated_all s)))).
  { rewrite duplicated_keys_eq. apply filter_In. split; trivial.
    rewrite Hnn. now apply Nat.leb_le. }
  destruct (distinct_representative _ _ Hin) as [k' [Hk' Heq]].
  rewrite cell_eqb_sym in Heq. exists k'. split; trivial.
  pose proof (distinct_subset _ _ Hk') as Hsub.
  rewrite duplicated_keys_eq in Hsub. apply filter_In in Hsub.
  rewrite (occurrences_equiv _ _ (cells s) Heq).
  apply key_findings_In. rewrite <- (occurrences_equiv _ _ (cells s) Heq).
  rewrite <- (notnull_equiv _ _ Heq). tauto.
Qed.

(** C3 as stated does not hold: the key S1 is held by two rows, and the
    step reports it at error level; it writes no record at critical
    level.  A null key held by two rows makes the step fail without a
    per-key record. *)
Lemma C3_findings_at_error_level :
  getitem df_twins "Story_ID"
    = Some (Object [Some "S1"; Some "S0"; Some "S1"]) /\
  In (ERROR, KeyCount (Str "S1") 2) (output (check_key_duplicates df_twins)) /\
  ~ In (CRITICAL, KeyCount (Str "S1") 2)
       (output (check_key_duplicates df_twins)) /\
  at_level CRITICAL (output (check_key_duplicates df_twins)) = [] /\
  getitem df_gaps "Story_ID"
    = Some (Object [Some "S1"; None; None; Some "S4"]) /\
  at_level ERROR (output (check_key_duplicates df_gaps)) =
    [ KeyDupesFound 2;
      Line "Duplicate Story_IDs and their counts:";
      KeyDupeRows [ (1, [NaN; NaN]); (2, [NaN; Num 8]) ];
      result "FAILED (primary key violation)" ].
Proof.
  repeat split.
  - vm_compute. tauto.
  - vm_compute. intuition discriminate.
Qed.

(** C3 (amended): without the Story_ID column the step writes the skip
    warning and the verdict SKIPPED, neither PASSED nor FAILED, and no
    per-key record.  With the column it fails iff two rows hold the same
    key value (null counted as a value) and passes otherwise; it writes,
    at error level, one record for each distinct non-null key value held by
    more than one row, with the number of rows that hold it, and one record
    rendering all rows whose key is held by another row.  No record is at
    critical level. *)
Theorem C3_key_duplicate_checker (df : DataFrame) :
  let out := output (check_key_duplicates df) in
  outcome (check_key_duplicates df) = inr tt /\
  at_level CRITICAL out = [] /\
  (has_column "Story_ID" df = false ->
     out = header_log "STEP 4: PRIMARY KEY DUPLICATE CHECK" ++
           [ (WARNING,
              Line "  Column 'Story_ID' not found. Skipping this check.");
             SKIPPED ]) /\
  (forall s, getitem df "Story_ID" = Some s -> well_formed df ->
     (In (FAILED ERROR "primary key violation") out <-> key_shared s) /\
     (In PASSED out <-> ~ key_shared s) /\
     ~ In SKIPPED out /\
     (forall k, notnull k = true -> In k (cells s) ->
        2 <= occurrences cell_eqb k (cells s) ->
        exists k', cell_eqb k k' = true /\
          In (ERROR, KeyCount k' (occurrences cell_eqb k (cells s))) out) /\
     (forall lvl k c, In (lvl, KeyCount k c) out ->
        lvl = ERROR /\ notnull k = true /\ In k (cells s) /\
        c = occurrences cell_eqb k (cells s) /\ 2 <= c) /\
     (key_shared s ->
        In (ERROR, KeyDupeRows (df_select df (key_duplicated_all s))) out) /\
     (forall i r, In (i, r) (df_select df (key_duplicated_all s)) <->
        i < len df /\ r = row_at df i /\
        exists j, j < len df /\ j <> i /\
                  cell_eqb (cell_at s i) (cell_at s j) = true)).
Proof.
  intros out. subst out.
  destruct (has_column "Story_ID" df) eqn:Hcol.
  - destruct (has_column_getitem _ _ Hcol) as [s Hs].
    rewrite (check_key_present df s Hs). unfold output, outcome.
    cbn [fst snd]. split; [reflexivity |].
    split.
    { rewrite at_level_app. cbn [app].
      destruct (0 <? mask_sum (key_duplicated_all s)); [| reflexivity].
      unfold at_level, key_findings. cbn [filter map fst snd level_no Nat.eqb].
      rewrite filter_app, map_app. cbn [filter map fst snd level_no Nat.eqb app].
      rewrite app_nil_r. induction (value_counts _) as [| p l IH]; trivial. }
    split; [discriminate |].
    intros s' Hs' Hwf. assert (s' = s) as -> by congruence. clear Hs'.
    pose proof (key_shared_iff s) as Hshared.
    rewrite <- Nat.ltb_lt in Hshared.
    split; [| split; [| split; [| split; [| split; [| split]]]]].
    + rewrite <- Hshared. destruct (0 <? mask_sum (key_duplicated_all s)).
      * split; trivial. intros _. apply in_or_app. right. right. right.
        apply in_or_app. right. right. now left.
      * split; [| discriminate]. intros H. apply in_app_or in H.
        simpl in H. intuition discriminate.
    + rewrite <- Hshared. destruct (0 <? mask_sum (key_duplicated_all s)).
      * split; [| intros H; now destruct H]. intros H. apply in_app_or in H.
        destruct H as [H | [H | [H | H]]]; try discriminate.
        -- simpl in H. intuition discriminate.
        -- apply in_app_or in H. destruct H as [H | H].
           ++ unfold key_findings in H. apply in_map_iff in H.
              destruct H as [p [Hp _]]. discriminate.
           ++ simpl in H. intuition discriminate.
      * split; [discriminate |]. intros _. apply in_or_app. right. right.
        now left.
    + intros H. apply in_app_or in H. destruct H as [H | H].
      { simpl in H. intuition discriminate. }
      destruct (0 <? mask_sum (key_duplicated_all s)).
      * destruct H as [H | [H | H]]; try discriminate.
        apply in_app_or in H. destruct H as [H | H].
        -- unfold key_findings in H. apply in_map_iff in H.
           destruct H as [p [Hp _]]. discriminate.
        -- simpl in H. intuition discriminate.
      * simpl in H. intuition discriminate.
    + intros k Hnn Hcell Hocc.
      destruct (key_finding_exists s k Hnn Hcell Hocc) as [k' [Heq Hin]].
      exists k'. split; trivial. apply in_or_app. right.
      assert (Hpos : (0 <? mask_sum (key_duplicated_all s)) = true).
      { apply Nat.ltb_lt. unfold key_findings in Hin.
        destruct (mask_sum (key_duplicated_all s)) eqn:E; [| lia].
        exfalso. apply key_findings_In in Hin.
        destruct Hin as [_ [_ [_ [_ [_ Hd]]]]]. apply distinct_subset in Hd.
        apply filter_In in Hd. destruct Hd as [Hd _].
        assert (Hlen : length (select (cells s) (key_duplicated_all s)) = 0).
        { rewrite select_length; trivial.
          unfold key_duplicated_all, duplicated_all. now rewrite length_map. }
        destruct (select (cells s) (key_duplicated_all s));
          [destruct Hd | discriminate]. }
      rewrite Hpos. right. right. apply in_or_app. now left.
    + intros lvl k c H. apply in_app_or in H. destruct H as [H | H].
      { simpl in H. intuition discriminate. }
      destruct (0 <? mask_sum (key_duplicated_all s)).
      * destruct H as [H | [H | H]]; try discriminate.
        apply in_app_or in H. destruct H as [H | H].
        -- apply key_findings_In in H.
           destruct H as [-> [Hnn [Hcell [Hocc [-> _]]]]]. auto.
        -- simpl in H. intuition discriminate.
      * simpl in H. intuition discriminate.
    + intros Hsh. apply Hshared in Hsh. rewrite Hsh.
      apply in_or_app. right. right. right. apply in_or_app. right. now left.
    + intros i r. rewrite df_select_In, key_bit.
      rewrite (column_length _ _ _ Hwf Hs). tauto.
  - rewrite (check_key_absent df Hcol). unfold output, outcome.
    cbn [fst snd]. split; [reflexivity |]. split; [reflexivity |].
    split; [trivial |].
    intros s Hs _. apply getitem_has_column in Hs. congruence.
Qed.

Lemma df_twins_well_formed : well_formed df_twins.
Proof. repeat constructor. Qed.

Lemma C3_key_duplicate_checker_witness :
  In (FAILED ERROR "primary key violation")
     (output (check_key_duplicates df_twins)) /\
  output (check_key_duplicates df_no_story_id) =
    header_log "STEP 4: PRIMARY KEY DUPLICATE CHECK" ++
    [ (WARNING, Line "  Column 'Story_ID' not found. Skipping this check.");
      SKIPPED ].
Proof.
  split.
  - destruct (C3_key_duplicate_checker df_twins) as [_ [_ [_ Hpresent]]].
    destruct (Hpresent _ eq_refl df_twins_well_formed) as [Hfail _].
    apply Hfail. exists 0, 2. repeat split; simpl; lia.
  - destruct (C3_key_duplicate_checker df_no_story_id) as [_ [_ [Habsent _]]].
    apply Habsent. reflexivity.
Defined.

(** ** The quality score *)













Lemma filter_none {A : Type} (f : A -> bool) (l : list A) :
  (forall x, In x l -> f x = false) -> filter f l = [].
Proof.
  induction l as [| x l IH]; intros H; simpl; trivial.
  rewrite (H x) by now left. apply IH. intros y Hy. apply H. now right.
Qed.











(** ** Runs that complete *)

Lemma outcome_bind_inr {A B : Type} (c : M A) (k : A -> M B) a :
  outcome c = inr a -> outcome (bind c k) = outcome (k a).
Proof. intros H. now rewrite outcome_bind, H. Qed.

Lemma returns_eta {A : Type} (c : M A) a :
  outcome c = inr a -> c = (output c, inr a).
Proof. intros <-. apply M_eta. Qed.

Lemma for_each_returns {A : Type} (l : list A) (body : A -> M unit) :
  (forall x, In x l -> outcome (body x) = inr tt) ->
  outcome (for_each l body) = inr tt.
Proof.
  induction l as [| x l IH]; intros H; simpl; trivial.
  rewrite (outcome_bind_inr _ _ tt) by (apply H; now left).
  apply IH. intros y Hy. apply H. now right.
Qed.

Lemma for_fold_returns {A S : Type} (l : list A) (body : S -> A -> M S) s :
  (forall s x, In x l -> exists s', outcome (body s x) = inr s') ->
  exists s', outcome (for_fold l s body) = inr s'.
Proof.
  revert s. induction l as [| x l IH]; intros s H; simpl; [now exists s |].
  destruct (H s x) as [s1 Hs1]; [now left |].
  rewrite (outcome_bind_inr _ _ s1 Hs1).
  apply IH. intros s2 y Hy. apply H. now right.
Qed.

Lemma header_in title {A : Type} (k : unit -> M A) :
  In (INFO, Line title) (output (bind (header title) k)).
Proof. apply in_bind_l. right. now left. Qed.

Lemma validate_schema_returns df : outcome (validate_schema df) = inr tt.
Proof.
  unfold validate_schema. rewrite (outcome_bind_inr _ _ tt) by reflexivity.
  set (missing := filter _ _).
  rewrite (outcome_bind_inr _ _
             (if negb (is_nil missing) then 0 + length missing else 0))
    by now destruct (negb (is_nil missing)).
  match goal with
  | |- outcome (bind (for_fold ?l ?s ?body) _) = _ =>
      destruct (for_fold_returns l body s) as [issues Hissues]
  end.
  - intros s [col expected_type] _.
    destruct (has_column col df) eqn:Hcol; simpl negb; cbv iota;
      [| now exists s].
    destruct (has_column_getitem _ _ Hcol) as [c Hc].
    unfold df_getitem. rewrite Hc, bind_unit.
    destruct (contains expected_type (dtype c)); eexists; reflexivity.
  - rewrite (outcome_bind_inr _ _ issues Hissues).
    now destruct (issues =? 0).
Qed.

Lemma selected_row_get df m idx row col s :
  In (idx, row) (df_select df m) -> getitem df col = Some s ->
  row_getitem df row col = ret (cell_at s idx).
Proof.
  intros Hin Hs. apply df_select_In in Hin. destruct Hin as [_ [-> _]].
  unfold row_getitem. now rewrite (row_get_row_at _ _ _ _ Hs).
Qed.

Lemma check_est_hours_range_returns df b k :
  getitem df "Story_ID" = Some k ->
  (forall s e, getitem df "Est_Hours" = Some s -> est_hours_mask s <> inl e) ->
  exists b', outcome (check_est_hours_range df b) = inr b'.
Proof.
  intros Hk Hmask. destruct (has_column "Est_Hours" df) eqn:Hcol.
  - destruct (has_column_getitem _ _ Hcol) as [s Hs].
    destruct (est_hours_mask s) as [e | m] eqn:Hm;
      [destruct (Hmask _ _ Hs Hm) |].
    rewrite (hours_check_eq df b k s m Hk Hs Hm). eexists. reflexivity.
  - unfold check_est_hours_range. rewrite Hcol. now exists b.
Qed.

Lemma check_phase_enum_returns df b k :
  getitem df "Story_ID" = Some k ->
  exists b', outcome (check_phase_enum df b) = inr b'.
Proof.
  intros Hk. unfold check_phase_enum.
  rewrite (outcome_bind_inr _ _ tt) by reflexivity.
  destruct (has_column "Phase" df) eqn:Hcol; [| now exists b].
  destruct (has_column_getitem _ _ Hcol) as [s Hs].
  unfold df_getitem. rewrite Hs, bind_unit.
  destruct (negb (is_nil (df_select df (not_in_mask s VALID_PHASE))));
    [| now exists b].
  exists true. rewrite (outcome_bind_inr _ _ tt) by reflexivity.
  rewrite (outcome_bind_inr _ _ tt); [reflexivity |].
  apply for_each_returns. intros [idx row] Hin.
  now rewrite (selected_row_get _ _ _ _ _ _ Hin Hk), bind_unit,
    (selected_row_get _ _ _ _ _ _ Hin Hs), bind_unit.
Qed.

Lemma check_type_enum_returns df b k :
  getitem df "Story_ID" = Some k ->
  exists b', outcome (check_type_enum df b) = inr b'.
Proof.
  intros Hk. unfold check_type_enum.
  rewrite (outcome_bind_inr _ _ tt) by reflexivity.
  destruct (has_column "Type" df) eqn:Hcol; [| now exists b].
  destruct (has_column_getitem _ _ Hcol) as [s Hs].
  unfold df_getitem. rewrite Hs, bind_unit.
  destruct (negb (is_nil (df_select df (not_in_mask s VALID_TYPE))));
    [| now exists b].
  exists true. rewrite (outcome_bind_inr _ _ tt) by reflexivity.
  rewrite (outcome_bind_inr _ _ tt); [reflexivity |].
  apply for_each_returns. intros [idx row] Hin.
  now rewrite (selected_row_get _ _ _ _ _ _ Hin Hk), bind_unit,
    (selected_row_get _ _ _ _ _ _ Hin Hs), bind_unit.
Qed.

Lemma validate_business_logic_returns df k :
  getitem df "Story_ID" = Some k ->
  (forall s e, getitem df "Est_Hours" = Some s -> est_hours_mask s <> inl e) ->
  outcome (validate_business_logic df) = inr tt.
Proof.
  intros Hk Hmask. unfold validate_business_logic.
  rewrite (outcome_bind_inr _ _ tt) by reflexivity.
  destruct (check_est_hours_range_returns df false k Hk Hmask) as [b1 H1].
  rewrite (outcome_bind_inr _ _ b1 H1).
  destruct (check_phase_enum_returns df b1 k Hk) as [b2 H2].
  rewrite (outcome_bind_inr _ _ b2 H2).
  destruct (check_type_enum_returns df b2 k Hk) as [b3 H3].
  rewrite (outcome_bind_inr _ _ b3 H3).
  now destruct b3.
Qed.

Lemma line_started title (l : Log) :
  In (INFO, Line title) l -> existsb (is_line title) l = true.
Proof.
  intros H. apply existsb_exists. exists (INFO, Line title).
  split; trivial. unfold is_line. simpl. apply String.eqb_refl.
Qed.

Lemma output_pair {A : Type} (l : Log) (r : exn + A) : output (l, r) = l.
Proof. reflexivity. Qed.

Lemma for_fold_output {A S : Type} (l : list A) (body : S -> A -> M S) s r :
  In r (output (for_fold l s body)) ->
  exists s' x, In x l /\ In r (output (body s' x)).
Proof.
  revert s. induction l as [| x l IH]; intros s; simpl; [intros [] |].
  intros H. apply in_bind in H. destruct H as [H | [s1 [_ H]]].
  - exists s, x. auto.
  - destruct (IH _ H) as [s' [y [Hy Hr]]]. exists s', y. auto.
Qed.

Lemma at_level_none lvl (l : Log) :
  (forall msg, ~ In (lvl, msg) l) -> at_level lvl l = [].
Proof.
  intros H. unfold at_level. rewrite filter_none; trivial.
  intros [lvl' msg] Hin. simpl. apply Nat.eqb_neq. intros E.
  apply (H msg). destruct lvl, lvl'; try discriminate; exact Hin.
Qed.

Lemma validate_schema_not_critical df msg :
  ~ In (CRITICAL, msg) (output (validate_schema df)).
Proof.
  unfold validate_schema. intros H.
  apply in_bind in H. destruct H as [H | [_ [_ H]]]; [log_absurd H |].
  apply in_bind in H. destruct H as [H | [i1 [_ H]]]; [log_absurd H |].
  apply in_bind in H. destruct H as [H | [i2 [_ H]]]; [| log_absurd H].
  apply for_fold_output in H. destruct H as [s [[col ty] [_ H]]].
  log_absurd H.
Qed.

Lemma check_nulls_not_critical df msg :
  ~ In (CRITICAL, msg) (output (check_nulls df)).
Proof. unfold check_nulls. intros H. log_absurd H. Qed.

Lemma check_full_duplicates_not_critical df msg :
  ~ In (CRITICAL, msg) (output (check_full_duplicates df)).
Proof. unfold check_full_duplicates. intros H. log_absurd H. Qed.

Lemma check_key_duplicates_not_critical df msg :
  ~ In (CRITICAL, msg) (output (check_key_duplicates df)).
Proof. unfold check_key_duplicates. intros H. log_absurd H. Qed.

Lemma validate_business_logic_not_critical df msg :
  ~ In (CRITICAL, msg) (output (validate_business_logic df)).
Proof.
  unfold validate_business_logic, check_est_hours_range, check_phase_enum,
    check_type_enum.
  intros H. log_absurd H.
Qed.

Lemma scorer_not_critical df msg :
  ~ In (CRITICAL, msg) (output (calculate_data_quality_score df)).
Proof.
  unfold calculate_data_quality_score, report_score. intros H. log_absurd H.
Qed.

Lemma main_loaded script_dir df out :
  run_steps df = (out, inr tt) ->
  main script_dir (loaded df) =
  ([ (INFO, Line (String.append nl (times "=" 114)));
     (INFO, Line "DATA VALIDATION PIPELINE STARTED");
     (INFO, Line (String.append rule nl));
     (INFO, LoadingCsv (String.append script_dir "/test_data.csv"));
     (INFO, Line "File loaded successfully");
     (INFO, Shape (len df) (length (columns df))) ] ++
   out ++
   [ (INFO, Line rule);
     (INFO, Line "VALIDATION PIPELINE COMPLETED");
     (INFO, Line rule);
     (INFO, Line (String.append "Full report saved to: validation_report.log"
                                nl)) ],
   inr tt).
Proof.
  intros Hrun. unfold main, loaded.
  cbv beta iota zeta
      delta [bind lift logger_info emit basic_level level_no Nat.leb
             try_except].
  rewrite Hrun. reflexivity.
Qed.

(** On a table with a row, with the key column and with an Est_Hours column
    that can be compared with a number, no step raises: the six steps run
    and the process exits with status 0. *)
Lemma pipeline_completes script_dir df k :
  len df <> 0 ->
  getitem df "Story_ID" = Some k ->
  (forall s e, getitem df "Est_Hours" = Some s -> est_hours_mask s <> inl e) ->
  exit_status (main script_dir (loaded df)) = 0 /\
  steps_started (output (main script_dir (loaded df))) = step_titles /\
  at_level CRITICAL (output (main script_dir (loaded df))) = [].
Proof.
  intros Hlen Hk Hmask.
  pose proof (validate_schema_returns df) as H1.
  assert (H2 : outcome (check_nulls df) = inr tt)
    by now rewrite check_nulls_eq.
  assert (H3 : outcome (check_full_duplicates df) = inr tt)
    by now rewrite check_full_duplicates_eq.
  assert (H4 : outcome (check_key_duplicates df) = inr tt)
    by now rewrite (check_key_present df k Hk).
  pose proof (validate_business_logic_returns df k Hk Hmask) as H5.
  destruct (scorer_returns df Hlen Hmask) as [sc [rt [ds H6]]].
  assert (Hrun : run_steps df =
    (output (validate_schema df) ++ output (check_nulls df) ++
     output (check_full_duplicates df) ++ output (check_key_duplicates df) ++
     output (validate_business_logic df) ++
     output (calculate_data_quality_score df), inr tt)).
  { unfold run_steps.
    rewrite (returns_eta _ _ H1), (returns_eta _ _ H2), (returns_eta _ _ H3),
      (returns_eta _ _ H4), (returns_eta _ _ H5), (returns_eta _ _ H6).
    unfold output. cbn [fst]. rewrite !bind_ok. unfold ret, output, outcome.
    cbn [fst snd]. now rewrite app_nil_r. }
  assert (T1 : In (INFO, Line "STEP 1: SCHEMA VALIDATION")
                  (output (validate_schema df))) by apply header_in.
  assert (T2 : In (INFO, Line "STEP 2: NULL VALUE CHECK")
                  (output (check_nulls df))) by apply header_in.
  assert (T3 : In (INFO, Line "STEP 3: FULL ROW DUPLICATE CHECK")
                  (output (check_full_duplicates df))) by apply header_in.
  assert (T4 : In (INFO, Line "STEP 4: PRIMARY KEY DUPLICATE CHECK")
                  (output (check_key_duplicates df))) by apply header_in.
  assert (T5 : In (INFO, Line "STEP 5: BUSINESS LOGIC VALIDATION")
                  (output (validate_business_logic df))) by apply header_in.
  assert (T6 : In (INFO, Line "STEP 6: DATA QUALITY SCORE (Advanced)")
                  (output (calculate_data_quality_score df)))
    by apply header_in.
  rewrite (main_loaded script_dir df _ Hrun).
  rewrite !output_pair. split; [reflexivity |]. split.
  - unfold steps_started, step_titles. cbn [filter].
    rewrite !line_started; trivial;
      apply in_or_app; right; apply in_or_app; left.
    + do 5 (apply in_or_app; right). exact T6.
    + do 4 (apply in_or_app; right). apply in_or_app. now left.
    + do 3 (apply in_or_app; right). apply in_or_app. now left.
    + do 2 (apply in_or_app; right). apply in_or_app. now left.
    + do 1 (apply in_or_app; right). apply in_or_app. now left.
    + apply in_or_app. now left.
  - rewrite !at_level_app.
    rewrite (at_level_none _ _ (validate_schema_not_critical df)),
      (at_level_none _ _ (check_nulls_not_critical df)),
      (at_level_none _ _ (check_full_duplicates_not_critical df)),
      (at_level_none _ _ (check_key_duplicates_not_critical df)),
      (at_level_none _ _ (validate_business_logic_not_critical df)),
      (at_level_none _ _ (scorer_not_critical df)).
    reflexivity.
Qed.

(** ** The scenario of the specification *)

Example pipeline_on_clean_table :
  exit_status (main "/srv" (loaded df_clean)) = 0 /\
  steps_started (output (main "/srv" (loaded df_clean))) = step_titles.
Proof. split; vm_compute; reflexivity. Qed.

Example scenario_report :
  In PASSED (output (validate_schema df_scenario)) /\
  In PASSED (output (check_nulls df_scenario)) /\
  In PASSED (output (check_full_duplicates df_scenario)) /\
  at_level ERROR (output (check_key_duplicates df_scenario)) =
    [ KeyDupesFound 2;
      Line "Duplicate Story_IDs and their counts:";
      KeyCount (Str "S1") 2;
      KeyDupeRows [ (0, row_at df_scenario 0); (9, row_at df_scenario 9) ];
      result "FAILED (primary key violation)" ] /\
  at_level WARNING (output (validate_business_logic df_scenario)) =
    [ InvalidHoursFound 1;
      InvalidHoursRow 0 (Str "S1") (Num 150);
      result "FAILED (business logic violations found)" ] /\
  (exists score deductions,
     outcome (calculate_data_quality_score df_scenario)
       = inr (score, EXCELLENT, deductions) /\ (score == 99)%Q) /\
  exit_status (main "/srv" (loaded df_scenario)) = 0.
Proof.
  repeat split; try (vm_compute; tauto).
  eexists. eexists. split; [vm_compute; reflexivity | reflexivity].
Qed.

(** An Est_Hours column read as text: the comparison with a number raises
    TypeError in step 5 and in step 6. *)
Example text_hours_raise :
  outcome (validate_business_logic df_text_hours) = inl TypeError /\
  outcome (calculate_data_quality_score df_text_hours) = inl TypeError /\
  exit_status (main "/srv" (loaded df_text_hours)) = 1.
Proof. repeat split. Qed.

(* ================================================================== *)
(** * Further properties *)

(** ** Bounds of the deductions *)

Lemma Qn_le a b : a <= b -> (Qn a <= Qn b)%Q.
Proof.
  intros H. unfold Qn, Qle. simpl. rewrite !Z.mul_1_r.
  now apply Nat2Z.inj_le.
Qed.

Lemma Qn_pos a : 0 < a -> (0 < Qn a)%Q.
Proof.
  intros H. unfold Qn, Qlt. simpl. rewrite Z.mul_1_r.
  now apply (Nat2Z.inj_lt 0).
Qed.

Lemma ratio_le_1 a b : a <= b -> (Qn a / Qn b <= 1)%Q.
Proof.
  intros H. destruct b as [| b].
  - unfold Qdiv. setoid_replace (/ Qn 0)%Q with 0%Q by reflexivity.
    rewrite Qmult_0_r. discriminate.
  - apply Qle_shift_div_r; [apply Qn_pos; lia |].
    rewrite Qmult_1_l. now apply Qn_le.
Qed.

Lemma ratio_pos a b : 0 < a -> 0 < b -> (0 < Qn a / Qn b)%Q.
Proof.
  intros Ha Hb. apply Qlt_shift_div_l; [now apply Qn_pos |].
  rewrite Qmult_0_l. now apply Qn_pos.
Qed.









(** ** The deduction breakdown *)

Lemma report_score_eq score deductions :
  report_score score deductions =
  ([ (INFO, QualityScore (Qmax 0 score));
     (INFO, Rating (rate (Qmax 0 score)));
     (INFO, Line (String.append nl "Deduction Breakdown:")) ] ++
   flat_map (fun d => if Qltb 0 (snd d)
                      then [(INFO, Deduction (fst d) (snd d))] else [])
            deductions ++
   [ (INFO, result "DATA QUALITY SCORE CALCULATED") ],
   inr (Qmax 0 score, rate (Qmax 0 score), deductions)).
Proof.
  unfold report_score.
  rewrite (for_each_ok _ _
    (fun d => if Qltb 0 (snd d)
              then [(INFO, Deduction (fst d) (snd d))] else [])).
  - run_log. reflexivity.
  - intros [category deduction] _. simpl. now destruct (Qltb 0 deduction).
Qed.

Lemma breakdown_app l1 l2 : breakdown (l1 ++ l2) = breakdown l1 ++ breakdown l2.
Proof. apply flat_map_app. Qed.

Lemma breakdown_lines deductions :
  breakdown
    (flat_map (fun d => if Qltb 0 (snd d)
                        then [(INFO, Deduction (fst d) (snd d))] else [])
              deductions)
  = filter (fun d => Qltb 0 (snd d)) deductions.
Proof.
  induction deductions as [| [category d] l IH]; simpl; trivial.
  destruct (Qltb 0 d); simpl; now rewrite IH.
Qed.

(** X2: the breakdown that the scorer logs lists the deductions that are
    strictly positive, and only them, in the order NULLs, Duplicates,
    Invalid Phase, Invalid Hours. *)
Theorem breakdown_lists_positive_deductions
        (df : DataFrame) (score : Q) (rating : rating)
        (deductions : list (string * Q)) :
  outcome (calculate_data_quality_score df)
    = inr (score, rating, deductions) ->
  breakdown (output (calculate_data_quality_score df))
    = filter (fun d => Qltb 0 (snd d)) deductions /\
  (forall category d,
     In (INFO, Deduction category d)
        (output (calculate_data_quality_score df)) <->
     In (category, d) deductions /\ (0 < d)%Q).
Proof.
  intros Hrun.
  destruct (scorer_run df)
    as [[_ [_ He]] | [[s [e [_ [_ He]]]] | [pd [hd [Heq _]]]]];
    try congruence.
  cbv zeta in Heq. rewrite Heq in *. clear Heq.
  rewrite report_score_eq in *. unfold outcome in Hrun. cbn [snd] in Hrun.
  injection Hrun as _ _ Hd. rewrite <- Hd. clear Hd.
  unfold output. cbn [fst]. split.
  - rewrite !breakdown_app, breakdown_lines. simpl. now rewrite app_nil_r.
  - intros category d. rewrite !in_app_iff. split.
    + intros [H | [H | [H | H]]];
        try (simpl in H; intuition discriminate).
      apply in_flat_map in H. destruct H as [[c x] [Hin H]]. simpl in H.
      destruct (Qltb 0 x) eqn:E; [| destruct H].
      destruct H as [[= <- <-] | []]. split; trivial.
      unfold Qltb in E. apply negb_true_iff in E.
      apply Qnot_le_lt. intros Hle. apply Qle_bool_iff in Hle. congruence.
    + intros [Hin Hpos]. right. right. left.
      apply in_flat_map. exists (category, d). split; trivial. simpl.
      assert (E : Qltb 0 d = true).
      { unfold Qltb. apply negb_true_iff, not_true_iff_false.
        rewrite Qle_bool_iff. now apply Qlt_not_le. }
      rewrite E. now left.
Qed.

(** ** When the scorer returns *)

Lemma est_hours_mask_error s e : est_hours_mask s = inl e -> e = TypeError.
Proof.
  unfold est_hours_mask, series_lt, series_gt, compare_scalar.
  destruct s as [v | v]; [discriminate |].
  destruct (forallb is_none v); [discriminate | now intros [= <-]].
Qed.

Lemma est_hours_mask_empty df s :
  well_formed df -> len df = 0 -> getitem df "Est_Hours" = Some s ->
  est_hours_mask s = inr [].
Proof.
  intros Hwf Hlen Hs. pose proof (column_length _ _ _ Hwf Hs) as Hl.
  rewrite Hlen in Hl. apply length_zero_iff_nil in Hl.
  destruct s as [[| x v] | [| x v]]; try discriminate; reflexivity.
Qed.

Lemma scorer_returns_when df :
  (exists r, outcome (calculate_data_quality_score df) = inr r) <->
  (len df = 0 -> has_column "Phase" df = false /\
                 has_column "Est_Hours" df = false) /\
  hours_comparable df.
Proof.
  split.
  - intros [[[score rating] deductions] Hrun].
    apply scorer_outcome in Hrun.
    destruct Hrun as [pd [hd [_ [_ [_ [Hphase Hhours]]]]]]. split.
    + intros Hlen. split.
      * destruct Hphase as [[H _] | [s [_ [H _]]]]; [exact H | contradiction].
      * destruct Hhours as [[H _] | [s [m [_ [_ [H _]]]]]];
          [exact H | contradiction].
    + intros s e Hs Hm.
      destruct Hhours as [[H _] | [s' [m [Hs' [Hm' _]]]]].
      * rewrite (getitem_has_column _ _ _ Hs) in H. discriminate.
      * congruence.
  - intros [Hzero Hcmp].
    destruct (scorer_run df)
      as [[H0 [Hc _]] | [[s [e [Hs [Hm _]]]] | [pd [hd [Heq _]]]]].
    + destruct (Hzero H0) as [Hp Hh]. destruct Hc; congruence.
    + destruct (Hcmp _ _ Hs Hm).
    + cbv zeta in Heq. rewrite Heq. unfold outcome at 1. cbn [snd].
      rewrite report_score_ok. eauto.
Qed.

Lemma scorer_exceptions df e :
  outcome (calculate_data_quality_score df) = inl e ->
  e = ZeroDivisionError \/ e = TypeError.
Proof.
  intros He.
  destruct (scorer_run df)
    as [[_ [_ H]] | [[s [e' [_ [Hm H]]]] | [pd [hd [Heq _]]]]].
  - left. congruence.
  - right. apply est_hours_mask_error in Hm. congruence.
  - cbv zeta in Heq. rewrite Heq in He. unfold outcome at 1 in He.
    cbn [snd] in He. rewrite report_score_ok in He. discriminate.
Qed.

(** X3: the scorer ends normally iff the table has a row, or has neither the
    Phase nor the Est_Hours column, and the Est_Hours column can be compared
    with a number.  Otherwise it raises ZeroDivisionError or TypeError; on a
    table without rows that has one of the two columns it raises
    ZeroDivisionError. *)
Theorem scorer_returns_iff (df : DataFrame) :
  ((exists r, outcome (calculate_data_quality_score df) = inr r) <->
   (len df = 0 -> has_column "Phase" df = false /\
                  has_column "Est_Hours" df = false) /\
   hours_comparable df) /\
  (forall e, outcome (calculate_data_quality_score df) = inl e ->
             e = ZeroDivisionError \/ e = TypeError) /\
  (well_formed df -> len df = 0 ->
   has_column "Phase" df = true \/ has_column "Est_Hours" df = true ->
   outcome (calculate_data_quality_score df) = inl ZeroDivisionError).
Proof.
  split; [apply scorer_returns_when | split; [apply scorer_exceptions |]].
  intros Hwf Hlen Hcol.
  destruct (scorer_run df)
    as [[_ [_ H]] | [[s [e [Hs [Hm _]]]] | [pd [hd [_ [Hp Hh]]]]]];
    trivial.
  - rewrite (est_hours_mask_empty df s Hwf Hlen Hs) in Hm. discriminate.
  - destruct Hcol as [Hc | Hc].
    + destruct Hp as [[H _] | [s [_ [H _]]]]; [congruence | contradiction].
    + destruct Hh as [[H _] | [s [m [_ [_ [H _]]]]]];
        [congruence | contradiction].
Qed.

(** ** The two counts of duplicate rows *)

Lemma earlier_identical_spec df i :
  earlier_identical df i = true <->
  exists j, j < i /\ row_eqb (row_at df i) (row_at df j) = true.
Proof.
  unfold earlier_identical. rewrite existsb_exists. split.
  - intros [j [Hj H]]. apply in_seq in Hj. exists j. split; [lia | trivial].
  - intros [j [Hj H]]. exists j. split; [apply in_seq; lia | trivial].
Qed.

Lemma earlier_is_other df i :
  i < len df -> earlier_identical df i = true -> other_identical df i = true.
Proof.
  intros Hi H. apply earlier_identical_spec in H. destruct H as [j [Hj H]].
  apply other_identical_spec. exists j. repeat split; trivial; lia.
Qed.

Lemma filter_length_mono {A : Type} (f g : A -> bool) (l : list A) :
  (forall x, In x l -> f x = true -> g x = true) ->
  length (filter f l) <= length (filter g l).
Proof.
  induction l as [| x l IH]; intros H; simpl; trivial.
  assert (IH' := IH (fun y Hy => H y (or_intror Hy))).
  destruct (f x) eqn:E.
  - rewrite (H x (or_introl eq_refl) E). simpl. lia.
  - destruct (g x); simpl; lia.
Qed.

Lemma filter_length_strict {A : Type} (f g : A -> bool) (l : list A) x :
  (forall y, In y l -> f y = true -> g y = true) ->
  In x l -> g x = true -> f x = false ->
  length (filter f l) < length (filter g l).
Proof.
  induction l as [| y l IH]; intros H Hin Hg Hf; [destruct Hin |].
  assert (Hmono := filter_length_mono f g l (fun z Hz => H z (or_intror Hz))).
  simpl. destruct Hin as [-> | Hin].
  - rewrite Hf, Hg. simpl. lia.
  - assert (IH' := IH (fun z Hz => H z (or_intror Hz)) Hin Hg Hf).
    destruct (f y) eqn:E.
    + rewrite (H y (or_introl eq_refl) E). simpl. lia.
    + destruct (g y); simpl; lia.
Qed.

(** A row with a twin leads back to a first occurrence: a row that has a
    twin and no earlier twin. *)
Lemma first_occurrence df i :
  i < len df -> other_identical df i = true ->
  exists k, k < len df /\ other_identical df k = true /\
            earlier_identical df k = false.
Proof.
  induction i as [i IH] using lt_wf_ind. intros Hi Hother.
  destruct (earlier_identical df i) eqn:E; [| eauto].
  apply earlier_identical_spec in E. destruct E as [j [Hj Heq]].
  apply (IH j); [exact Hj | lia |].
  apply other_identical_spec. exists i. rewrite row_eqb_sym.
  repeat split; trivial; lia.
Qed.

Lemma duplicate_counts_le df :
  first_exclusive_count df <= symmetric_count df /\
  symmetric_count df <= len df.
Proof.
  unfold first_exclusive_count, symmetric_count. split.
  - apply filter_length_mono. intros i Hi. apply earlier_is_other.
    apply in_seq in Hi. lia.
  - rewrite <- (length_seq (len df) 0) at 2. apply filter_length_le.
Qed.

Lemma symmetric_count_pos df :
  0 < symmetric_count df <->
  exists i j, i < j /\ j < len df /\
              row_eqb (row_at df i) (row_at df j) = true.
Proof.
  unfold symmetric_count. split.
  - intros Hpos.
    destruct (filter (other_identical df) (seq 0 (len df))) as [| i l] eqn:E;
      [simpl in Hpos; lia |].
    assert (Hi : In i (filter (other_identical df) (seq 0 (len df))))
      by (rewrite E; now left).
    apply filter_In in Hi. destruct Hi as [Hi Ho]. apply in_seq in Hi.
    apply other_identical_spec in Ho. destruct Ho as [j [Hj [Hne Heq]]].
    destruct (Nat.lt_ge_cases i j).
    + exists i, j. auto.
    + exists j, i. rewrite row_eqb_sym. repeat split; trivial; lia.
  - intros [i [j [Hij [Hj Heq]]]].
    assert (Hi : In i (filter (other_identical df) (seq 0 (len df)))).
    { apply filter_In. split; [apply in_seq; lia |].
      apply other_identical_spec. exists j. repeat split; trivial; lia. }
    destruct (filter (other_identical df) (seq 0 (len df)));
      [destruct Hi | simpl; lia].
Qed.

Lemma first_exclusive_count_pos df :
  0 < first_exclusive_count df <-> 0 < symmetric_count df.
Proof.
  split; [pose proof (duplicate_counts_le df); lia |].
  intros Hpos. apply symmetric_count_pos in Hpos.
  destruct Hpos as [i [j [Hij [Hj Heq]]]]. unfold first_exclusive_count.
  assert (Hin : In j (filter (earlier_identical df) (seq 0 (len df)))).
  { apply filter_In. split; [apply in_seq; lia |].
    apply earlier_identical_spec. exists i. now rewrite row_eqb_sym. }
  destruct (filter (earlier_identical df) (seq 0 (len df)));
    [destruct Hin | simpl; lia].
Qed.

(** X4: the count of the scorer is below the count of the full duplicate check
    as soon as there is a duplicate; both are 0 together; the symmetric
    count is never 1. *)
Theorem duplicate_counts (df : DataFrame) :
  first_exclusive_count df <= symmetric_count df /\
  symmetric_count df <= len df /\
  (symmetric_count df = 0 <-> first_exclusive_count df = 0) /\
  (0 < symmetric_count df -> first_exclusive_count df < symmetric_count df) /\
  symmetric_count df <> 1.
Proof.
  destruct (duplicate_counts_le df) as [Hle Hlen].
  pose proof (first_exclusive_count_pos df) as Hpos.
  split; trivial. split; trivial. split; [lia |].
  unfold first_exclusive_count, symmetric_count in *. split.
  - intros Hsym.
    destruct (filter (other_identical df) (seq 0 (len df))) as [| i l] eqn:E;
      [simpl in Hsym; lia |].
    assert (Hi : In i (filter (other_identical df) (seq 0 (len df))))
      by (rewrite E; now left).
    apply filter_In in Hi. destruct Hi as [Hi Ho]. apply in_seq in Hi.
    destruct (first_occurrence df i) as [k [Hk [Hko Hke]]]; [lia | trivial |].
    rewrite <- E.
    apply (filter_length_strict _ _ _ k); trivial; [| apply in_seq; lia].
    intros y Hy. apply earlier_is_other. apply in_seq in Hy. lia.
  - intros H1.
    destruct (filter (other_identical df) (seq 0 (len df))) as [| i l] eqn:E;
      [discriminate |].
    assert (Hi : In i (filter (other_identical df) (seq 0 (len df))))
      by (rewrite E; now left).
    assert (H2 : 2 <= length (filter (other_identical df) (seq 0 (len df)))).
    { apply (two_members _ i);
        [apply NoDup_filter, seq_NoDup | exact Hi |].
      apply filter_In in Hi. destruct Hi as [Hi Ho].
      apply other_identical_spec in Ho. destruct Ho as [j [Hj [Hne Heq]]].
      exists j. split; trivial. apply filter_In. split; [apply in_seq; lia |].
      apply other_identical_spec. exists i. rewrite row_eqb_sym.
      apply in_seq in Hi. repeat split; trivial; [lia | congruence]. }
    rewrite E in H2. lia.
Qed.

Lemma full_duplicates_passed df :
  In PASSED (output (check_full_duplicates df)) <-> symmetric_count df = 0.
Proof.
  rewrite check_full_duplicates_eq. unfold output. cbn [fst].
  destruct (symmetric_count df) as [| n]; simpl Nat.ltb; cbv iota.
  - split; trivial. intros _. apply in_or_app. right. right. now left.
  - split; [| discriminate]. intros H. apply in_app_or in H.
    simpl in H. intuition discriminate.
Qed.

Lemma full_duplicates_failed df :
  In (FAILED WARNING "duplicates found") (output (check_full_duplicates df))
  <-> 0 < symmetric_count df.
Proof.
  rewrite check_full_duplicates_eq. unfold output. cbn [fst].
  destruct (symmetric_count df) as [| n]; simpl Nat.ltb; cbv iota.
  - split; [| lia]. intros H. apply in_app_or in H.
    simpl in H. intuition discriminate.
  - split; [lia |]. intros _. apply in_or_app. right. right. right. now left.
Qed.

Lemma dupe_deduction_zero_iff df :
  (dupe_deduction df == 0)%Q <-> first_exclusive_count df = 0.
Proof.
  unfold dupe_deduction. rewrite first_exclusive_count_eq.
  destruct (duplicate_counts_le df) as [Hle Hlen].
  destruct (first_exclusive_count df) as [| c] eqn:Ec.
  - split; trivial. intros _. destruct (0 <? len df); [| reflexivity].
    rewrite Q.min_r.
    + unfold Qn, Qdiv. simpl. ring.
    + setoid_replace (Qn 0 / Qn (len df) * 100 / (667 # 100))%Q
        with 0%Q; [discriminate | unfold Qn, Qdiv; simpl; ring].
  - split; [| discriminate]. intros H. exfalso.
    assert (Hpos : 0 < len df) by lia.
    apply Nat.ltb_lt in Hpos. rewrite Hpos in H. apply Nat.ltb_lt in Hpos.
    assert (Hratio : (0 < Qn (S c) / Qn (len df))%Q)
      by (apply ratio_pos; lia).
    assert (Hlt : (0 < Qmin 15 (Qn (S c) / Qn (len df) * 100 / (667 # 100)))%Q).
    { apply Q.min_glb_lt; [reflexivity |].
      apply Qlt_shift_div_l; [reflexivity |]. lra. }
    rewrite H in Hlt. discriminate.
Qed.

(** X5: the full duplicate check and the scorer count duplicate rows in two
    ways, but they agree on whether there is one: the check passes iff the
    duplicate deduction of the scorer is 0. *)
Theorem duplicate_check_agrees_with_deduction (df : DataFrame) :
  In PASSED (output (check_full_duplicates df)) <->
  (dupe_deduction df == 0)%Q.
Proof.
  rewrite full_duplicates_passed, dupe_deduction_zero_iff.
  pose proof (first_exclusive_count_pos df). lia.
Qed.

(** ** Duplicate rows and duplicate keys *)

Lemma row_eqb_column df col s i j :
  getitem df col = Some s ->
  row_eqb (row_at df i) (row_at df j) = true ->
  cell_eqb (cell_at s i) (cell_at s j) = true.
Proof.
  unfold getitem, row_at, cell_at.
  induction (data df) as [| [c s'] d IH]; simpl; [discriminate |].
  intros Hs Heq. apply andb_true_iff in Heq. destruct Heq as [Hc Hr].
  destruct (String.eqb col c); [| now apply IH].
  injection Hs as <-. exact Hc.
Qed.

Lemma key_check_failed df s :
  getitem df "Story_ID" = Some s ->
  (In (FAILED ERROR "primary key violation")
      (output (check_key_duplicates df)) <-> key_shared s).
Proof.
  intros Hs. rewrite (check_key_present df s Hs), <- key_shared_iff.
  unfold output. cbn [fst]. rewrite <- Nat.ltb_lt.
  destruct (0 <? mask_sum (key_duplicated_all s)).
  - split; trivial. intros _. apply in_or_app. right. right. right.
    apply in_or_app. right. right. now left.
  - split; [| discriminate]. intros H. apply in_app_or in H.
    simpl in H. intuition discriminate.
Qed.

(** X6: two rows identical in every column share their key: on a table with
    the Story_ID column, when the full duplicate check fails the key
    duplicate check fails too. *)
Theorem duplicate_rows_are_duplicate_keys (df : DataFrame) (s : Series) :
  well_formed df ->
  getitem df "Story_ID" = Some s ->
  In (FAILED WARNING "duplicates found") (output (check_full_duplicates df)) ->
  In (FAILED ERROR "primary key violation") (output (check_key_duplicates df)).
Proof.
  intros Hwf Hs Hfail. apply (key_check_failed df s Hs).
  apply full_duplicates_failed, symmetric_count_pos in Hfail.
  destruct Hfail as [i [j [Hij [Hj Heq]]]].
  pose proof (row_eqb_column df _ s i j Hs Heq) as Hcell.
  pose proof (column_length _ _ _ Hwf Hs) as Hlen.
  exists i, j. repeat split; trivial; lia.
Qed.

(** ** The null check and the null deduction *)

Lemma check_nulls_passed df :
  In PASSED (output (check_nulls df)) <->
  (forall col s, In (col, s) (data df) -> null_count s = 0).
Proof.
  rewrite check_nulls_eq, <- cols_with_nulls_nil. unfold output. cbn [fst].
  split.
  - intros Hin. apply in_app_or in Hin. destruct Hin as [Hin | Hin].
    { simpl in Hin. intuition discriminate. }
    destruct (is_nil (cols_with_nulls df)); trivial.
    destruct Hin as [Hin | Hin]; [discriminate |].
    apply in_app_or in Hin. destruct Hin as [Hin | Hin].
    + unfold null_findings in Hin. apply in_map_iff in Hin.
      destruct Hin as [p [Hp _]]. discriminate.
    + simpl in Hin. intuition discriminate.
  - intros ->. apply in_or_app. right. simpl. auto.
Qed.

Lemma list_sum_zero (l : list nat) :
  list_sum l = 0 <-> forall n, In n l -> n = 0.
Proof.
  induction l as [| x l IH]; simpl.
  - split; [intros _ n [] | trivial].
  - split.
    + intros H n [<- | Hn]; [lia |]. apply IH; [lia | trivial].
    + intros H. rewrite (H x) by now left. apply IH. auto.
Qed.

Lemma null_cells_zero_iff df :
  null_cells df = 0 <->
  (forall col s, In (col, s) (data df) -> null_count s = 0).
Proof.
  unfold null_cells, null_counts. rewrite map_map, list_sum_zero. simpl. split.
  - intros H col s Hin. rewrite <- mask_sum_isnull. apply H.
    apply in_map_iff. now exists (col, s).
  - intros H n Hn. apply in_map_iff in Hn. destruct Hn as [[col s] [<- Hin]].
    simpl. rewrite mask_sum_isnull. eauto.
Qed.

Lemma no_cells_no_nulls df :
  well_formed df -> len df * length (columns df) = 0 -> null_cells df = 0.
Proof.
  intros Hwf H0. apply null_cells_zero_iff. intros col s Hin.
  apply Nat.eq_mul_0 in H0. destruct H0 as [H0 | H0].
  - unfold null_count. now rewrite (len_zero_no_cells df col s Hwf H0 Hin).
  - unfold columns in H0. rewrite length_map in H0.
    apply length_zero_iff_nil in H0. rewrite H0 in Hin. destruct Hin.
Qed.

Lemma null_deduction_zero_iff df :
  well_formed df -> ((null_deduction df == 0)%Q <-> null_cells df = 0).
Proof.
  intros Hwf. unfold null_deduction.
  destruct (0 <? len df * length (columns df)) eqn:Et.
  - apply Nat.ltb_lt in Et. destruct (null_cells df) as [| c].
    + split; trivial. intros _. rewrite Q.min_r.
      * unfold Qn, Qdiv. simpl. ring.
      * setoid_replace
          (Qn 0 / Qn (len df * length (columns df)) * 100 / 5)%Q
          with 0%Q; [discriminate | unfold Qn, Qdiv; simpl; ring].
    + split; [| discriminate]. intros H. exfalso.
      assert (Hratio : (0 < Qn (S c) / Qn (len df * length (columns df)))%Q)
        by (apply ratio_pos; lia).
      assert (Hlt : (0 < Qmin 20
                (Qn (S c) / Qn (len df * length (columns df)) * 100 / 5))%Q).
      { apply Q.min_glb_lt; [reflexivity |].
        apply Qlt_shift_div_l; [reflexivity |]. lra. }
      rewrite H in Hlt. discriminate.
  - apply Nat.ltb_ge in Et. split; [| reflexivity].
    intros _. apply no_cells_no_nulls; trivial. lia.
Qed.

Lemma reported_nulls_app l1 l2 :
  reported_nulls (l1 ++ l2) = reported_nulls l1 + reported_nulls l2.
Proof. unfold reported_nulls. now rewrite map_app, list_sum_app. Qed.

Lemma reported_null_findings df :
  reported_nulls (null_findings df) = null_cells df.
Proof.
  unfold null_findings, cols_with_nulls, null_cells, reported_nulls.
  rewrite map_map. simpl.
  induction (null_counts df) as [| [col [| n]] l IH]; simpl; trivial.
  now rewrite IH.
Qed.

(** X7: the nulls that the null check reports, summed over its per-column
    lines, are the null cells that the scorer counts; the check passes iff
    the null deduction of the scorer is 0. *)
Theorem null_check_agrees_with_deduction (df : DataFrame) :
  well_formed df ->
  reported_nulls (output (check_nulls df)) = null_cells df /\
  (In PASSED (output (check_nulls df)) <-> (null_deduction df == 0)%Q).
Proof.
  intros Hwf. split.
  - rewrite check_nulls_eq. unfold output. cbn [fst].
    rewrite reported_nulls_app.
    destruct (is_nil (cols_with_nulls df)) eqn:E.
    + pose proof (proj1 (cols_with_nulls_nil df) E) as Hnone.
      apply null_cells_zero_iff in Hnone. now rewrite Hnone.
    + change ((WARNING, NullColumnsFound (length (cols_with_nulls df)))
                :: null_findings df ++ [FAILED WARNING "NULLs found"])
        with ([(WARNING, NullColumnsFound (length (cols_with_nulls df)))]
                ++ null_findings df ++ [FAILED WARNING "NULLs found"]).
      rewrite !reported_nulls_app, reported_null_findings.
      change (reported_nulls (header_log "STEP 2: NULL VALUE CHECK")) with 0.
      change (reported_nulls
                [(WARNING, NullColumnsFound (length (cols_with_nulls df)))])
        with 0.
      change (reported_nulls [FAILED WARNING "NULLs found"]) with 0. lia.
  - rewrite check_nulls_passed, (null_deduction_zero_iff df Hwf).
    symmetry. apply null_cells_zero_iff.
Qed.

(** ** The schema validation *)

Lemma schema_loop df (l : list (string * string)) (issues : nat) :
  for_fold l issues (fun issues entry =>
      let (col, expected_type) := entry in
      if negb (has_column col df) then ret issues
      else
        s <- df_getitem df col ;;
        let actual_type := dtype s in
        if contains expected_type actual_type then
          logger_info (TypeOk col actual_type) ;;
          ret issues
        else
          logger_warning (TypeFail col expected_type actual_type) ;;
          ret (issues + 1))
  = (flat_map (dtype_lines df) l,
     inr (issues + length (filter (type_mismatch df) l))).
Proof.
  revert issues. induction l as [| [col ty] l IH]; intros issues; simpl.
  - now rewrite Nat.add_0_r.
  - unfold dtype_lines, type_mismatch, dtype_of. simpl fst. simpl snd.
    destruct (has_column col df) eqn:Hcol; simpl negb; cbv iota.
    + destruct (has_column_getitem _ _ Hcol) as [s Hs].
      unfold df_getitem. rewrite Hs, bind_unit.
      destruct (contains ty (dtype s)); cbn [andb negb];
        run_log; rewrite IH; run_log;
        (apply f_equal2;
           [reflexivity
           | f_equal; unfold type_mismatch, dtype_of; simpl; lia]).
    + rewrite bind_unit, IH. reflexivity.
Qed.

Lemma validate_schema_eq df :
  validate_schema df =
  (header_log "STEP 1: SCHEMA VALIDATION" ++
   (if is_nil (missing_columns df)
    then [ (INFO, Line "  [OK] All expected columns are present") ]
    else [ (ERROR, MissingColumns (missing_columns df)) ]) ++
   flat_map (dtype_lines df) EXPECTED_SCHEMA ++
   [ if schema_issues df =? 0 then PASSED
     else (WARNING, SchemaFailed (schema_issues df)) ],
   inr tt).
Proof.
  unfold validate_schema. fold (missing_columns df).
  rewrite header_eq, bind_ok.
  assert (Hfirst :
    (if negb (is_nil (missing_columns df)) then
       logger_error (MissingColumns (missing_columns df)) ;;
       ret (0 + length (missing_columns df))
     else
       logger_info (Line "  [OK] All expected columns are present") ;;
       ret 0)
    = ((if is_nil (missing_columns df)
        then [ (INFO, Line "  [OK] All expected columns are present") ]
        else [ (ERROR, MissingColumns (missing_columns df)) ]),
       inr (length (missing_columns df)))).
  { now destruct (missing_columns df). }
  rewrite Hfirst, bind_ok, schema_loop, bind_ok.
  fold (mismatched_columns df). fold (schema_issues df).
  destruct (schema_issues df =? 0); reflexivity.
Qed.

Lemma has_column_eq df col :
  has_column col df =
  match getitem df col with Some _ => true | None => false end.
Proof.
  destruct (getitem df col) as [s |] eqn:E.
  - now apply getitem_has_column in E.
  - destruct (has_column col df) eqn:H; trivial.
    apply has_column_getitem in H. destruct H as [s Hs]. congruence.
Qed.

Lemma expected_dtypes col ty :
  In (col, ty) EXPECTED_SCHEMA -> ty = "object" \/ ty = "float64".
Proof. simpl. intuition congruence. Qed.

Lemma contains_dtype ty s :
  ty = "object" \/ ty = "float64" ->
  (contains ty (dtype s) = true <-> dtype s = ty).
Proof.
  intros [-> | ->]; destruct s; simpl; split; trivial; discriminate.
Qed.

(** An expected column is in order: present, with the expected dtype. *)
Lemma entry_in_order df col ty :
  In (col, ty) EXPECTED_SCHEMA ->
  (has_column col df = true /\ type_mismatch df (col, ty) = false <->
   exists s, getitem df col = Some s /\ dtype s = ty).
Proof.
  intros Hin. pose proof (expected_dtypes _ _ Hin) as Hty.
  unfold type_mismatch, dtype_of. simpl fst. simpl snd.
  rewrite has_column_eq. destruct (getitem df col) as [s |].
  - simpl. rewrite negb_false_iff, (contains_dtype ty s Hty). split.
    + intros [_ H]. eauto.
    + intros [s' [[= <-] H]]. auto.
  - split; [intros [H _]; discriminate | intros [s [H _]]; discriminate].
Qed.

Lemma schema_issues_zero df :
  schema_issues df = 0 <->
  (forall col ty, In (col, ty) EXPECTED_SCHEMA ->
     exists s, getitem df col = Some s /\ dtype s = ty).
Proof.
  unfold schema_issues, missing_columns, mismatched_columns. split.
  - intros H col ty Hin. apply (entry_in_order df col ty Hin).
    assert (H1 : filter (fun c => negb (has_column c df))
                        (map fst EXPECTED_SCHEMA) = [])
      by (apply length_zero_iff_nil; lia).
    assert (H2 : filter (type_mismatch df) EXPECTED_SCHEMA = [])
      by (apply length_zero_iff_nil; lia).
    split.
    + destruct (has_column col df) eqn:E; trivial.
      assert (Hc : In col (filter (fun c => negb (has_column c df))
                                  (map fst EXPECTED_SCHEMA))).
      { apply filter_In. split; [| now rewrite E].
        apply in_map_iff. now exists (col, ty). }
      rewrite H1 in Hc. destruct Hc.
    + destruct (type_mismatch df (col, ty)) eqn:E; trivial.
      assert (Hc : In (col, ty) (filter (type_mismatch df) EXPECTED_SCHEMA))
        by (apply filter_In; auto).
      rewrite H2 in Hc. destruct Hc.
  - intros H. rewrite !filter_none; trivial.
    + intros [col ty] Hin. now apply (entry_in_order df col ty Hin), H.
    + intros col Hin. apply in_map_iff in Hin.
      destruct Hin as [[c ty] [<- Hin]]. apply negb_false_iff.
      now apply (entry_in_order df c ty Hin), H.
Qed.

Lemma dtype_lines_levels df l lvl msg :
  In (lvl, msg) (flat_map (dtype_lines df) l) ->
  exists col ty, In (col, ty) l /\ has_column col df = true /\
    ((lvl = INFO /\ msg = TypeOk col (dtype_of df col) /\
      contains ty (dtype_of df col) = true) \/
     (lvl = WARNING /\ msg = TypeFail col ty (dtype_of df col) /\
      contains ty (dtype_of df col) = false)).
Proof.
  intros H. apply in_flat_map in H. destruct H as [[col ty] [Hin H]].
  exists col, ty. split; trivial. unfold dtype_lines in H. simpl in H.
  destruct (has_column col df); [| destruct H]. split; trivial.
  destruct (contains ty (dtype_of df col));
    destruct H as [[= <- <-] | []]; auto.
Qed.

(** X8: the schema validation never raises.  It passes iff every expected
    column is present with the expected dtype; otherwise its verdict, at
    warning level, carries the number of issues: one per missing column and
    one per column of another dtype. *)
Theorem schema_validation_verdict (df : DataFrame) :
  outcome (validate_schema df) = inr tt /\
  (In PASSED (output (validate_schema df)) <->
   forall col ty, In (col, ty) EXPECTED_SCHEMA ->
     exists s, getitem df col = Some s /\ dtype s = ty) /\
  (forall lvl n, In (lvl, SchemaFailed n) (output (validate_schema df)) <->
     lvl = WARNING /\ n = schema_issues df /\ 0 < n) /\
  schema_issues df
    = length (missing_columns df) + length (mismatched_columns df) /\
  (forall col, In col (missing_columns df) <->
     (exists ty, In (col, ty) EXPECTED_SCHEMA) /\ getitem df col = None) /\
  (forall col ty, In (col, ty) (mismatched_columns df) <->
     In (col, ty) EXPECTED_SCHEMA /\
     exists s, getitem df col = Some s /\ dtype s <> ty).
Proof.
  rewrite validate_schema_eq. unfold output, outcome. cbn [fst snd].
  split; [reflexivity |]. split; [| split; [| split; [reflexivity | split]]].
  - rewrite <- schema_issues_zero, !in_app_iff. split.
    + intros [H | [H | [H | H]]].
      * simpl in H. intuition discriminate.
      * destruct (is_nil (missing_columns df)); simpl in H;
          intuition discriminate.
      * apply dtype_lines_levels in H.
        destruct H as [c [t [_ [_ [[_ [H _]] | [_ [H _]]]]]]]; discriminate.
      * destruct (schema_issues df) as [| n]; trivial.
        simpl in H. intuition discriminate.
    + intros ->. right. right. right. now left.
  - intros lvl n. rewrite !in_app_iff. split.
    + intros [H | [H | [H | H]]].
      * simpl in H. intuition discriminate.
      * destruct (is_nil (missing_columns df)); simpl in H;
          intuition discriminate.
      * apply dtype_lines_levels in H.
        destruct H as [c [t [_ [_ [[_ [H _]] | [_ [H _]]]]]]]; discriminate.
      * destruct (schema_issues df) as [| k] eqn:E; simpl in H.
        -- intuition discriminate.
        -- destruct H as [[= <- <-] | []]. repeat split; lia.
    + intros [-> [-> Hpos]]. right. right. right.
      destruct (schema_issues df); [lia | now left].
  - intros col. unfold missing_columns.
    rewrite filter_In, in_map_iff, negb_true_iff, has_column_eq. split.
    + intros [[[c ty] [<- Hin]] H]. split; [eauto |].
      simpl in *. destruct (getitem df c); [discriminate | reflexivity].
    + intros [[ty Hin] H]. split; [now exists (col, ty) | now rewrite H].
  - intros col ty. unfold mismatched_columns. rewrite filter_In.
    unfold type_mismatch, dtype_of. simpl fst. simpl snd.
    rewrite has_column_eq. split.
    + intros [Hin H]. split; trivial.
      destruct (getitem df col) as [s |]; [| discriminate].
      exists s. split; trivial. simpl in H. apply negb_true_iff in H.
      intros E. apply (contains_dtype ty s (expected_dtypes _ _ Hin)) in E.
      congruence.
    + intros [Hin [s [Hs Hne]]]. split; trivial. rewrite Hs. simpl.
      apply negb_true_iff, not_true_iff_false. intros E.
      now apply (contains_dtype ty s (expected_dtypes _ _ Hin)) in E.
Qed.

(** X9: the missing columns are reported together, in one record at error
    level; every expected column that is present gets one line: at info
    level when its dtype is the expected one, at warning level, with both
    dtypes, when it is not. *)
Theorem schema_validation_findings (df : DataFrame) :
  at_level ERROR (output (validate_schema df)) =
    (if is_nil (missing_columns df) then []
     else [ MissingColumns (missing_columns df) ]) /\
  (forall col ty actual,
     In (WARNING, TypeFail col ty actual) (output (validate_schema df)) <->
     In (col, ty) EXPECTED_SCHEMA /\
     exists s, getitem df col = Some s /\ actual = dtype s /\ actual <> ty) /\
  (forall col actual,
     In (INFO, TypeOk col actual) (output (validate_schema df)) <->
     In (col, actual) EXPECTED_SCHEMA /\
     exists s, getitem df col = Some s /\ dtype s = actual).
Proof.
  rewrite validate_schema_eq. unfold output. cbn [fst].
  assert (Hlines : forall lvl msg,
    In (lvl, msg) (flat_map (dtype_lines df) EXPECTED_SCHEMA) <->
    exists col ty s, In (col, ty) EXPECTED_SCHEMA /\
      getitem df col = Some s /\
      ((lvl = INFO /\ msg = TypeOk col (dtype s) /\ dtype s = ty) \/
       (lvl = WARNING /\ msg = TypeFail col ty (dtype s) /\ dtype s <> ty))).
  { intros lvl msg. rewrite in_flat_map. split.
    - intros [[col ty] [Hin H]]. unfold dtype_lines, dtype_of in H.
      simpl in H. rewrite has_column_eq in H.
      destruct (getitem df col) as [s |] eqn:Hs; [| destruct H].
      pose proof (contains_dtype ty s (expected_dtypes _ _ Hin)) as Hc.
      exists col, ty, s. split; trivial. split; trivial.
      destruct (contains ty (dtype s)).
      + destruct H as [[= <- <-] | []]. left. repeat split. now apply Hc.
      + destruct H as [[= <- <-] | []]. right. repeat split.
        intros E. apply Hc in E. discriminate.
    - intros [col [ty [s [Hin [Hs H]]]]]. exists (col, ty). split; trivial.
      pose proof (contains_dtype ty s (expected_dtypes _ _ Hin)) as Hc.
      unfold dtype_lines, dtype_of. simpl. rewrite has_column_eq, Hs.
      destruct H as [[-> [-> E]] | [-> [-> E]]].
      + rewrite (proj2 Hc E). now left.
      + destruct (contains ty (dtype s)); [now destruct E; apply Hc | now left]. }
  split; [| split].
  - rewrite !at_level_app.
    rewrite (at_level_none ERROR (flat_map _ _)).
    + destruct (is_nil (missing_columns df));
        destruct (schema_issues df =? 0); reflexivity.
    + intros msg H. apply Hlines in H.
      destruct H as [c [t [s [_ [_ [[H _] | [H _]]]]]]]; discriminate.
  - intros col ty actual. rewrite !in_app_iff, Hlines. split.
    + intros [H | [H | [H | H]]].
      * simpl in H. intuition discriminate.
      * destruct (is_nil (missing_columns df)); simpl in H;
          intuition discriminate.
      * destruct H as [c [t [s [Hin [Hs [[H _] | [_ [[= -> -> ->] E]]]]]]]];
          [discriminate |]. split; [trivial | exists s; auto].
      * destruct (schema_issues df =? 0); simpl in H; intuition discriminate.
    + intros [Hin [s [Hs [-> E]]]]. right. right. left.
      exists col, ty, s. auto 6.
  - intros col actual. rewrite !in_app_iff, Hlines. split.
    + intros [H | [H | [H | H]]].
      * simpl in H. intuition discriminate.
      * destruct (is_nil (missing_columns df)); simpl in H;
          intuition discriminate.
      * destruct H as [c [t [s [Hin [Hs [[_ [[= -> ->] E]] | [H _]]]]]]];
          [| discriminate]. rewrite E. split; [trivial | exists s; auto].
      * destruct (schema_issues df =? 0); simpl in H; intuition discriminate.
    + intros [Hin [s [Hs E]]]. right. right. left.
      exists col, actual, s. rewrite E. auto 6.
Qed.

(** X10: the schema validation looks at the presence and the dtype of the
    expected columns only: two tables that agree on them get the same
    report, whatever their values, their other columns and the order of
    their columns. *)
Theorem schema_validation_reads_dtypes_only (df1 df2 : DataFrame) :
  (forall col, In col (map fst EXPECTED_SCHEMA) ->
     option_map dtype (getitem df1 col) = option_map dtype (getitem df2 col)) ->
  validate_schema df1 = validate_schema df2.
Proof.
  intros Hsame.
  assert (Hcol : forall col, In col (map fst EXPECTED_SCHEMA) ->
            has_column col df1 = has_column col df2).
  { intros col Hin. rewrite !has_column_eq. specialize (Hsame col Hin).
    destruct (getitem df1 col), (getitem df2 col); trivial; discriminate. }
  assert (Hty : forall col, In col (map fst EXPECTED_SCHEMA) ->
            dtype_of df1 col = dtype_of df2 col).
  { intros col Hin. unfold dtype_of. specialize (Hsame col Hin).
    destruct (getitem df1 col), (getitem df2 col); simpl in Hsame;
      congruence. }
  assert (Hmissing : missing_columns df1 = missing_columns df2).
  { unfold missing_columns. apply filter_ext_in. intros col Hin.
    now rewrite (Hcol col Hin). }
  assert (Hentry : forall entry, In entry EXPECTED_SCHEMA ->
            In (fst entry) (map fst EXPECTED_SCHEMA))
    by (intros entry; apply in_map).
  assert (Hmis : mismatched_columns df1 = mismatched_columns df2).
  { unfold mismatched_columns. apply filter_ext_in. intros entry Hin.
    unfold type_mismatch.
    now rewrite (Hcol _ (Hentry _ Hin)), (Hty _ (Hentry _ Hin)). }
  assert (Hlines : flat_map (dtype_lines df1) EXPECTED_SCHEMA
                   = flat_map (dtype_lines df2) EXPECTED_SCHEMA).
  { rewrite !flat_map_concat_map. f_equal. apply map_ext_in.
    intros entry Hin. unfold dtype_lines.
    now rewrite (Hcol _ (Hentry _ Hin)), (Hty _ (Hentry _ Hin)). }
  rewrite !validate_schema_eq. unfold schema_issues.
  now rewrite Hmissing, Hmis, Hlines.
Qed.

(** ** The three checks of the business logic validation *)

Lemma row_get_absent df row col :
  has_column col df = false -> row_get (columns df) row col = None.
Proof.
  unfold has_column. revert row.
  induction (columns df) as [| c cols IH]; intros row H; simpl; trivial.
  simpl in H. apply orb_false_iff in H. destruct H as [Hc Hrest].
  destruct row as [| v row]; trivial. rewrite Hc. now apply IH.
Qed.

Lemma row_loop_raises df col (line : nat -> cell -> cell -> message) rows :
  has_column "Story_ID" df = false -> rows <> [] ->
  for_each rows (fun item : nat * list cell =>
    let (idx, row) := item in
    story_id <- row_getitem df row "Story_ID" ;;
    value <- row_getitem df row col ;;
    logger_warning (line idx story_id value))
  = ([], inl (KeyError "Story_ID")).
Proof.
  intros Hkey Hrows. destruct rows as [| [idx row] rows]; [congruence |].
  simpl. unfold row_getitem at 1. now rewrite (row_get_absent _ _ _ Hkey).
Qed.

Lemma row_loop_ok df col s (line : nat -> cell -> cell -> message) m :
  has_column "Story_ID" df = true -> getitem df col = Some s ->
  for_each (df_select df m) (fun item : nat * list cell =>
    let (idx, row) := item in
    story_id <- row_getitem df row "Story_ID" ;;
    value <- row_getitem df row col ;;
    logger_warning (line idx story_id value))
  = (row_lines df col line (df_select df m), inr tt).
Proof.
  intros Hkey Hs. destruct (has_column_getitem _ _ Hkey) as [k Hk].
  unfold row_lines. rewrite Hk, Hs.
  rewrite (for_each_ok _ _
    (fun x => [(WARNING, line (fst x) (cell_at k (fst x))
                              (cell_at s (fst x)))])).
  - now rewrite flat_map_single.
  - intros [idx row] Hin.
    now rewrite (selected_row_get _ _ _ _ _ _ Hin Hk), bind_unit,
      (selected_row_get _ _ _ _ _ _ Hin Hs), bind_unit.
Qed.

Lemma is_nil_false {A : Type} (l : list A) : is_nil l = false -> l <> [].
Proof. destruct l; [discriminate | discriminate]. Qed.

Lemma check_phase_enum_eq df b :
  check_phase_enum df b =
  (phase_report df, check_outcome df b (invalid_phases df)).
Proof.
  unfold phase_report, check_report, check_phase_enum, invalid_phases,
    check_outcome.
  rewrite logger_info_eq, bind_ok. rewrite (has_column_eq df "Phase").
  destruct (getitem df "Phase") as [s |] eqn:Hs; [| reflexivity].
  unfold df_getitem. rewrite Hs, bind_unit.
  destruct (is_nil (df_select df (not_in_mask s VALID_PHASE))) eqn:E;
    simpl negb; cbv iota; [reflexivity |].
  rewrite logger_warning_eq, bind_ok.
  destruct (has_column "Story_ID" df) eqn:Hkey.
  - rewrite (row_loop_ok df "Phase" s InvalidPhaseRow _ Hkey Hs).
    run_log. reflexivity.
  - rewrite (row_loop_raises df "Phase" InvalidPhaseRow _ Hkey
               (is_nil_false _ E)).
    reflexivity.
Qed.

Lemma check_type_enum_eq df b :
  check_type_enum df b =
  (type_report df, check_outcome df b (invalid_types df)).
Proof.
  unfold type_report, check_report, check_type_enum, invalid_types,
    check_outcome.
  rewrite logger_info_eq, bind_ok. rewrite (has_column_eq df "Type").
  destruct (getitem df "Type") as [s |] eqn:Hs; [| reflexivity].
  unfold df_getitem. rewrite Hs, bind_unit.
  destruct (is_nil (df_select df (not_in_mask s VALID_TYPE))) eqn:E;
    simpl negb; cbv iota; [reflexivity |].
  rewrite logger_warning_eq, bind_ok.
  destruct (has_column "Story_ID" df) eqn:Hkey.
  - rewrite (row_loop_ok df "Type" s InvalidTypeRow _ Hkey Hs).
    run_log. reflexivity.
  - rewrite (row_loop_raises df "Type" InvalidTypeRow _ Hkey
               (is_nil_false _ E)).
    reflexivity.
Qed.

Lemma check_est_hours_range_eq df b :
  hours_comparable df ->
  check_est_hours_range df b =
  (hours_report df, check_outcome df b (invalid_hours df)).
Proof.
  intros Hcmp.
  unfold hours_report, check_report, check_est_hours_range, invalid_hours,
    check_outcome.
  rewrite logger_info_eq, bind_ok. rewrite (has_column_eq df "Est_Hours").
  destruct (getitem df "Est_Hours") as [s |] eqn:Hs; [| reflexivity].
  unfold df_getitem. rewrite Hs, bind_unit.
  destruct (est_hours_mask s) as [e | m] eqn:Hm;
    [destruct (Hcmp _ _ Hs Hm) |].
  rewrite bind_lift.
  destruct (is_nil (df_select df m)) eqn:E;
    simpl negb; cbv iota; [reflexivity |].
  rewrite logger_warning_eq, bind_ok.
  destruct (has_column "Story_ID" df) eqn:Hkey.
  - rewrite (row_loop_ok df "Est_Hours" s InvalidHoursRow _ Hkey Hs).
    run_log. reflexivity.
  - rewrite (row_loop_raises df "Est_Hours" InvalidHoursRow _ Hkey
               (is_nil_false _ E)).
    reflexivity.
Qed.

Lemma check_est_hours_range_raises df b s e :
  getitem df "Est_Hours" = Some s -> est_hours_mask s = inl e ->
  check_est_hours_range df b =
  ([ (INFO, Line "Checking Est_Hours range...") ], inl e).
Proof.
  intros Hs Hm. unfold check_est_hours_range.
  rewrite (getitem_has_column _ _ _ Hs). unfold df_getitem.
  now rewrite Hs, bind_unit, Hm.
Qed.

(** ** The business logic validation as a whole *)

Lemma check_outcome_ok df b rows :
  is_nil rows || has_column "Story_ID" df = true ->
  check_outcome df b rows = inr (b || negb (is_nil rows)).
Proof.
  unfold check_outcome. destruct (is_nil rows); simpl.
  - now rewrite orb_false_r.
  - intros ->. now rewrite orb_true_r.
Qed.

Lemma check_outcome_raises df b rows :
  is_nil rows = false -> has_column "Story_ID" df = false ->
  check_outcome df b rows = inl (KeyError "Story_ID").
Proof. unfold check_outcome. now intros -> ->. Qed.

Lemma is_nil_app {A : Type} (l1 l2 : list A) :
  is_nil (l1 ++ l2) = is_nil l1 && is_nil l2.
Proof. now destruct l1. Qed.

Lemma is_nil_true {A : Type} (l : list A) : is_nil l = true <-> l = [].
Proof. destruct l; simpl; split; congruence. Qed.

Lemma business_logic_mask_error df s e :
  getitem df "Est_Hours" = Some s -> est_hours_mask s = inl e ->
  validate_business_logic df =
  (header_log "STEP 5: BUSINESS LOGIC VALIDATION" ++
   [ (INFO, Line "Checking Est_Hours range...") ], inl e).
Proof.
  intros Hs Hm. unfold validate_business_logic.
  rewrite header_eq, bind_ok.
  now rewrite (check_est_hours_range_raises _ _ _ _ Hs Hm).
Qed.

Lemma business_logic_eq df :
  hours_comparable df ->
  is_nil (violations df) || has_column "Story_ID" df = true ->
  validate_business_logic df =
  (header_log "STEP 5: BUSINESS LOGIC VALIDATION" ++
   hours_report df ++ phase_report df ++ type_report df ++
   [ if is_nil (violations df) then PASSED
     else FAILED WARNING "business logic violations found" ],
   inr tt).
Proof.
  intros Hcmp Hok. unfold violations in *.
  rewrite !is_nil_app in *.
  assert (Hh : is_nil (invalid_hours df) || has_column "Story_ID" df = true)
    by (destruct (is_nil (invalid_hours df)), (has_column "Story_ID" df);
        trivial).
  assert (Hp : is_nil (invalid_phases df) || has_column "Story_ID" df = true)
    by (destruct (is_nil (invalid_hours df)), (is_nil (invalid_phases df)),
          (has_column "Story_ID" df); trivial).
  assert (Ht : is_nil (invalid_types df) || has_column "Story_ID" df = true)
    by (destruct (is_nil (invalid_hours df)), (is_nil (invalid_phases df)),
          (is_nil (invalid_types df)), (has_column "Story_ID" df); trivial).
  unfold validate_business_logic.
  rewrite header_eq, bind_ok.
  rewrite (check_est_hours_range_eq _ _ Hcmp), (check_outcome_ok _ _ _ Hh),
    bind_ok.
  rewrite check_phase_enum_eq, (check_outcome_ok _ _ _ Hp), bind_ok.
  rewrite check_type_enum_eq, (check_outcome_ok _ _ _ Ht), bind_ok.
  destruct (is_nil (invalid_hours df)), (is_nil (invalid_phases df)),
    (is_nil (invalid_types df)); reflexivity.
Qed.

Lemma business_logic_key_error df :
  hours_comparable df ->
  is_nil (violations df) = false -> has_column "Story_ID" df = false ->
  outcome (validate_business_logic df) = inl (KeyError "Story_ID").
Proof.
  intros Hcmp Hv Hkey. unfold violations in Hv. rewrite !is_nil_app in Hv.
  unfold validate_business_logic.
  rewrite header_eq, bind_ok. unfold outcome at 1. cbn [snd].
  rewrite (check_est_hours_range_eq _ _ Hcmp).
  destruct (is_nil (invalid_hours df)) eqn:Eh.
  - rewrite (check_outcome_ok df false (invalid_hours df))
      by now rewrite Eh.
    rewrite bind_ok. unfold outcome at 1. cbn [snd].
    rewrite check_phase_enum_eq.
    destruct (is_nil (invalid_phases df)) eqn:Ep.
    + rewrite (check_outcome_ok df _ (invalid_phases df)) by now rewrite Ep.
      rewrite bind_ok. unfold outcome at 1. cbn [snd].
      rewrite check_type_enum_eq.
      destruct (is_nil (invalid_types df)) eqn:Et; [discriminate |].
      now rewrite (check_outcome_raises _ _ _ Et Hkey).
    + now rewrite (check_outcome_raises _ _ _ Ep Hkey).
  - now rewrite (check_outcome_raises _ _ _ Eh Hkey).
Qed.

Lemma business_logic_outcome_eq df :
  hours_comparable df ->
  outcome (validate_business_logic df) =
  if is_nil (violations df) || has_column "Story_ID" df then inr tt
  else inl (KeyError "Story_ID").
Proof.
  intros Hcmp.
  destruct (is_nil (violations df) || has_column "Story_ID" df) eqn:E.
  - now rewrite (business_logic_eq _ Hcmp E).
  - apply orb_false_iff in E. destruct E as [Ev Ek].
    now apply business_logic_key_error.
Qed.

Lemma business_logic_exceptions df e :
  outcome (validate_business_logic df) = inl e ->
  e = TypeError \/ e = KeyError "Story_ID".
Proof.
  intros He.
  destruct (getitem df "Est_Hours") as [s |] eqn:Hs.
  - destruct (est_hours_mask s) as [e' | m] eqn:Hm.
    + rewrite (business_logic_mask_error _ _ _ Hs Hm) in He.
      injection He as <-. left. exact (est_hours_mask_error _ _ Hm).
    + assert (Hcmp : hours_comparable df).
      { intros s' e' Hs'. rewrite Hs in Hs'. injection Hs' as <-.
        congruence. }
      rewrite (business_logic_outcome_eq _ Hcmp) in He.
      destruct (is_nil (violations df) || has_column "Story_ID" df);
        [discriminate | injection He as <-; now right].
  - assert (Hcmp : hours_comparable df).
    { intros s' e' Hs'. congruence. }
    rewrite (business_logic_outcome_eq _ Hcmp) in He.
    destruct (is_nil (violations df) || has_column "Story_ID" df);
      [discriminate | injection He as <-; now right].
Qed.

(** X11: the step raises in two cases only.  A text in the hours column makes
    the range comparison raise as soon as the check starts.  Otherwise the
    step ends normally exactly when no check selects a row or the key column
    is present: writing the first per-row line of a table without [Story_ID]
    raises a [KeyError]. *)
Theorem business_logic_outcome df :
  (forall s e, getitem df "Est_Hours" = Some s -> est_hours_mask s = inl e ->
     e = TypeError /\
     validate_business_logic df =
     (header_log "STEP 5: BUSINESS LOGIC VALIDATION" ++
      [ (INFO, Line "Checking Est_Hours range...") ], inl e)) /\
  (hours_comparable df ->
     outcome (validate_business_logic df) =
     if is_nil (violations df) || has_column "Story_ID" df then inr tt
     else inl (KeyError "Story_ID")) /\
  (forall e, outcome (validate_business_logic df) = inl e ->
     e = TypeError \/ e = KeyError "Story_ID").
Proof.
  split; [| split].
  - intros s e Hs Hm. split; [exact (est_hours_mask_error _ _ Hm) |].
    exact (business_logic_mask_error _ _ _ Hs Hm).
  - apply business_logic_outcome_eq.
  - apply business_logic_exceptions.
Qed.

Lemma business_logic_returns df :
  outcome (validate_business_logic df) = inr tt ->
  hours_comparable df /\
  is_nil (violations df) || has_column "Story_ID" df = true.
Proof.
  intros Hrun.
  assert (Hcmp : hours_comparable df).
  { intros s e Hs Hm.
    rewrite (business_logic_mask_error _ _ _ Hs Hm) in Hrun. discriminate. }
  split; trivial.
  destruct (is_nil (violations df) || has_column "Story_ID" df) eqn:E;
    trivial.
  apply orb_false_iff in E. destruct E as [Ev Ek].
  rewrite (business_logic_key_error _ Hcmp Ev Ek) in Hrun. discriminate.
Qed.

Lemma in_row_lines df col line rows r :
  In r (row_lines df col line rows) ->
  exists k s x, getitem df "Story_ID" = Some k /\ getitem df col = Some s /\
    In x rows /\
    r = (WARNING, line (fst x) (cell_at k (fst x)) (cell_at s (fst x))).
Proof.
  unfold row_lines.
  destruct (getitem df "Story_ID") as [k |]; [| intros []].
  destruct (getitem df col) as [s |]; [| intros []].
  rewrite in_map_iff. intros [x [<- Hx]]. exists k, s, x. auto.
Qed.

Lemma in_check_report df title ok col found line rows r :
  In r (check_report df title ok col found line rows) ->
  r = (INFO, Line title) \/
  (r = (INFO, Line ok) /\ rows = [] /\ has_column col df = true) \/
  (r = (WARNING, found (length rows)) /\ rows <> [] /\
   has_column col df = true) \/
  (In r (row_lines df col line rows) /\ rows <> []).
Proof.
  unfold check_report. intros [<- | H]; [now left | right].
  destruct (has_column col df); [| destruct H].
  destruct rows as [| x rows]; simpl is_nil in H; cbv iota in H.
  - destruct H as [<- | []]. left. auto.
  - right. destruct H as [<- | H]; [left | right].
    + repeat split; discriminate.
    + split; [| discriminate].
      destruct (has_column "Story_ID" df); [exact H | destruct H].
Qed.

Lemma check_outcome_inr df b rows b' :
  check_outcome df b rows = inr b' ->
  b' = b || negb (is_nil rows) /\
  is_nil rows || has_column "Story_ID" df = true.
Proof.
  unfold check_outcome. destruct (is_nil rows); simpl.
  - intros [= <-]. now rewrite orb_false_r.
  - destruct (has_column "Story_ID" df); [| discriminate].
    intros [= <-]. now rewrite orb_true_r.
Qed.

Lemma hours_comparable_dec df :
  hours_comparable df \/
  exists s e, getitem df "Est_Hours" = Some s /\ est_hours_mask s = inl e.
Proof.
  unfold hours_comparable.
  destruct (getitem df "Est_Hours") as [s |] eqn:Hs.
  - destruct (est_hours_mask s) as [e | m] eqn:Hm.
    + right. eauto.
    + left. intros s' e' [= <-]. congruence.
  - left. discriminate.
Qed.

(** Every record of the step belongs to its header, to the report of one of
    the three checks or is the verdict. *)
Lemma business_logic_log df r :
  In r (output (validate_business_logic df)) ->
  In r (header_log "STEP 5: BUSINESS LOGIC VALIDATION") \/
  In r (hours_report df) \/ In r (phase_report df) \/ In r (type_report df) \/
  (outcome (validate_business_logic df) = inr tt /\
   r = if is_nil (violations df) then PASSED
       else FAILED WARNING "business logic violations found").
Proof.
  intros H.
  destruct (hours_comparable_dec df) as [Hcmp | [s [e [Hs Hm]]]].
  - destruct (is_nil (violations df) || has_column "Story_ID" df) eqn:E.
    + rewrite (business_logic_eq _ Hcmp E) in *.
      unfold output in H. cbn [fst] in H.
      rewrite !in_app_iff in H.
      destruct H as [H | [H | [H | [H | [<- | []]]]]]; auto.
      right. right. right. right. split; reflexivity.
    + unfold validate_business_logic in H.
      apply in_bind in H. destruct H as [H | [_ [_ H]]]; [now left |].
      right.
      apply in_bind in H. rewrite (check_est_hours_range_eq _ _ Hcmp) in H.
      destruct H as [H | [b1 [E1 H]]]; [now left |].
      right.
      apply in_bind in H. rewrite check_phase_enum_eq in H.
      destruct H as [H | [b2 [E2 H]]]; [now left |].
      right.
      apply in_bind in H. rewrite check_type_enum_eq in H.
      destruct H as [H | [b3 [E3 H]]]; [now left |].
      exfalso.
      apply check_outcome_inr in E1, E2, E3.
      unfold violations in E. rewrite !is_nil_app in E.
      destruct E1 as [_ E1], E2 as [_ E2], E3 as [_ E3].
      destruct (is_nil (invalid_hours df)), (is_nil (invalid_phases df)),
        (is_nil (invalid_types df)), (has_column "Story_ID" df);
        discriminate.
  - rewrite (business_logic_mask_error _ _ _ Hs Hm) in H.
    unfold output in H. cbn [fst] in H. apply in_app_or in H.
    destruct H as [H | [<- | []]]; [now left |].
    right. left. now left.
Qed.

Lemma invalid_hours_column df :
  invalid_hours df <> [] -> has_column "Est_Hours" df = true.
Proof.
  unfold invalid_hours. intros H.
  destruct (getitem df "Est_Hours") as [s |] eqn:Hs; [| congruence].
  exact (getitem_has_column _ _ _ Hs).
Qed.

Lemma invalid_phases_column df :
  invalid_phases df <> [] -> has_column "Phase" df = true.
Proof.
  unfold invalid_phases. intros H.
  destruct (getitem df "Phase") as [s |] eqn:Hs; [| congruence].
  exact (getitem_has_column _ _ _ Hs).
Qed.

Lemma invalid_types_column df :
  invalid_types df <> [] -> has_column "Type" df = true.
Proof.
  unfold invalid_types. intros H.
  destruct (getitem df "Type") as [s |] eqn:Hs; [| congruence].
  exact (getitem_has_column _ _ _ Hs).
Qed.

Lemma length_pos_not_nil {A : Type} (l : list A) : 0 < length l <-> l <> [].
Proof.
  destruct l; simpl; split; try lia; try congruence; discriminate.
Qed.

(** Splits the membership of a record in the report of a check. *)
Ltac report_inv H :=
  apply in_check_report in H;
  destruct H as [H | [[H _] | [[H [? ?]] | [H ?]]]];
  [ | | | let k := fresh "k" in let s := fresh "s" in let x := fresh "x" in
          apply in_row_lines in H;
          destruct H as (k & s & x & ? & ? & ? & H) ].

Lemma found_in_report df title ok col found line rows :
  rows <> [] -> has_column col df = true ->
  In (WARNING, found (length rows))
     (check_report df title ok col found line rows).
Proof.
  intros Hrows Hcol. unfold check_report. rewrite Hcol.
  destruct rows; [congruence |]. right. now left.
Qed.

(** X12: when the step ends normally its verdict is PASSED exactly when none of
    the three checks selects a row, and FAILED otherwise; each check that
    selects rows reports how many, and nothing else is reported as a count.
    The step writes INFO and WARNING records only. *)
Theorem business_logic_verdict df :
  outcome (validate_business_logic df) = inr tt ->
  let out := output (validate_business_logic df) in
  (In PASSED out <-> violations df = []) /\
  (In (FAILED WARNING "business logic violations found") out <->
   violations df <> []) /\
  (forall n, In (WARNING, InvalidHoursFound n) out <->
             n = length (invalid_hours df) /\ 0 < n) /\
  (forall n, In (WARNING, InvalidPhaseFound n) out <->
             n = length (invalid_phases df) /\ 0 < n) /\
  (forall n, In (WARNING, InvalidTypeFound n) out <->
             n = length (invalid_types df) /\ 0 < n) /\
  (forall lvl msg, In (lvl, msg) out -> lvl = INFO \/ lvl = WARNING).
Proof.
  intros Hrun out.
  destruct (business_logic_returns _ Hrun) as [Hcmp Hok].
  assert (Hout : out =
    header_log "STEP 5: BUSINESS LOGIC VALIDATION" ++
    hours_report df ++ phase_report df ++ type_report df ++
    [ if is_nil (violations df) then PASSED
      else FAILED WARNING "business logic violations found" ]).
  { unfold out. now rewrite (business_logic_eq _ Hcmp Hok). }
  assert (Hlast : In (if is_nil (violations df) then PASSED
                      else FAILED WARNING "business logic violations found")
                     out).
  { rewrite Hout. rewrite !in_app_iff. do 4 right. now left. }
  repeat split.
  - intros H. apply business_logic_log in H.
    destruct H as [H | [H | [H | [H | [_ H]]]]].
    + simpl in H. intuition discriminate.
    + unfold hours_report in H. report_inv H; discriminate H.
    + unfold phase_report in H. report_inv H; discriminate H.
    + unfold type_report in H. report_inv H; discriminate H.
    + destruct (is_nil (violations df)) eqn:E; [| discriminate H].
      now apply is_nil_true.
  - intros E. apply is_nil_true in E. now rewrite E in Hlast.
  - intros H E. apply business_logic_log in H.
    destruct H as [H | [H | [H | [H | [_ H]]]]].
    + simpl in H. intuition discriminate.
    + unfold hours_report in H. report_inv H; discriminate H.
    + unfold phase_report in H. report_inv H; discriminate H.
    + unfold type_report in H. report_inv H; discriminate H.
    + rewrite E in H. discriminate H.
  - intros E. destruct (is_nil (violations df)) eqn:En; [| exact Hlast].
    apply is_nil_true in En. contradiction.
  - apply business_logic_log in H.
    destruct H as [H | [H | [H | [H | [_ H]]]]].
    + simpl in H. intuition discriminate.
    + unfold hours_report in H. report_inv H; try discriminate H.
      now injection H.
    + unfold phase_report in H. report_inv H; discriminate H.
    + unfold type_report in H. report_inv H; discriminate H.
    + destruct (is_nil (violations df)); discriminate H.
  - apply business_logic_log in H.
    destruct H as [H | [H | [H | [H | [_ H]]]]].
    + simpl in H. intuition discriminate.
    + unfold hours_report in H. report_inv H; try discriminate H.
      injection H as ->. now apply length_pos_not_nil.
    + unfold phase_report in H. report_inv H; discriminate H.
    + unfold type_report in H. report_inv H; discriminate H.
    + destruct (is_nil (violations df)); discriminate H.
  - intros [-> Hn]. apply length_pos_not_nil in Hn.
    fold out. rewrite Hout, !in_app_iff. right. left.
    apply found_in_report; trivial. now apply invalid_hours_column.
  - apply business_logic_log in H.
    destruct H as [H | [H | [H | [H | [_ H]]]]].
    + simpl in H. intuition discriminate.
    + unfold hours_report in H. report_inv H; discriminate H.
    + unfold phase_report in H. report_inv H; try discriminate H.
      now injection H.
    + unfold type_report in H. report_inv H; discriminate H.
    + destruct (is_nil (violations df)); discriminate H.
  - apply business_logic_log in H.
    destruct H as [H | [H | [H | [H | [_ H]]]]].
    + simpl in H. intuition discriminate.
    + unfold hours_report in H. report_inv H; discriminate H.
    + unfold phase_report in H. report_inv H; try discriminate H.
      injection H as ->. now apply length_pos_not_nil.
    + unfold type_report in H. report_inv H; discriminate H.
    + destruct (is_nil (violations df)); discriminate H.
  - intros [-> Hn]. apply length_pos_not_nil in Hn.
    fold out. rewrite Hout, !in_app_iff. right. right. left.
    apply found_in_report; trivial. now apply invalid_phases_column.
  - apply business_logic_log in H.
    destruct H as [H | [H | [H | [H | [_ H]]]]].
    + simpl in H. intuition discriminate.
    + unfold hours_report in H. report_inv H; discriminate H.
    + unfold phase_report in H. report_inv H; discriminate H.
    + unfold type_report in H. report_inv H; try discriminate H.
      now injection H.
    + destruct (is_nil (violations df)); discriminate H.
  - apply business_logic_log in H.
    destruct H as [H | [H | [H | [H | [_ H]]]]].
    + simpl in H. intuition discriminate.
    + unfold hours_report in H. report_inv H; discriminate H.
    + unfold phase_report in H. report_inv H; discriminate H.
    + unfold type_report in H. report_inv H; try discriminate H.
      injection H as ->. now apply length_pos_not_nil.
    + destruct (is_nil (violations df)); discriminate H.
  - intros [-> Hn]. apply length_pos_not_nil in Hn.
    fold out. rewrite Hout, !in_app_iff. right. right. right. left.
    apply found_in_report; trivial. now apply invalid_types_column.
  - intros lvl msg H. apply business_logic_log in H.
    destruct H as [H | [H | [H | [H | [_ H]]]]].
    + simpl in H. intuition congruence.
    + unfold hours_report in H. report_inv H; injection H; auto.
    + unfold phase_report in H. report_inv H; injection H; auto.
    + unfold type_report in H. report_inv H; injection H; auto.
    + destruct (is_nil (violations df)); injection H; auto.
Qed.

(** ** The rows selected by the Phase and Type checks *)

Lemma allowedb_spec values c : allowedb values c = true <-> allowed values c.
Proof.
  unfold allowed. destruct c as [| q | t]; simpl.
  - split; [discriminate | intros [t [H _]]; discriminate].
  - split; [discriminate | intros [t [H _]]; discriminate].
  - rewrite existsb_exists. split.
    + intros [x [Hx E]]. apply String.eqb_eq in E. subst x. eauto.
    + intros [x [[= <-] Hx]]. exists t. split; trivial. apply String.eqb_refl.
Qed.

Lemma isin_cells s values : isin s values = map (allowedb values) (cells s).
Proof.
  destruct s as [v | v]; simpl; rewrite map_map; apply map_ext.
  - now intros [q |].
  - now intros [t |].
Qed.

Lemma not_in_mask_nth s values i :
  i < length (cells s) ->
  nth i (not_in_mask s values) false = negb (allowedb values (cell_at s i)).
Proof.
  intros Hi. unfold not_in_mask, mask_not, cell_at.
  rewrite isin_cells, map_map.
  rewrite (nth_indep _ false (negb (allowedb values NaN)))
    by now rewrite length_map.
  apply (map_nth (fun c => negb (allowedb values c))).
Qed.

Lemma enum_selected df col s values i :
  well_formed df -> getitem df col = Some s ->
  (In (i, row_at df i) (df_select df (not_in_mask s values)) <->
   i < len df /\ ~ allowed values (cell_at s i)).
Proof.
  intros Hwf Hs. pose proof (column_length _ _ _ Hwf Hs) as Hlen.
  rewrite df_select_In, <- allowedb_spec. split.
  - intros [Hi [_ Hbit]]. split; trivial.
    rewrite not_in_mask_nth in Hbit by lia.
    now destruct (allowedb values (cell_at s i)).
  - intros [Hi Hna]. repeat split; trivial.
    rewrite not_in_mask_nth by lia.
    now destruct (allowedb values (cell_at s i)).
Qed.

Lemma selected_label df (m : mask) (x : nat * list cell) :
  In x (df_select df m) -> x = (fst x, row_at df (fst x)).
Proof.
  destruct x as [i r]. intros H. apply df_select_In in H.
  destruct H as [_ [-> _]]. reflexivity.
Qed.

Lemma row_line_in_report df title ok col found line rows s k x :
  getitem df col = Some s -> getitem df "Story_ID" = Some k ->
  In x rows ->
  In (WARNING, line (fst x) (cell_at k (fst x)) (cell_at s (fst x)))
     (check_report df title ok col found line rows).
Proof.
  intros Hs Hk Hx. unfold check_report, row_lines.
  rewrite (getitem_has_column _ _ _ Hs), (getitem_has_column _ _ _ Hk), Hs, Hk.
  destruct rows as [| y rows]; [destruct Hx |].
  right. right.
  apply (in_map (fun x => (WARNING, line (fst x) (cell_at k (fst x))
                                         (cell_at s (fst x))))).
  exact Hx.
Qed.

Lemma business_logic_reports df r :
  hours_comparable df -> has_column "Story_ID" df = true ->
  In r (hours_report df) \/ In r (phase_report df) \/ In r (type_report df) ->
  In r (output (validate_business_logic df)).
Proof.
  intros Hcmp Hkey H.
  rewrite (business_logic_eq _ Hcmp) by (rewrite Hkey; apply orb_true_r).
  unfold output. cbn [fst]. rewrite !in_app_iff. tauto.
Qed.

(** X13: the Phase check selects exactly the rows whose Phase is not one of the
    allowed texts, so a row without a Phase is selected too.  Every
    per-row line of the check names a selected row with its key and its
    Phase, and when the key column is present and the hours are comparable
    every selected row has its line. *)
Theorem phase_check_rows (df : DataFrame) (s : Series) (i : nat) :
  well_formed df ->
  getitem df "Phase" = Some s ->
  i < len df ->
  let out := output (validate_business_logic df) in
  (In (i, row_at df i) (invalid_phases df) <->
   ~ allowed VALID_PHASE (cell_at s i)) /\
  (cell_at s i = NaN -> In (i, row_at df i) (invalid_phases df)) /\
  (forall lvl sid v,
     In (lvl, InvalidPhaseRow i sid v) out ->
     lvl = WARNING /\ v = cell_at s i /\ ~ allowed VALID_PHASE v /\
     exists k, getitem df "Story_ID" = Some k /\ sid = cell_at k i) /\
  (forall k, getitem df "Story_ID" = Some k -> hours_comparable df ->
     ~ allowed VALID_PHASE (cell_at s i) ->
     In (WARNING, InvalidPhaseRow i (cell_at k i) (cell_at s i)) out).
Proof.
  intros Hwf Hs Hi out.
  assert (Hsel : In (i, row_at df i) (invalid_phases df) <->
                 ~ allowed VALID_PHASE (cell_at s i)).
  { unfold invalid_phases. rewrite Hs.
    rewrite (enum_selected df "Phase" s VALID_PHASE i Hwf Hs). tauto. }
  split; [exact Hsel | split; [| split]].
  - intros Hnull. apply Hsel. rewrite Hnull. intros [t [H _]]. discriminate.
  - intros lvl sid v H. apply business_logic_log in H.
    destruct H as [H | [H | [H | [H | [_ H]]]]].
    + simpl in H. intuition discriminate.
    + unfold hours_report in H. report_inv H; discriminate H.
    + unfold phase_report in H. report_inv H; try discriminate H.
      injection H as -> -> -> ->.
      match goal with Hk : getitem df "Phase" = Some _ |- _ =>
        rewrite Hs in Hk; injection Hk as <- end.
      repeat split; eauto.
      apply Hsel.
      match goal with Hx : In _ (invalid_phases df) |- _ =>
        unfold invalid_phases in Hx |- *; rewrite Hs in Hx |- *;
        now rewrite <- (selected_label _ _ _ Hx) end.
    + unfold type_report in H. report_inv H; discriminate H.
    + destruct (is_nil (violations df)); discriminate H.
  - intros k Hk Hcmp Hna. apply business_logic_reports; trivial.
    { exact (getitem_has_column _ _ _ Hk). }
    right. left. apply Hsel in Hna.
    exact (row_line_in_report df _ _ "Phase" InvalidPhaseFound InvalidPhaseRow
             _ s k (i, row_at df i) Hs Hk Hna).
Qed.

(** X14: the Type check selects exactly the rows whose Type is not one of the
    allowed texts, a row without a Type included, and its per-row lines are
    those of the selected rows. *)
Theorem type_check_rows (df : DataFrame) (s : Series) (i : nat) :
  well_formed df ->
  getitem df "Type" = Some s ->
  i < len df ->
  let out := output (validate_business_logic df) in
  (In (i, row_at df i) (invalid_types df) <->
   ~ allowed VALID_TYPE (cell_at s i)) /\
  (cell_at s i = NaN -> In (i, row_at df i) (invalid_types df)) /\
  (forall lvl sid v,
     In (lvl, InvalidTypeRow i sid v) out ->
     lvl = WARNING /\ v = cell_at s i /\ ~ allowed VALID_TYPE v /\
     exists k, getitem df "Story_ID" = Some k /\ sid = cell_at k i) /\
  (forall k, getitem df "Story_ID" = Some k -> hours_comparable df ->
     ~ allowed VALID_TYPE (cell_at s i) ->
     In (WARNING, InvalidTypeRow i (cell_at k i) (cell_at s i)) out).
Proof.
  intros Hwf Hs Hi out.
  assert (Hsel : In (i, row_at df i) (invalid_types df) <->
                 ~ allowed VALID_TYPE (cell_at s i)).
  { unfold invalid_types. rewrite Hs.
    rewrite (enum_selected df "Type" s VALID_TYPE i Hwf Hs). tauto. }
  split; [exact Hsel | split; [| split]].
  - intros Hnull. apply Hsel. rewrite Hnull. intros [t [H _]]. discriminate.
  - intros lvl sid v H. apply business_logic_log in H.
    destruct H as [H | [H | [H | [H | [_ H]]]]].
    + simpl in H. intuition discriminate.
    + unfold hours_report in H. report_inv H; discriminate H.
    + unfold phase_report in H. report_inv H; discriminate H.
    + unfold type_report in H. report_inv H; try discriminate H.
      injection H as -> -> -> ->.
      match goal with Hk : getitem df "Type" = Some _ |- _ =>
        rewrite Hs in Hk; injection Hk as <- end.
      repeat split; eauto.
      apply Hsel.
      match goal with Hx : In _ (invalid_types df) |- _ =>
        unfold invalid_types in Hx |- *; rewrite Hs in Hx |- *;
        now rewrite <- (selected_label _ _ _ Hx) end.
    + destruct (is_nil (violations df)); discriminate H.
  - intros k Hk Hcmp Hna. apply business_logic_reports; trivial.
    { exact (getitem_has_column _ _ _ Hk). }
    right. right. apply Hsel in Hna.
    exact (row_line_in_report df _ _ "Type" InvalidTypeFound InvalidTypeRow
             _ s k (i, row_at df i) Hs Hk Hna).
Qed.

(** ** The counts of step 5 and the deductions of step 6 *)

Lemma found_counts df :
  (forall lvl n, In (lvl, InvalidHoursFound n)
                    (output (validate_business_logic df)) ->
     n = length (invalid_hours df) /\ has_column "Est_Hours" df = true) /\
  (forall lvl n, In (lvl, InvalidPhaseFound n)
                    (output (validate_business_logic df)) ->
     n = length (invalid_phases df) /\ has_column "Phase" df = true).
Proof.
  split; intros lvl n H; apply business_logic_log in H;
    destruct H as [H | [H | [H | [H | [_ H]]]]].
  - simpl in H. intuition discriminate.
  - unfold hours_report in H. report_inv H; try discriminate H.
    injection H as _ ->. auto.
  - unfold phase_report in H. report_inv H; discriminate H.
  - unfold type_report in H. report_inv H; discriminate H.
  - destruct (is_nil (violations df)); discriminate H.
  - simpl in H. intuition discriminate.
  - unfold hours_report in H. report_inv H; discriminate H.
  - unfold phase_report in H. report_inv H; try discriminate H.
    injection H as _ ->. auto.
  - unfold type_report in H. report_inv H; discriminate H.
  - destruct (is_nil (violations df)); discriminate H.
Qed.

(** X15: the scorer recomputes the selections of the Est_Hours and Phase checks:
    the deductions it computes are those of the null cells, of the duplicate
    rows, and, for each of the two columns that is present, of the rows that
    step 5 selects.  So a count that step 5 reports is the count that is
    charged; the rows of the Type check are charged nowhere. *)
Theorem scorer_charges_the_checked_rows
        (df : DataFrame) (score : Q) (rating : rating)
        (deductions : list (string * Q)) :
  outcome (calculate_data_quality_score df)
    = inr (score, rating, deductions) ->
  deductions =
    [ ("NULLs", null_deduction df); ("Duplicates", dupe_deduction df) ] ++
    (if has_column "Phase" df
     then [ ("Invalid Phase",
             phase_deduction_of (length (invalid_phases df)) (len df)) ]
     else []) ++
    (if has_column "Est_Hours" df
     then [ ("Invalid Hours",
             hours_deduction_of (length (invalid_hours df)) (len df)) ]
     else []) /\
  (forall lvl n,
     In (lvl, InvalidPhaseFound n) (output (validate_business_logic df)) ->
     In ("Invalid Phase", phase_deduction_of n (len df)) deductions) /\
  (forall lvl n,
     In (lvl, InvalidHoursFound n) (output (validate_business_logic df)) ->
     In ("Invalid Hours", hours_deduction_of n (len df)) deductions).
Proof.
  intros Hrun. apply scorer_outcome in Hrun.
  destruct Hrun as [pd [hd [Hded [_ [_ [Hphase Hhours]]]]]].
  assert (Hpd : pd = if has_column "Phase" df
     then [ ("Invalid Phase",
             phase_deduction_of (length (invalid_phases df)) (len df)) ]
     else []).
  { destruct Hphase as [[-> ->] | [s [Hs [_ ->]]]]; trivial.
    rewrite (getitem_has_column _ _ _ Hs). unfold invalid_phases.
    now rewrite Hs. }
  assert (Hhd : hd = if has_column "Est_Hours" df
     then [ ("Invalid Hours",
             hours_deduction_of (length (invalid_hours df)) (len df)) ]
     else []).
  { destruct Hhours as [[-> ->] | [s [m [Hs [Hm [_ ->]]]]]]; trivial.
    rewrite (getitem_has_column _ _ _ Hs). unfold invalid_hours.
    now rewrite Hs, Hm. }
  rewrite Hpd, Hhd in Hded. clear Hpd Hhd Hphase Hhours.
  split; [exact Hded | split].
  - intros lvl n H. apply (proj2 (found_counts df)) in H.
    destruct H as [-> Hcol]. rewrite Hded, Hcol.
    apply in_or_app. right. apply in_or_app. left. now left.
  - intros lvl n H. apply (proj1 (found_counts df)) in H.
    destruct H as [-> Hcol]. rewrite Hded, Hcol.
    apply in_or_app. right. apply in_or_app. right. now left.
Qed.

(** ** The exit status of a run *)

Lemma run_steps_eq df :
  run_steps df =
  (output (validate_schema df) ++ output (check_nulls df) ++
   output (check_full_duplicates df) ++ output (check_key_duplicates df) ++
   output (validate_business_logic df) ++
   match outcome (validate_business_logic df) with
   | inr _ => output (calculate_data_quality_score df)
   | inl _ => []
   end,
   match outcome (validate_business_logic df) with
   | inl e => inl e
   | inr _ =>
       match outcome (calculate_data_quality_score df) with
       | inl e => inl e
       | inr _ => inr tt
       end
   end).
Proof.
  pose proof (validate_schema_returns df) as H1.
  assert (H2 : outcome (check_nulls df) = inr tt)
    by now rewrite check_nulls_eq.
  assert (H3 : outcome (check_full_duplicates df) = inr tt)
    by now rewrite check_full_duplicates_eq.
  assert (H4 : outcome (check_key_duplicates df) = inr tt).
  { destruct (has_column "Story_ID" df) eqn:Hkey.
    - destruct (has_column_getitem _ _ Hkey) as [k Hk].
      now rewrite (check_key_present df k Hk).
    - now rewrite (check_key_absent df Hkey). }
  unfold run_steps.
  rewrite (returns_eta _ _ H1), (returns_eta _ _ H2), (returns_eta _ _ H3),
    (returns_eta _ _ H4).
  unfold output at 1 2 3 4. cbn [fst]. rewrite !bind_ok.
  destruct (validate_business_logic df) as [l5 [e5 | []]];
    destruct (calculate_data_quality_score df) as [l6 [e6 | r6]];
    unfold output, outcome; cbn; rewrite ?app_nil_r; reflexivity.
Qed.

Lemma main_steps_return script_dir read_csv df out :
  read_csv (String.append script_dir "/test_data.csv") = inr df ->
  run_steps df = (out, inr tt) ->
  main script_dir read_csv =
  (main_prefix script_dir df ++ out ++
   [ (INFO, Line rule);
     (INFO, Line "VALIDATION PIPELINE COMPLETED");
     (INFO, Line rule);
     (INFO, Line (String.append "Full report saved to: validation_report.log"
                                nl)) ],
   inr tt).
Proof.
  intros Hload Hrun. unfold main. rewrite Hload.
  cbv beta iota zeta
      delta [bind lift logger_info emit basic_level level_no Nat.leb
             try_except].
  rewrite Hrun. reflexivity.
Qed.

Lemma main_steps_raise script_dir read_csv df out e :
  read_csv (String.append script_dir "/test_data.csv") = inr df ->
  run_steps df = (out, inl e) ->
  e = TypeError \/ e = ZeroDivisionError \/ e = KeyError "Story_ID" ->
  main script_dir read_csv =
  (main_prefix script_dir df ++ out ++ [ (CRITICAL, UnexpectedError e) ],
   inl (SystemExit 1)).
Proof.
  intros Hload Hrun He. unfold main. rewrite Hload.
  cbv beta iota zeta
      delta [bind lift logger_info emit basic_level level_no Nat.leb
             try_except].
  rewrite Hrun. destruct He as [-> | [-> | ->]]; reflexivity.
Qed.

Lemma steps_not_critical df msg : ~ In (CRITICAL, msg) (output (run_steps df)).
Proof.
  rewrite run_steps_eq. unfold output at 1. cbn [fst].
  rewrite !in_app_iff. intros [H | [H | [H | [H | [H | H]]]]].
  - exact (validate_schema_not_critical _ _ H).
  - exact (check_nulls_not_critical _ _ H).
  - exact (check_full_duplicates_not_critical _ _ H).
  - exact (check_key_duplicates_not_critical _ _ H).
  - exact (validate_business_logic_not_critical _ _ H).
  - destruct (outcome (validate_business_logic df)); [destruct H |].
    exact (scorer_not_critical _ _ H).
Qed.

Lemma steps_not_completed df :
  ~ In (INFO, Line "VALIDATION PIPELINE COMPLETED") (output (run_steps df)).
Proof.
  rewrite run_steps_eq. unfold output at 1. cbn [fst].
  rewrite !in_app_iff. intros [H | [H | [H | [H | [H | H]]]]].
  - unfold validate_schema in H.
    apply in_bind in H. destruct H as [H | [_ [_ H]]]; [log_absurd H |].
    apply in_bind in H. destruct H as [H | [i1 [_ H]]]; [log_absurd H |].
    apply in_bind in H. destruct H as [H | [i2 [_ H]]]; [| log_absurd H].
    apply for_fold_output in H. destruct H as [s [[col ty] [_ H]]].
    log_absurd H.
  - unfold check_nulls in H. log_absurd H.
  - unfold check_full_duplicates in H. log_absurd H.
  - unfold check_key_duplicates in H. log_absurd H.
  - unfold validate_business_logic, check_est_hours_range, check_phase_enum,
      check_type_enum in H. log_absurd H.
  - destruct (outcome (validate_business_logic df)); [destruct H |].
    unfold calculate_data_quality_score, report_score in H. log_absurd H.
Qed.

Lemma run_steps_outcome_eq df :
  outcome (run_steps df) =
  match outcome (validate_business_logic df) with
  | inl e => inl e
  | inr _ =>
      match outcome (calculate_data_quality_score df) with
      | inl e => inl e
      | inr _ => inr tt
      end
  end.
Proof. now rewrite run_steps_eq. Qed.

Lemma run_steps_outcome df :
  outcome (run_steps df) = inr tt \/
  exists e, outcome (run_steps df) = inl e /\
    (e = TypeError \/ e = ZeroDivisionError \/ e = KeyError "Story_ID") /\
    (outcome (validate_business_logic df) = inl e \/
     outcome (calculate_data_quality_score df) = inl e).
Proof.
  rewrite run_steps_outcome_eq.
  destruct (outcome (validate_business_logic df)) as [e | []] eqn:E5.
  - right. exists e. split; trivial. split; [| now left].
    destruct (business_logic_exceptions _ _ E5) as [-> | ->]; auto.
  - destruct (outcome (calculate_data_quality_score df)) as [e | r] eqn:E6.
    + right. exists e. split; trivial. split; [| now right].
      destruct (scorer_exceptions _ _ E6) as [-> | ->]; auto.
    + now left.
Qed.

Lemma run_steps_return_iff df :
  outcome (run_steps df) = inr tt <->
  hours_comparable df /\
  (violations df = [] \/ has_column "Story_ID" df = true) /\
  (len df = 0 -> has_column "Phase" df = false /\
                 has_column "Est_Hours" df = false).
Proof.
  rewrite run_steps_outcome_eq. split.
  - intros H.
    destruct (outcome (validate_business_logic df)) as [e | []] eqn:E5;
      [discriminate |].
    destruct (outcome (calculate_data_quality_score df)) as [e | r] eqn:E6;
      [discriminate |].
    destruct (business_logic_returns _ E5) as [Hcmp Hok].
    split; trivial. split.
    + apply orb_true_iff in Hok. destruct Hok as [Hv | Hk]; [left | now right].
      now apply is_nil_true.
    + apply (proj1 (scorer_returns_when df)). eauto.
  - intros [Hcmp [Hok Hzero]].
    rewrite (business_logic_outcome_eq _ Hcmp).
    assert (E : is_nil (violations df) || has_column "Story_ID" df = true).
    { destruct Hok as [-> | ->]; [reflexivity | apply orb_true_r]. }
    rewrite E.
    destruct (proj2 (scorer_returns_when df) (conj Hzero Hcmp)) as [r ->].
    reflexivity.
Qed.

Lemma exit_status_ret {A : Type} (l : Log) (a : A) :
  exit_status (l, inr a) = 0.
Proof. reflexivity. Qed.

Lemma exit_status_exit {A : Type} (l : Log) (code : nat) :
  exit_status (A := A) (l, inl (SystemExit code)) = code.
Proof. reflexivity. Qed.

(** X16: once the file is loaded the exit status depends on steps 5 and 6 only:
    no finding of any step changes it.  The run exits with status 0 exactly
    when the hours can be compared with a number, the key column is present
    or no business check selects a row, and the table has a row or neither
    of the two scored columns; this is also exactly when the completion line
    is logged and when nothing is logged at critical level.  Otherwise the
    exception of step 5 or 6 is logged as an unexpected error and the status
    is 1. *)
Theorem main_exit_status
        (script_dir : string) (read_csv : string -> exn + DataFrame)
        (df : DataFrame) :
  read_csv (String.append script_dir "/test_data.csv") = inr df ->
  let run := main script_dir read_csv in
  (exit_status run = 0 \/ exit_status run = 1) /\
  (exit_status run = 0 <->
   hours_comparable df /\
   (violations df = [] \/ has_column "Story_ID" df = true) /\
   (len df = 0 -> has_column "Phase" df = false /\
                  has_column "Est_Hours" df = false)) /\
  (exit_status run = 0 <->
   In (INFO, Line "VALIDATION PIPELINE COMPLETED") (output run)) /\
  (exit_status run = 0 <-> at_level CRITICAL (output run) = []) /\
  (exit_status run = 1 ->
   exists e, at_level CRITICAL (output run) = [UnexpectedError e] /\
     (outcome (validate_business_logic df) = inl e \/
      outcome (calculate_data_quality_score df) = inl e)).
Proof.
  intros Hload run. rewrite <- run_steps_return_iff.
  assert (Hprefix : forall lvl, lvl <> INFO ->
            at_level lvl (main_prefix script_dir df) = []).
  { intros lvl Hl. now destruct lvl. }
  pose proof (at_level_none _ _ (steps_not_critical df)) as Hquiet.
  destruct (run_steps_outcome df) as [Hret | [e [Hexc [He Hwhere]]]].
  - pose proof (main_steps_return script_dir read_csv df _ Hload
                  (returns_eta _ _ Hret)) as Hmain.
    unfold run. rewrite Hmain, !exit_status_ret, !output_pair, Hret.
    repeat split; auto; try discriminate.
    + intros _. rewrite !in_app_iff. right. right. right. now left.
    + intros _. rewrite !at_level_app, Hquiet. reflexivity.
  - pose proof (main_steps_raise script_dir read_csv df _ e Hload
                  (eq_trans (M_eta _) (f_equal _ Hexc)) He) as Hmain.
    unfold run. rewrite Hmain, !exit_status_exit, !output_pair, Hexc.
    assert (Hcrit : at_level CRITICAL
              (main_prefix script_dir df ++ output (run_steps df) ++
               [(CRITICAL, UnexpectedError e)]) = [UnexpectedError e]).
    { rewrite !at_level_app, Hquiet. reflexivity. }
    repeat split; auto; try discriminate.
    + intros H. rewrite !in_app_iff in H. exfalso.
      destruct H as [H | [H | H]].
      * simpl in H. intuition discriminate.
      * exact (steps_not_completed _ H).
      * simpl in H. intuition discriminate.
    + rewrite Hcrit. discriminate.
    + intros _. exists e. auto.
Qed.

(** ** The steps that a run starts *)

Lemma line_not_started title (l : Log) :
  (forall lvl, ~ In (lvl, Line title) l) -> existsb (is_line title) l = false.
Proof.
  intros H. apply not_true_is_false. intros E.
  apply existsb_exists in E. destruct E as [[lvl msg] [Hin Hline]].
  unfold is_line in Hline. simpl in Hline.
  destruct msg; try discriminate.
  apply String.eqb_eq in Hline. subst. exact (H _ Hin).
Qed.

Lemma scorer_title_absent df lvl :
  ~ In (lvl, Line "STEP 6: DATA QUALITY SCORE (Advanced)")
       (output (validate_schema df) ++ output (check_nulls df) ++
        output (check_full_duplicates df) ++
        output (check_key_duplicates df) ++
        output (validate_business_logic df)).
Proof.
  rewrite !in_app_iff. intros [H | [H | [H | [H | H]]]].
  - unfold validate_schema in H.
    apply in_bind in H. destruct H as [H | [_ [_ H]]]; [log_absurd H |].
    apply in_bind in H. destruct H as [H | [i1 [_ H]]]; [log_absurd H |].
    apply in_bind in H. destruct H as [H | [i2 [_ H]]]; [| log_absurd H].
    apply for_fold_output in H. destruct H as [s [[col ty] [_ H]]].
    log_absurd H.
  - unfold check_nulls in H. log_absurd H.
  - unfold check_full_duplicates in H. log_absurd H.
  - unfold check_key_duplicates in H. log_absurd H.
  - unfold validate_business_logic, check_est_hours_range, check_phase_enum,
      check_type_enum in H. log_absurd H.
Qed.

Lemma first_titles_started script_dir df rest tail :
  let l := main_prefix script_dir df ++
           (output (validate_schema df) ++ output (check_nulls df) ++
            output (check_full_duplicates df) ++
            output (check_key_duplicates df) ++
            output (validate_business_logic df) ++ rest) ++ tail in
  existsb (is_line "STEP 1: SCHEMA VALIDATION") l = true /\
  existsb (is_line "STEP 2: NULL VALUE CHECK") l = true /\
  existsb (is_line "STEP 3: FULL ROW DUPLICATE CHECK") l = true /\
  existsb (is_line "STEP 4: PRIMARY KEY DUPLICATE CHECK") l = true /\
  existsb (is_line "STEP 5: BUSINESS LOGIC VALIDATION") l = true.
Proof.
  intros l.
  assert (T1 : In (INFO, Line "STEP 1: SCHEMA VALIDATION")
                  (output (validate_schema df))) by apply header_in.
  assert (T2 : In (INFO, Line "STEP 2: NULL VALUE CHECK")
                  (output (check_nulls df))) by apply header_in.
  assert (T3 : In (INFO, Line "STEP 3: FULL ROW DUPLICATE CHECK")
                  (output (check_full_duplicates df))) by apply header_in.
  assert (T4 : In (INFO, Line "STEP 4: PRIMARY KEY DUPLICATE CHECK")
                  (output (check_key_duplicates df))) by apply header_in.
  assert (T5 : In (INFO, Line "STEP 5: BUSINESS LOGIC VALIDATION")
                  (output (validate_business_logic df))) by apply header_in.
  repeat split; apply line_started; unfold l; rewrite !in_app_iff; tauto.
Qed.

(** X17: a run that loaded its table always starts the first five steps: none of
    the first four can raise.  The scorer starts exactly when the business
    logic validation ends normally, whatever that step found. *)
Theorem steps_of_a_run
        (script_dir : string) (read_csv : string -> exn + DataFrame)
        (df : DataFrame) :
  read_csv (String.append script_dir "/test_data.csv") = inr df ->
  let run := main script_dir read_csv in
  outcome (validate_schema df) = inr tt /\
  outcome (check_nulls df) = inr tt /\
  outcome (check_full_duplicates df) = inr tt /\
  outcome (check_key_duplicates df) = inr tt /\
  (outcome (validate_business_logic df) = inr tt ->
   steps_started (output run) = step_titles) /\
  (forall e, outcome (validate_business_logic df) = inl e ->
   steps_started (output run) = firstn 5 step_titles).
Proof.
  intros Hload run.
  split; [apply validate_schema_returns |].
  split; [now rewrite check_nulls_eq |].
  split; [now rewrite check_full_duplicates_eq |].
  split.
  { destruct (has_column "Story_ID" df) eqn:Hkey.
    - destruct (has_column_getitem _ _ Hkey) as [k Hk].
      now rewrite (check_key_present df k Hk).
    - now rewrite (check_key_absent df Hkey). }
  assert (Hout : exists tail, output run =
            main_prefix script_dir df ++ output (run_steps df) ++ tail /\
            forall lvl, ~ In (lvl, Line "STEP 6: DATA QUALITY SCORE (Advanced)")
                             (main_prefix script_dir df ++ tail)).
  { destruct (run_steps_outcome df) as [Hret | [e [Hexc [He _]]]].
    - eexists. split.
      + unfold run.
        now rewrite (main_steps_return script_dir read_csv df _ Hload
                       (returns_eta _ _ Hret)).
      + intros lvl H. simpl in H. intuition discriminate.
    - eexists. split.
      + unfold run.
        now rewrite (main_steps_raise script_dir read_csv df _ e Hload
                       (eq_trans (M_eta _) (f_equal _ Hexc)) He).
      + intros lvl H. simpl in H. intuition discriminate. }
  destruct Hout as [tail [Hout Htail]]. rewrite Hout, run_steps_eq.
  rewrite output_pair. unfold steps_started, step_titles.
  split.
  - intros Hret. rewrite Hret.
    assert (T6 : In (INFO, Line "STEP 6: DATA QUALITY SCORE (Advanced)")
                    (output (calculate_data_quality_score df)))
      by apply header_in.
    destruct (first_titles_started script_dir df
                (output (calculate_data_quality_score df)) tail) as
      [E1 [E2 [E3 [E4 E5]]]].
    cbn [filter]. rewrite E1, E2, E3, E4, E5.
    rewrite (line_started "STEP 6: DATA QUALITY SCORE (Advanced)")
      by (rewrite !in_app_iff; tauto).
    reflexivity.
  - intros e Hexc. rewrite Hexc.
    destruct (first_titles_started script_dir df [] tail) as
      [E1 [E2 [E3 [E4 E5]]]].
    cbn [filter firstn]. rewrite E1, E2, E3, E4, E5.
    rewrite (line_not_started "STEP 6: DATA QUALITY SCORE (Advanced)");
      [reflexivity |].
    intros lvl H. rewrite !app_nil_r in H.
    apply in_app_or in H. destruct H as [H | H].
    + apply (Htail lvl). apply in_or_app. now left.
    + apply in_app_or in H. destruct H as [H | H].
      * apply (scorer_title_absent df lvl). rewrite !in_app_iff in *. tauto.
      * apply (Htail lvl). apply in_or_app. now right.
Qed.

(** ** The per-key lines of the primary key check *)

Lemma list_sum_indicator {A : Type} (b : A -> bool) (d : list A) :
  list_sum (map (fun v => if b v then 1 else 0) d) = length (filter b d).
Proof.
  induction d as [| v d IH]; simpl; trivial. destruct (b v); simpl; lia.
Qed.

Lemma list_sum_map_add {A : Type} (f g : A -> nat) (d : list A) :
  list_sum (map (fun v => f v + g v) d) =
  list_sum (map f d) + list_sum (map g d).
Proof. induction d as [| v d IH]; simpl; lia. Qed.

(** Counting the pairs of equal values of [d] and [l] by rows or by
    columns. *)
Lemma occurrences_double_count (d l : list cell) :
  list_sum (map (fun v => occurrences cell_eqb v l) d) =
  list_sum (map (fun y => length (filter (fun v => cell_eqb v y) d)) l).
Proof.
  unfold occurrences. induction l as [| y l IH]; simpl.
  - induction d; simpl; trivial.
  - rewrite <- IH, <- list_sum_indicator, <- list_sum_map_add.
    f_equal. apply map_ext. intros v. now destruct (cell_eqb v y).
Qed.

Lemma distinct_count x l :
  length (filter (cell_eqb x) (distinct l)) =
  if existsb (cell_eqb x) l then 1 else 0.
Proof.
  induction l as [| y l IH]; simpl; trivial.
  rewrite filter_twice. destruct (cell_eqb x y) eqn:E; simpl.
  - rewrite filter_none; trivial.
    intros v _. destruct (cell_eqb x v) eqn:Ev; trivial.
    rewrite cell_eqb_sym in E.
    now rewrite (cell_eqb_trans _ _ _ E Ev).
  - rewrite <- IH. f_equal. apply filter_ext. intros v.
    destruct (cell_eqb x v) eqn:Ev; trivial.
    destruct (cell_eqb y v) eqn:Eyv; trivial.
    rewrite cell_eqb_sym in Eyv.
    now rewrite (cell_eqb_trans _ _ _ Ev Eyv) in E.
Qed.

Lemma distinct_total l :
  list_sum (map (fun v => occurrences cell_eqb v l) (distinct l)) = length l.
Proof.
  rewrite occurrences_double_count.
  transitivity (list_sum (map (fun _ : cell => 1) l)).
  - f_equal. apply map_ext_in. intros y Hy.
    rewrite (filter_ext _ (cell_eqb y))
      by (intros v; apply cell_eqb_sym).
    rewrite distinct_count.
    replace (existsb (cell_eqb y) l) with true; trivial.
    symmetry. apply existsb_exists. exists y. split; trivial.
    apply cell_eqb_refl.
  - induction l; simpl; auto.
Qed.

Lemma list_sum_perm (l l' : list nat) :
  Permutation l l' -> list_sum l = list_sum l'.
Proof. induction 1; simpl; lia. Qed.

Lemma value_counts_total l :
  list_sum (map snd (value_counts l)) = length (filter notnull l).
Proof.
  unfold value_counts.
  rewrite <- (list_sum_perm _ _ (Permutation_map snd (sort_perm _ _))).
  rewrite map_map. simpl. apply distinct_total.
Qed.

Lemma value_counts_sorted l :
  StronglySorted (fun a b => b <= a) (map snd (value_counts l)).
Proof.
  unfold value_counts.
  set (leb := fun a b : cell * nat => snd b <=? snd a).
  assert (Htotal : forall x y, leb x y = true \/ leb y x = true).
  { intros x y. unfold leb. rewrite !Nat.leb_le. lia. }
  pose proof (sort_sorted leb Htotal
                (map (fun v => (v, occurrences cell_eqb v (filter notnull l)))
                     (distinct (filter notnull l)))) as Hs.
  apply Sorted_StronglySorted.
  { intros a b c. lia. }
  induction Hs as [| x rest Hrest IH Hhd]; simpl; constructor; trivial.
  destruct Hhd as [| y rest' Hxy]; simpl; constructor.
  unfold leb in Hxy. now apply Nat.leb_le.
Qed.

Lemma filter_length_perm {A : Type} (f : A -> bool) (l l' : list A) :
  Permutation l l' -> length (filter f l) = length (filter f l').
Proof.
  induction 1; simpl; trivial.
  - destruct (f x); simpl; lia.
  - destruct (f x), (f y); simpl; lia.
  - lia.
Qed.

Lemma map_filter_fst {A B : Type} (f : A -> bool) (l : list (A * B)) :
  map fst (filter (fun p => f (fst p)) l) = filter f (map fst l).
Proof.
  induction l as [| p l IH]; simpl; trivial.
  destruct (f (fst p)); simpl; now rewrite IH.
Qed.

Lemma value_counts_key_once l k c :
  In (k, c) (value_counts l) ->
  length (filter (fun p => cell_eqb k (fst p)) (value_counts l)) = 1.
Proof.
  intros Hin. apply value_counts_In in Hin. destruct Hin as [Hk _].
  unfold value_counts.
  rewrite <- (filter_length_perm _ _ _ (sort_perm _ _)).
  rewrite <- (length_map fst), map_filter_fst.
  rewrite map_map. simpl. rewrite map_id, distinct_count.
  replace (existsb (cell_eqb k) (filter notnull l)) with true; trivial.
  symmetry. apply existsb_exists. exists k.
  split; [now apply distinct_subset | apply cell_eqb_refl].
Qed.

Lemma filter_length_split {A : Type} (p g : A -> bool) (l : list A) :
  length (filter g l) =
  length (filter (fun x => p x && g x) l) +
  length (filter (fun x => negb (p x) && g x) l).
Proof.
  induction l as [| x l IH]; simpl; trivial.
  destruct (p x), (g x); simpl; lia.
Qed.

Lemma occurrences_null l :
  occurrences cell_eqb NaN l = length (filter is_null l).
Proof.
  unfold occurrences. f_equal. apply filter_ext. now intros [| q | t].
Qed.

(** The rows marked by the key mask are those with a shared non-null key
    and, when two rows or more have no key, the rows without a key. *)
Lemma key_mask_total s :
  mask_sum (key_duplicated_all s) =
  length (filter notnull (select (cells s) (key_duplicated_all s))) +
  (if 2 <=? null_count s then null_count s else 0).
Proof.
  rewrite duplicated_keys_eq. unfold key_duplicated_all, duplicated_all.
  rewrite mask_sum_map.
  rewrite (filter_length_split notnull). f_equal.
  unfold null_count.
  rewrite (filter_ext _ (fun c => is_null c &&
                           (2 <=? length (filter is_null (cells s))))).
  - destruct (2 <=? length (filter is_null (cells s))).
    + f_equal. apply filter_ext. intros c. apply andb_true_r.
    + rewrite filter_none; trivial. intros c _. apply andb_false_r.
  - intros [| q | t]; trivial. simpl. now rewrite occurrences_null.
Qed.

Lemma key_counts_app l1 l2 :
  key_counts (l1 ++ l2) = key_counts l1 ++ key_counts l2.
Proof. apply flat_map_app. Qed.

Lemma key_counts_findings s :
  key_counts (key_findings s) =
  map snd (value_counts (select (cells s) (key_duplicated_all s))).
Proof.
  unfold key_findings, key_counts.
  induction (value_counts _) as [| p l IH]; simpl; congruence.
Qed.

Lemma lines_of_key_app k l1 l2 :
  lines_of_key k (l1 ++ l2) = lines_of_key k l1 ++ lines_of_key k l2.
Proof. apply filter_app. Qed.

Lemma lines_of_key_findings k s :
  length (lines_of_key k (key_findings s)) =
  length (filter (fun p => cell_eqb k (fst p))
                 (value_counts (select (cells s) (key_duplicated_all s)))).
Proof.
  unfold key_findings, lines_of_key.
  induction (value_counts _) as [| p l IH]; simpl; trivial.
  destruct (cell_eqb k (fst p)); simpl; now rewrite IH.
Qed.

(** X18: the per-key lines of the primary key check come most frequent first and
    name each key once.  The number of rows in the summary line is the sum
    of the per-key counts plus, when two rows or more have no key, the
    number of rows without a key: such rows are counted as duplicates of
    each other and are listed under no key. *)
Theorem key_report_totals (df : DataFrame) (s : Series) :
  getitem df "Story_ID" = Some s ->
  let out := output (check_key_duplicates df) in
  StronglySorted (fun a b => b <= a) (key_counts out) /\
  (forall lvl n, In (lvl, KeyDupesFound n) out ->
     n = list_sum (key_counts out) +
         (if 2 <=? null_count s then null_count s else 0)) /\
  (forall lvl k c, In (lvl, KeyCount k c) out ->
     length (lines_of_key k out) = 1).
Proof.
  intros Hs out. subst out. rewrite (check_key_present df s Hs).
  rewrite output_pair.
  destruct (0 <? mask_sum (key_duplicated_all s)) eqn:E.
  - assert (Hcounts : key_counts
       (header_log "STEP 4: PRIMARY KEY DUPLICATE CHECK" ++
        (ERROR, KeyDupesFound (mask_sum (key_duplicated_all s)))
          :: (ERROR, Line "Duplicate Story_IDs and their counts:")
          :: key_findings s ++
             [ (ERROR, KeyDupeRows (df_select df (key_duplicated_all s)));
               FAILED ERROR "primary key violation" ]) =
       map snd (value_counts (select (cells s) (key_duplicated_all s)))).
    { rewrite key_counts_app. cbn [key_counts flat_map header_log snd app].
      fold (key_counts
              (key_findings s ++
               [ (ERROR, KeyDupeRows (df_select df (key_duplicated_all s)));
                 FAILED ERROR "primary key violation" ])).
      rewrite key_counts_app, key_counts_findings. simpl.
      now rewrite app_nil_r. }
    rewrite Hcounts. split; [apply value_counts_sorted | split].
    + intros lvl n H. rewrite value_counts_total.
      apply in_app_or in H. destruct H as [H | H].
      { simpl in H. intuition discriminate. }
      destruct H as [H | [H | H]]; try discriminate H.
      * injection H as _ <-. apply key_mask_total.
      * apply in_app_or in H. destruct H as [H | H].
        -- unfold key_findings in H. apply in_map_iff in H.
           destruct H as [p [H _]]. discriminate H.
        -- simpl in H. intuition discriminate.
    + intros lvl k c H.
      assert (Hin : In (k, c) (value_counts
                      (select (cells s) (key_duplicated_all s)))).
      { apply in_app_or in H. destruct H as [H | H].
        { simpl in H. intuition discriminate. }
        destruct H as [H | [H | H]]; try discriminate H.
        apply in_app_or in H. destruct H as [H | H].
        - unfold key_findings in H. apply in_map_iff in H.
          destruct H as [[k' c'] [[= _ <- <-] H]]. exact H.
        - simpl in H. intuition discriminate. }
      change ((ERROR, KeyDupesFound (mask_sum (key_duplicated_all s)))
                :: (ERROR, Line "Duplicate Story_IDs and their counts:")
                :: key_findings s ++
                   [ (ERROR, KeyDupeRows
                               (df_select df (key_duplicated_all s)));
                     FAILED ERROR "primary key violation" ])
        with ([ (ERROR, KeyDupesFound (mask_sum (key_duplicated_all s)));
                (ERROR, Line "Duplicate Story_IDs and their counts:") ] ++
              key_findings s ++
              [ (ERROR, KeyDupeRows (df_select df (key_duplicated_all s)));
                FAILED ERROR "primary key violation" ]).
      rewrite !lines_of_key_app, !length_app, lines_of_key_findings.
      rewrite (value_counts_key_once _ _ _ Hin). reflexivity.
  - split; [constructor | split].
    + intros lvl n H. exfalso. simpl in H. intuition discriminate.
    + intros lvl k c H. exfalso. simpl in H. intuition discriminate.
Qed.

(* ------------------------------------------------------------------ *)
(** * Generators.py *)

Lemma advance_S n g : advance (S n) g = snd (next (advance n g)).
Proof.
  revert g. induction n as [| n IH]; intros g; [reflexivity |].
  change (advance (S (S n)) g) with (advance (S n) (snd (next g))).
  now rewrite IH.
Qed.

Lemma advance_fib n :
  advance (S n) fib = Suspended (fibonacci n) (fibonacci (S n)).
Proof.
  induction n as [| n IH]; [reflexivity |].
  rewrite advance_S, IH. reflexivity.
Qed.

Lemma nth_yield_eq n : nth_yield n = fibonacci n.
Proof.
  unfold nth_yield. destruct n as [| n]; [reflexivity |].
  now rewrite advance_fib.
Qed.

Lemma fibonacci_nonneg n : (0 <= fibonacci n)%Z.
Proof.
  enough (H : (0 <= fibonacci n /\ 0 <= fibonacci (S n))%Z) by apply H.
  induction n as [| n [IH1 IH2]]; [simpl; lia |].
  split; trivial.
  change (fibonacci (S (S n))) with (fibonacci n + fibonacci (S n))%Z. lia.
Qed.

(** X19: the generator yields the Fibonacci numbers in order: the call number
    [n + 1] of [next] yields the number of index [n], and leaves the frame
    suspended with that number and its successor.  The values never
    decrease, and each is the sum of the two before it. *)
Theorem fib_yields_fibonacci (n : nat) :
  nth_yield n = fibonacci n /\
  advance (S n) fib = Suspended (fibonacci n) (fibonacci (S n)) /\
  (0 <= nth_yield n <= nth_yield (S n))%Z /\
  (nth_yield (S (S n)) = nth_yield n + nth_yield (S n))%Z.
Proof.
  rewrite !nth_yield_eq. split; trivial. split; [apply advance_fib |].
  pose proof (fibonacci_nonneg n). pose proof (fibonacci_nonneg (S n)).
  split; [| reflexivity].
  split; trivial. destruct n as [| n]; [simpl; lia |].
  change (fibonacci (S (S n))) with (fibonacci n + fibonacci (S n))%Z.
  pose proof (fibonacci_nonneg n). lia.
Qed.

Lemma for_loop_runs (k : nat) :
  forall (fuel : nat) (limit : Z) (n : nat) (out : list printed),
    k <= fuel -> (Z.of_nat n + Z.of_nat k = limit)%Z -> 0 < k ->
    for_loop fuel limit (advance n fib) (Z.of_nat n) out =
    Some (out ++ map (fun i => Number (fibonacci i)) (seq n k)).
Proof.
  induction k as [| k IH]; intros fuel limit n out Hfuel Hlimit Hk; [lia |].
  destruct fuel as [| fuel]; [lia |].
  cbn [for_loop].
  destruct (next (advance n fib)) as [v g'] eqn:Hnext.
  assert (Hv : v = fibonacci n).
  { rewrite <- nth_yield_eq. unfold nth_yield. now rewrite Hnext. }
  assert (Hg : g' = advance (S n) fib).
  { now rewrite advance_S, Hnext. }
  subst v g'. cbn [seq map].
  destruct (Z.of_nat n + 1 =? limit)%Z eqn:E.
  - apply Z.eqb_eq in E. assert (k = 0) by lia. subst k. reflexivity.
  - apply Z.eqb_neq in E.
    replace (Z.of_nat n + 1)%Z with (Z.of_nat (S n)) by lia.
    rewrite IH by lia. now rewrite <- app_assoc.
Qed.

Lemma for_loop_never (fuel : nat) :
  forall (limit : Z) (g : frame) (counter : Z) (out : list printed),
    (limit <= counter)%Z -> for_loop fuel limit g counter out = None.
Proof.
  induction fuel as [| fuel IH]; intros limit g counter out H; trivial.
  cbn [for_loop]. destruct (next g) as [v g'].
  destruct (counter + 1 =? limit)%Z eqn:E; [apply Z.eqb_eq in E; lia |].
  apply IH. lia.
Qed.

(** X20: the loop of the testing code stops: after the message it prints the
    first ten Fibonacci numbers and nothing else, whatever bound of at
    least ten iterations it is given.  The test [counter == limit] ends the
    loop after [limit] numbers for any limit of at least one; with a limit
    below one the test is never met and the loop does not end. *)
Theorem testing_code_prints_ten_numbers (fuel : nat) :
  10 <= fuel ->
  testing_code fuel =
    Some (Text "Good, The fib function is a generator."
            :: map (fun i => Number (fibonacci i)) (seq 0 10)) /\
  testing_code fuel =
    Some (Text "Good, The fib function is a generator."
            :: map Number [0; 1; 1; 2; 3; 5; 8; 13; 21; 34]%Z) /\
  (forall limit out, 0 < limit <= fuel ->
     for_loop fuel (Z.of_nat limit) fib 0 out =
     Some (out ++ map (fun i => Number (fibonacci i)) (seq 0 limit))) /\
  (forall limit out, (limit < 1)%Z -> for_loop fuel limit fib 0 out = None).
Proof.
  intros Hfuel.
  assert (Hrun : forall limit out, 0 < limit <= fuel ->
     for_loop fuel (Z.of_nat limit) fib 0 out =
     Some (out ++ map (fun i => Number (fibonacci i)) (seq 0 limit))).
  { intros limit out [H1 H2].
    exact (for_loop_runs limit fuel (Z.of_nat limit) 0 out H2 eq_refl H1). }
  assert (Hten : testing_code fuel =
    Some (Text "Good, The fib function is a generator."
            :: map (fun i => Number (fibonacci i)) (seq 0 10))).
  { unfold testing_code. change 10%Z with (Z.of_nat 10).
    rewrite Hrun by lia. reflexivity. }
  split; [exact Hten | split; [rewrite Hten; reflexivity | split]].
  - exact Hrun.
  - intros limit out Hlimit. apply for_loop_never. lia.
Qed.

(* ------------------------------------------------------------------ *)
(** * map_zip.py *)

Lemma zip_length {A B : Type} (xs : list A) (ys : list B) :
  length (zip xs ys) = Nat.min (length xs) (length ys).
Proof.
  revert ys. induction xs as [| x xs IH]; intros [| y ys]; simpl; trivial.
  now rewrite IH.
Qed.

Lemma zip_nth {A B : Type} (xs : list A) (ys : list B) i a b :
  i < length xs -> i < length ys ->
  nth i (zip xs ys) (a, b) = (nth i xs a, nth i ys b).
Proof.
  revert ys i. induction xs as [| x xs IH]; intros [| y ys] [| i] Hx Hy;
    simpl in *; try lia; trivial.
  apply IH; lia.
Qed.

Lemma zip_unzip {A B : Type} (xs : list A) (ys : list B) :
  map fst (zip xs ys) = firstn (length ys) xs /\
  map snd (zip xs ys) = firstn (length xs) ys.
Proof.
  revert ys. induction xs as [| x xs IH]; intros [| y ys]; simpl; auto.
  destruct (IH ys) as [-> ->]. auto.
Qed.

(** X21: the three ways of pairing two lists in the script give the same list,
    whatever the two lists are: the comprehension over [zip], [map] with a
    two-argument lambda, and [list(zip(...))].  The result stops with the
    shorter list, pairs the elements position by position, and gives back
    the two lists when they have the same length. *)
Theorem zip_forms_agree {A B : Type} (xs : list A) (ys : list B) :
  results_comprehension xs ys = results_zip xs ys /\
  results_map xs ys = results_zip xs ys /\
  length (results_zip xs ys) = Nat.min (length xs) (length ys) /\
  (forall i a b, i < length xs -> i < length ys ->
     nth i (results_zip xs ys) (a, b) = (nth i xs a, nth i ys b)) /\
  (length xs = length ys ->
     map fst (results_zip xs ys) = xs /\ map snd (results_zip xs ys) = ys).
Proof.
  unfold results_comprehension, results_map, results_zip.
  split; [| split; [| split; [apply zip_length | split]]].
  - rewrite <- (map_id (zip xs ys)) at 2. apply map_ext. now intros [x y].
  - revert ys. induction xs as [| x xs IH]; intros [| y ys]; simpl; trivial.
    now rewrite IH.
  - intros i a b. apply zip_nth.
  - intros Hlen. destruct (zip_unzip xs ys) as [H1 H2].
    rewrite H1, H2. split.
    + rewrite <- Hlen. apply firstn_all.
    + rewrite Hlen. apply firstn_all.
Qed.

(* ------------------------------------------------------------------ *)
(** * The properties at sample tables *)

Lemma df_mixed_well_formed : well_formed df_mixed.
Proof. repeat constructor. Qed.

Lemma df_mixed_hours_comparable : hours_comparable df_mixed.
Proof. intros s e [= <-]. discriminate. Qed.


Lemma breakdown_lists_positive_deductions_witness :
  breakdown (output (calculate_data_quality_score df_mixed))
    = filter (fun d => Qltb 0 (snd d))
             [ ("NULLs", 300 # 80); ("Duplicates", 0 # 2668);
               ("Invalid Phase", 20000 # 2668);
               ("Invalid Hours", 200 # 40) ]%Q /\
  ~ In (INFO, Deduction "Duplicates" (0 # 2668))
       (output (calculate_data_quality_score df_mixed)).
Proof.
  destruct (breakdown_lists_positive_deductions df_mixed _ _ _ eq_refl)
    as [Hlist Hline].
  split; [exact Hlist |].
  intros H. apply Hline in H. destruct H as [_ H]. discriminate H.
Defined.

Lemma scorer_returns_iff_witness :
  outcome (calculate_data_quality_score df_header_only)
    = inl ZeroDivisionError /\
  exists r, outcome (calculate_data_quality_score df_mixed) = inr r.
Proof.
  destruct (scorer_returns_iff df_header_only) as [_ [_ Hzero]].
  destruct (scorer_returns_iff df_mixed) as [Hret _].
  split.
  - apply Hzero; [repeat constructor | reflexivity | now left].
  - apply Hret. split; [discriminate | exact df_mixed_hours_comparable].
Defined.

Lemma duplicate_counts_witness :
  first_exclusive_count df_twins < symmetric_count df_twins /\
  symmetric_count df_twins <= 3.
Proof.
  destruct (duplicate_counts df_twins) as [_ [Hlen [_ [Hlt _]]]].
  split; [apply Hlt; vm_compute; lia | exact Hlen].
Defined.

Lemma duplicate_check_agrees_with_deduction_witness :
  In PASSED (output (check_full_duplicates df_clean)) /\
  ~ In PASSED (output (check_full_duplicates df_twins)).
Proof.
  split.
  - apply (duplicate_check_agrees_with_deduction df_clean). reflexivity.
  - intros H. apply (duplicate_check_agrees_with_deduction df_twins) in H.
    discriminate H.
Defined.

Lemma duplicate_rows_are_duplicate_keys_witness :
  well_formed df_twins /\
  In (FAILED WARNING "duplicates found")
     (output (check_full_duplicates df_twins)) /\
  In (FAILED ERROR "primary key violation")
     (output (check_key_duplicates df_twins)).
Proof.
  assert (H : In (FAILED WARNING "duplicates found")
                 (output (check_full_duplicates df_twins))).
  { do 5 right. left. reflexivity. }
  split; [exact df_twins_well_formed |]. split; [exact H |].
  exact (duplicate_rows_are_duplicate_keys df_twins _ df_twins_well_formed
           eq_refl H).
Defined.

Lemma null_check_agrees_with_deduction_witness :
  well_formed df_gaps /\
  reported_nulls (output (check_nulls df_gaps)) = 4 /\
  ~ (null_deduction df_gaps == 0)%Q.
Proof.
  destruct (null_check_agrees_with_deduction df_gaps df_gaps_well_formed)
    as [Hcount Hpass].
  split; [exact df_gaps_well_formed |]. split; [exact Hcount |].
  intros H. apply Hpass in H.
  repeat (destruct H as [H | H]; [discriminate H |]). destruct H.
Defined.

Lemma schema_validation_verdict_witness :
  In PASSED (output (validate_schema df_scenario)) /\
  In (WARNING, SchemaFailed 10) (output (validate_schema df_text_hours)).
Proof.
  destruct (schema_validation_verdict df_scenario) as [_ [Hpass _]].
  destruct (schema_validation_verdict df_text_hours) as [_ [_ [Hfail _]]].
  split.
  - apply Hpass. intros col ty Hin.
    repeat (destruct Hin as [[= <- <-] | Hin];
            [eexists; split; reflexivity |]).
    destruct Hin.
  - apply Hfail. repeat split. vm_compute. lia.
Defined.

Lemma schema_validation_findings_witness :
  at_level ERROR (output (validate_schema df_text_hours)) =
    [ MissingColumns [ "Sprint"; "Sprint_Name"; "Phase"; "Story_Name"; "Type";
                       "Description"; "Tasks"; "Resources";
                       "Acceptance_Criteria" ] ] /\
  In (WARNING, TypeFail "Est_Hours" "float64" "object")
     (output (validate_schema df_text_hours)).
Proof.
  destruct (schema_validation_findings df_text_hours) as [Herr [Hfail _]].
  split; [exact Herr |].
  apply Hfail. split.
  - do 8 right. left. reflexivity.
  - eexists. split; [reflexivity |]. split; [reflexivity | discriminate].
Defined.

Lemma schema_validation_reads_dtypes_only_witness :
  validate_schema df_clean = validate_schema df_mixed.
Proof.
  apply (schema_validation_reads_dtypes_only df_clean df_mixed).
  intros col Hin.
  repeat (destruct Hin as [<- | Hin]; [reflexivity |]). destruct Hin.
Defined.

Lemma business_logic_outcome_witness :
  outcome (validate_business_logic df_text_hours) = inl TypeError /\
  outcome (validate_business_logic df_no_story_id)
    = inl (KeyError "Story_ID") /\
  outcome (validate_business_logic df_mixed) = inr tt.
Proof.
  destruct (business_logic_outcome df_text_hours) as [Hmask _].
  destruct (business_logic_outcome df_no_story_id) as [_ [Hkey _]].
  destruct (business_logic_outcome df_mixed) as [_ [Hret _]].
  split; [| split].
  - destruct (Hmask _ TypeError eq_refl eq_refl) as [_ H]. now rewrite H.
  - apply Hkey. intros s e [= <-]. discriminate.
  - apply Hret. exact df_mixed_hours_comparable.
Defined.

Lemma business_logic_verdict_witness :
  outcome (validate_business_logic df_mixed) = inr tt /\
  In (FAILED WARNING "business logic violations found")
     (output (validate_business_logic df_mixed)) /\
  In (WARNING, InvalidPhaseFound 2) (output (validate_business_logic df_mixed)) /\
  In PASSED (output (validate_business_logic df_clean)).
Proof.
  destruct (business_logic_verdict df_mixed eq_refl)
    as [_ [Hfail [_ [Hphase _]]]].
  destruct (business_logic_verdict df_clean eq_refl) as [Hpass _].
  split; [reflexivity |]. split; [| split].
  - apply Hfail. discriminate.
  - apply Hphase. split; [reflexivity | vm_compute; lia].
  - apply Hpass. reflexivity.
Defined.

Lemma phase_check_rows_witness :
  In (1, row_at df_mixed 1) (invalid_phases df_mixed) /\
  In (WARNING, InvalidPhaseRow 2 (Str "S3") (Str "capstone"))
     (output (validate_business_logic df_mixed)) /\
  ~ In (0, row_at df_mixed 0) (invalid_phases df_mixed).
Proof.
  assert (H3 : 3 < len df_mixed) by (vm_compute; lia).
  split; [| split].
  - apply (phase_check_rows df_mixed _ 1 df_mixed_well_formed eq_refl
             ltac:(vm_compute; lia)).
    reflexivity.
  - apply (phase_check_rows df_mixed _ 2 df_mixed_well_formed eq_refl
             ltac:(vm_compute; lia))
      with (k := Object [Some "S1"; Some "S2"; Some "S3"; Some "S4"]).
    + reflexivity.
    + exact df_mixed_hours_comparable.
    + intros [t [[= <-] Hin]].
      repeat (destruct Hin as [Hin | Hin]; [discriminate Hin |]).
      destruct Hin.
  - intros H.
    apply (phase_check_rows df_mixed _ 0 df_mixed_well_formed eq_refl
             ltac:(vm_compute; lia)) in H.
    apply H. exists "Foundation". split; [reflexivity | now left].
Defined.

Lemma type_check_rows_witness :
  In (2, row_at df_mixed 2) (invalid_types df_mixed) /\
  In (WARNING, InvalidTypeRow 1 (Str "S2") (Str "Homework"))
     (output (validate_business_logic df_mixed)) /\
  ~ In (3, row_at df_mixed 3) (invalid_types df_mixed).
Proof.
  split; [| split].
  - apply (type_check_rows df_mixed _ 2 df_mixed_well_formed eq_refl
             ltac:(vm_compute; lia)).
    reflexivity.
  - apply (type_check_rows df_mixed _ 1 df_mixed_well_formed eq_refl
             ltac:(vm_compute; lia))
      with (k := Object [Some "S1"; Some "S2"; Some "S3"; Some "S4"]).
    + reflexivity.
    + exact df_mixed_hours_comparable.
    + intros [t [[= <-] Hin]].
      repeat (destruct Hin as [Hin | Hin]; [discriminate Hin |]).
      destruct Hin.
  - intros H.
    apply (type_check_rows df_mixed _ 3 df_mixed_well_formed eq_refl
             ltac:(vm_compute; lia)) in H.
    apply H. exists "Project". split; [reflexivity |].
    do 8 right. now left.
Defined.

Lemma scorer_charges_the_checked_rows_witness :
  In ("Invalid Phase", phase_deduction_of 2 (len df_mixed))
     [ ("NULLs", 300 # 80); ("Duplicates", 0 # 2668);
       ("Invalid Phase", 20000 # 2668); ("Invalid Hours", 200 # 40) ]%Q /\
  In ("Invalid Hours", hours_deduction_of 2 (len df_mixed))
     [ ("NULLs", 300 # 80); ("Duplicates", 0 # 2668);
       ("Invalid Phase", 20000 # 2668); ("Invalid Hours", 200 # 40) ]%Q.
Proof.
  destruct (scorer_charges_the_checked_rows df_mixed _ _ _ eq_refl)
    as [_ [Hphase Hhours]].
  split.
  - apply (Hphase WARNING 2). do 8 right. left. reflexivity.
  - apply (Hhours WARNING 2). do 4 right. left. reflexivity.
Defined.

Lemma main_exit_status_witness :
  exit_status (main "/srv" (loaded df_mixed)) = 0 /\
  exit_status (main "/srv" (loaded df_header_only)) = 1.
Proof.
  destruct (main_exit_status "/srv" (loaded df_mixed) df_mixed eq_refl)
    as [_ [Hzero _]].
  destruct (main_exit_status "/srv" (loaded df_header_only) df_header_only
              eq_refl) as [Hcases [Hzero' _]].
  split.
  - apply Hzero. split; [exact df_mixed_hours_comparable |].
    split; [now right | discriminate].
  - destruct Hcases as [H | H]; [| exact H].
    apply Hzero' in H. destruct H as [_ [_ H]].
    destruct (H eq_refl). discriminate.
Defined.

Lemma steps_of_a_run_witness :
  steps_started (output (main "/srv" (loaded df_mixed))) = step_titles /\
  steps_started (output (main "/srv" (loaded df_no_story_id)))
    = firstn 5 step_titles.
Proof.
  destruct (steps_of_a_run "/srv" (loaded df_mixed) df_mixed eq_refl)
    as [_ [_ [_ [_ [Hall _]]]]].
  destruct (steps_of_a_run "/srv" (loaded df_no_story_id) df_no_story_id
              eq_refl) as [_ [_ [_ [_ [_ Hfive]]]]].
  split.
  - apply Hall. reflexivity.
  - apply (Hfive (KeyError "Story_ID")). reflexivity.
Defined.

Lemma key_report_totals_witness :
  key_counts (output (check_key_duplicates df_gaps)) = [] /\
  2 = list_sum (key_counts (output (check_key_duplicates df_gaps))) +
      (if 2 <=? null_count (Object [Some "S1"; None; None; Some "S4"])
       then null_count (Object [Some "S1"; None; None; Some "S4"]) else 0) /\
  length (lines_of_key (Str "S1") (output (check_key_duplicates df_scenario)))
    = 1.
Proof.
  destruct (key_report_totals df_gaps _ eq_refl) as [_ [Htotal _]].
  destruct (key_report_totals df_scenario _ eq_refl) as [_ [_ Honce]].
  split; [reflexivity |]. split.
  - apply (Htotal ERROR 2). do 3 right. left. reflexivity.
  - apply (Honce ERROR (Str "S1") 2). do 5 right. left. reflexivity.
Defined.

Lemma fib_yields_fibonacci_witness :
  nth_yield 9 = 34%Z /\ advance 10 fib = Suspended 34 55.
Proof.
  destruct (fib_yields_fibonacci 9) as [Hvalue [Hframe _]].
  split; [exact Hvalue | exact Hframe].
Defined.

Lemma testing_code_prints_ten_numbers_witness :
  testing_code 10 =
    Some (Text "Good, The fib function is a generator."
            :: map Number [0; 1; 1; 2; 3; 5; 8; 13; 21; 34]%Z) /\
  testing_code 9 = None.
Proof.
  split; [| reflexivity].
  apply (testing_code_prints_ten_numbers 10 (le_n 10)).
Defined.

Lemma zip_forms_agree_witness :
  results_comprehension my_strings my_numbers
    = [ ("a", 1); ("b", 2); ("c", 3); ("d", 4); ("e", 5) ]%Z /\
  results_map my_strings my_numbers = results_zip my_strings my_numbers /\
  map fst (results_zip my_strings my_numbers) = my_strings.
Proof.
  destruct (zip_forms_agree my_strings my_numbers)
    as [Hcomp [Hmap [_ [_ Hback]]]].
  split; [rewrite Hcomp; reflexivity |].
  split; [exact Hmap |]. apply Hback. reflexivity.
Defined.

(* ------------------------------------------------------------------ *)
(** * What is written below the INFO level *)

Lemma null_findings_In df r :
  In r (null_findings df) ->
  exists col s, In (col, s) (data df) /\ 0 < null_count s /\
    r = (WARNING, NullColumn col (null_count s)
                             (null_pct (null_count s) (len df))).
Proof.
  unfold null_findings. rewrite in_map_iff.
  intros [[col count] [<- Hin]]. apply cols_with_nulls_In in Hin.
  destruct Hin as [s [Hin [-> Hpos]]]. exists col, s. auto.
Qed.

Lemma check_nulls_log df r :
  In r (output (check_nulls df)) ->
  In r (header_log "STEP 2: NULL VALUE CHECK") \/
  r = (INFO, Line "  [OK] No NULL values found") \/ r = PASSED \/
  (r = (WARNING, NullColumnsFound (length (cols_with_nulls df))) /\
   cols_with_nulls df <> []) \/
  In r (null_findings df) \/ r = FAILED WARNING "NULLs found".
Proof.
  rewrite check_nulls_eq, output_pair, in_app_iff.
  intros [H | H]; [now left | right].
  destruct (cols_with_nulls df) as [| c l] eqn:E; simpl is_nil in H;
    cbv iota in H.
  - destruct H as [<- | [<- | []]]; auto.
  - destruct H as [<- | H].
    + right. right. left. split; [reflexivity | discriminate].
    + apply in_app_or in H. destruct H as [H | [<- | []]]; auto.
Qed.

(** X22: the null check reports, for a column, a count between 1 and the number
    of rows and a percentage above 0 and at most 100, and the number of
    columns it announces is the number of columns it lists.  The row
    indices of the nulls are computed but never written: their line is at
    DEBUG level, below the level of the logger. *)
Theorem null_report_bounds (df : DataFrame) :
  well_formed df ->
  let out := output (check_nulls df) in
  (forall lvl col count pct, In (lvl, NullColumn col count pct) out ->
     0 < count <= len df /\ (0 < pct /\ pct <= 100)%Q) /\
  (forall lvl n, In (lvl, NullColumnsFound n) out ->
     n = length (filter (fun r => match snd r with
                                  | NullColumn _ _ _ => true
                                  | _ => false
                                  end) out) /\
     0 < n <= length (columns df)) /\
  (forall lvl indices, ~ In (lvl, NullRowIndices indices) out) /\
  at_level DEBUG out = [].
Proof.
  intros Hwf out.
  assert (Hnot : forall lvl indices, ~ In (lvl, NullRowIndices indices) out).
  { intros lvl indices H. apply check_nulls_log in H.
    destruct H as [H | [H | [H | [[H _] | [H | H]]]]]; try discriminate H.
    - simpl in H. intuition discriminate.
    - apply null_findings_In in H. destruct H as [col [s [_ [_ H]]]].
      discriminate H. }
  split; [| split; [| split; [exact Hnot |]]].
  - intros lvl col count pct H. apply check_nulls_log in H.
    destruct H as [H | [H | [H | [[H _] | [H | H]]]]]; try discriminate H.
    { simpl in H. intuition discriminate. }
    apply null_findings_In in H. destruct H as [c [s [Hin [Hpos H]]]].
    injection H as _ _ -> ->.
    assert (Hle : null_count s <= len df).
    { unfold well_formed in Hwf. rewrite Forall_forall in Hwf.
      rewrite <- (Hwf _ Hin). simpl. unfold null_count.
      apply filter_length_le. }
    split; [lia |]. unfold null_pct. split.
    + apply Qmult_lt_0_compat; [apply ratio_pos; lia | reflexivity].
    + setoid_replace 100%Q with (1 * 100)%Q at 2 by ring.
      apply Qmult_le_compat_r; [now apply ratio_le_1 | discriminate].
  - intros lvl n H. apply check_nulls_log in H.
    destruct H as [H | [H | [H | [[H Hne] | [H | H]]]]]; try discriminate H.
    { simpl in H. intuition discriminate. }
    { injection H as _ ->. split.
      - unfold out. rewrite check_nulls_eq, output_pair, filter_app.
        destruct (cols_with_nulls df) as [| c l] eqn:E; [congruence |].
        simpl is_nil. cbv iota. rewrite <- E.
        cbn [header_log filter snd app].
        rewrite filter_app, length_app. unfold null_findings.
        rewrite forallb_filter_id.
        + rewrite length_map. simpl. lia.
        + apply forallb_forall. intros r Hr. apply in_map_iff in Hr.
          destruct Hr as [p [<- _]]. reflexivity.
      - split.
        + destruct (cols_with_nulls df); [congruence | simpl; lia].
        + unfold cols_with_nulls, null_counts, columns.
          eapply Nat.le_trans; [apply filter_length_le |].
          now rewrite !length_map. }
    apply null_findings_In in H. destruct H as [c [s [_ [_ H]]]].
    discriminate H.
  - apply at_level_none. intros msg H. apply check_nulls_log in H.
    destruct H as [H | [H | [H | [[H _] | [H | H]]]]]; try discriminate H.
    + simpl in H. intuition discriminate.
    + apply null_findings_In in H. destruct H as [col [s [_ [_ H]]]].
      discriminate H.
Qed.

Lemma steps_not_debug df msg : ~ In (DEBUG, msg) (output (run_steps df)).
Proof.
  rewrite run_steps_eq. unfold output at 1. cbn [fst].
  rewrite !in_app_iff. intros [H | [H | [H | [H | [H | H]]]]].
  - unfold validate_schema in H.
    apply in_bind in H. destruct H as [H | [_ [_ H]]]; [log_absurd H |].
    apply in_bind in H. destruct H as [H | [i1 [_ H]]]; [log_absurd H |].
    apply in_bind in H. destruct H as [H | [i2 [_ H]]]; [| log_absurd H].
    apply for_fold_output in H. destruct H as [s [[col ty] [_ H]]].
    log_absurd H.
  - unfold check_nulls in H. log_absurd H.
  - unfold check_full_duplicates in H. log_absurd H.
  - unfold check_key_duplicates in H. log_absurd H.
  - unfold validate_business_logic, check_est_hours_range, check_phase_enum,
      check_type_enum in H. log_absurd H.
  - destruct (outcome (validate_business_logic df)); [destruct H |].
    unfold calculate_data_quality_score, report_score in H. log_absurd H.
Qed.

(** X23: a run writes no record at DEBUG level, whatever the loader returns or
    raises: the logger is set to INFO, so the only debug line of the
    program, the row indices of the nulls, never reaches the report. *)
Theorem run_writes_no_debug_record
        (script_dir : string) (read_csv : string -> exn + DataFrame) :
  at_level DEBUG (output (main script_dir read_csv)) = [].
Proof.
  destruct (read_csv (String.append script_dir "/test_data.csv"))
    as [e | df] eqn:Hload.
  - unfold main. rewrite Hload. destruct e; reflexivity.
  - pose proof (at_level_none _ _ (steps_not_debug df)) as Hquiet.
    destruct (run_steps_outcome df) as [Hret | [e [Hexc [He _]]]].
    + rewrite (main_steps_return script_dir read_csv df _ Hload
                 (returns_eta _ _ Hret)).
      rewrite output_pair, !at_level_app, Hquiet. reflexivity.
    + rewrite (main_steps_raise script_dir read_csv df _ e Hload
                 (eq_trans (M_eta _) (f_equal _ Hexc)) He).
      rewrite output_pair, !at_level_app, Hquiet. reflexivity.
Qed.

Lemma null_report_bounds_witness :
  well_formed df_gaps /\
  at_level DEBUG (output (check_nulls df_gaps)) = [] /\
  In (WARNING, NullColumnsFound 2) (output (check_nulls df_gaps)) /\
  2 <= length (columns df_gaps).
Proof.
  destruct (null_report_bounds df_gaps df_gaps_well_formed)
    as [_ [Hfound [_ Hdebug]]].
  assert (H : In (WARNING, NullColumnsFound 2) (output (check_nulls df_gaps))).
  { do 3 right. left. reflexivity. }
  split; [exact df_gaps_well_formed |]. split; [exact Hdebug |].
  split; [exact H |]. apply (Hfound WARNING 2 H).
Defined.

Lemma run_writes_no_debug_record_witness :
  at_level DEBUG (output (main "/srv" (loaded df_gaps))) = [] /\
  at_level DEBUG (output (main "/srv" (failing EmptyDataError))) = [].
Proof.
  split; apply run_writes_no_debug_record.
Defined.
